(** * nautobot.utilities.forms.forms: form validation and filter-form wiring

    A shallow embedding of [nautobot/utilities/forms/forms.py].  Python
    dictionaries are finite maps, the objects a method mutates are threaded
    through a state-and-exception monad, and every call that leaves the module
    ([json.loads], [yaml.load], [re.compile], the filter-set helpers) goes to
    a function supplied by the caller and is written to a call log.  The
    constructor of [forms.Form], which [DynamicFilterForm.__init__] reaches
    through [super()], is supplied by the caller as well. *)

From Stdlib Require Import ZArith Ascii String List Lia.
From stdpp Require Import base option list strings pretty gmap fin_maps.

Set Warnings "-register-all".

Open Scope string_scope.
Open Scope list_scope.
Open Scope Z_scope.

(** ** Python values, exceptions and the execution monad *)

Module Py.

(** The values that reach this module: form data, decoded JSON and YAML
    documents, keyword arguments.  [VObj] is a reference to an object the
    module only passes along (a class, an uploaded-files mapping);
    [VQueryDict] is the request's multi-valued dictionary. *)
Inductive pyval : Type :=
| VNone
| VBool (b : bool)
| VInt (n : Z)
| VStr (s : string)
| VList (items : list pyval)
| VTuple (items : list pyval)
| VDict (entries : list (string * pyval))
| VQueryDict (lists : list (string * list string))
| VObj (name : string).

(** Exceptions, each carrying what [str(err)] prints. *)
Inductive exn : Type :=
| ValidationError (errors : list (string * string))
| JSONDecodeError (msg : string)
| YAMLError (msg : string)
| re_error (msg : string)
| KeyError (key : string)
| IndexError
| TypeError (msg : string)
| AttributeError (msg : string)
| OtherError (name msg : string).

Inductive outcome (A : Type) : Type :=
| Return (a : A)
| Raise (e : exn).
Arguments Return {A} a.
Arguments Raise {A} e.

(** [bool(v)] *)
Definition truthy (v : pyval) : bool :=
  match v with
  | VNone => false
  | VBool b => b
  | VInt n => negb (n =? 0)
  | VStr s => negb (String.eqb s EmptyString)
  | VList l | VTuple l => match l with [] => false | _ => true end
  | VDict d => match d with [] => false | _ => true end
  | VQueryDict d => match d with [] => false | _ => true end
  | VObj _ => true
  end.

(** [v == s] for a string literal [s] *)
Definition eq_str (v : pyval) (s : string) : bool :=
  match v with
  | VStr t => String.eqb t s
  | _ => false
  end.

(** [isinstance(v, dict)] *)
Definition isinstance_dict (v : pyval) : bool :=
  match v with
  | VDict _ => true
  | _ => false
  end.

(** [key in d] for a dictionary *)
Definition has_key {V} (key : string) (d : gmap string V) : bool :=
  match d !! key with Some _ => true | None => false end.

(** [needle in hay] for two strings *)
Fixpoint str_contains (needle hay : string) : bool :=
  String.prefix needle hay ||
  match hay with
  | EmptyString => false
  | String _ rest => str_contains needle rest
  end.

(** [s in v]: substring test on a string, membership in a list, key test
    on a dictionary; the other values are not iterable. *)
Definition contains (s : string) (v : pyval) : outcome bool :=
  match v with
  | VStr hay => Return (str_contains s hay)
  | VList l | VTuple l => Return (existsb (fun x => eq_str x s) l)
  | VDict d => Return (existsb (fun kv => String.eqb (fst kv) s) d)
  | VQueryDict d => Return (existsb (fun kv => String.eqb (fst kv) s) d)
  | _ => Raise (TypeError "argument is not iterable")
  end.

(** Computations over a mutable state [S] that may raise.  The state is
    kept when an exception is raised: an assignment made before the
    [raise] stays made. *)
Definition M (S A : Type) : Type := S -> outcome A * S.

Definition ret {S A} (a : A) : M S A := fun s => (Return a, s).
Definition raise {S A} (e : exn) : M S A := fun s => (Raise e, s).
Definition bind {S A B} (m : M S A) (k : A -> M S B) : M S B :=
  fun s =>
    match m s with
    | (Return a, s') => k a s'
    | (Raise e, s') => (Raise e, s')
    end.
Definition modify {S} (f : S -> S) : M S unit := fun s => (Return tt, f s).
Definition lift {S A} (o : outcome A) : M S A := fun s => (o, s).

(** [try: body  except <handles> as err: handler err] *)
Definition try_except {S A} (body : M S A) (handles : exn -> bool)
    (handler : exn -> M S A) : M S A :=
  fun s =>
    match body s with
    | (Return a, s') => (Return a, s')
    | (Raise e, s') => if handles e then handler e s' else (Raise e, s')
    end.

Definition str_of_exn (e : exn) : string :=
  match e with
  | JSONDecodeError m | YAMLError m | re_error m => m
  | KeyError k => k
  | IndexError => "list index out of range"
  | TypeError m | AttributeError m | OtherError _ m => m
  | ValidationError _ => "ValidationError"
  end.

(** The outcome of [raise forms.ValidationError({field: message})] *)
Definition invalid {A} (field message : string) : outcome A :=
  Raise (ValidationError [(field, message)]).

Definition is_JSONDecodeError (e : exn) : bool :=
  match e with JSONDecodeError _ => true | _ => false end.
Definition is_YAMLError (e : exn) : bool :=
  match e with YAMLError _ => true | _ => false end.
Definition is_re_error (e : exn) : bool :=
  match e with re_error _ => true | _ => false end.

End Py.
Export Py.

Notation "'let*' x := m 'in' k" := (bind m (fun x => k))
  (at level 10, x name, m at level 100, k at level 200).
Notation "'exec' m 'then' k" := (bind m (fun _ => k))
  (at level 10, m at level 100, k at level 200).

(** ** Calls that leave the module

    The decoders and the regular-expression compiler are libraries; the
    embedding takes them as functions from the argument string to an outcome
    and records each call with its result. *)

Module Lib.

Inductive libfn : Type := json_loads | yaml_load | re_compile.

Record call : Type := Call { fn : libfn; arg : pyval; res : outcome pyval }.

(** A bound form while its [clean] runs: the dictionary [self.cleaned_data]
    and the log of library calls made so far. *)
Record bound_form : Type := BoundForm { cleaned_data : gmap string pyval; log : list call }.

Definition set_cleaned_data (d : gmap string pyval) (f : bound_form) : bound_form :=
  {| cleaned_data := d; log := log f |}.

(** [self.cleaned_data[key]] *)
Definition getitem (key : string) : M bound_form pyval :=
  fun f =>
    match cleaned_data f !! key with
    | Some v => (Return v, f)
    | None => (Raise (KeyError key), f)
    end.

(** [self.cleaned_data[key] = v] *)
Definition setitem (key : string) (v : pyval) : M bound_form unit :=
  modify (fun f => set_cleaned_data (<[key := v]> (cleaned_data f)) f).

(** A library function applied to a value.  The libraries take text: any
    other argument is rejected by the library itself, [json.loads] and
    [re.compile] with a [TypeError], [yaml.load] when it looks for the
    stream's [read] method. *)
Definition apply (f : libfn) (impl : string -> outcome pyval) (v : pyval)
    : outcome pyval :=
  match v with
  | VStr s => impl s
  | _ =>
      match f with
      | yaml_load => Raise (AttributeError "object has no attribute 'read'")
      | _ => Raise (TypeError "expected a string")
      end
  end.

Definition invoke (f : libfn) (impl : string -> outcome pyval) (v : pyval)
    : M bound_form pyval :=
  fun s =>
    let r := apply f impl v in
    (r, {| cleaned_data := cleaned_data s;
           log := log s ++ [Call f v r] |}).

(** The library calls a computation makes when started on [f] *)
Definition calls_during {A} (c : M bound_form A) (f : bound_form) : list call :=
  drop (length (log f)) (log (snd (c f))).

(** [forms.Form.clean]: returns [self.cleaned_data], changes nothing. *)
Definition super_clean : M bound_form unit := ret tt.

End Lib.
Export Lib.

Definition newline : string := String "010" EmptyString.

(** ** [class ImportForm] *)

Module ImportForm.
Section Clean.

Variable json_loads_impl : string -> outcome pyval.
Variable yaml_load_impl : string -> outcome pyval.

Definition one_object_message : string :=
  "Import is limited to one object at a time.".

Definition clean : M bound_form unit :=
  exec super_clean then
  let* data := getitem "data" in
  let* format := getitem "format" in
  if eq_str format "json" then
    try_except
      (let* v := invoke json_loads json_loads_impl data in
       exec setitem "data" v then
       let* d := getitem "data" in
       if negb (isinstance_dict d) then
         raise (ValidationError [("data", one_object_message)])
       else ret tt)
      is_JSONDecodeError
      (fun err =>
         raise (ValidationError
                  [("data", "Invalid JSON data: " +:+ str_of_exn err)]))
  else
    let* multi := lift (contains (newline +:+ "---") data) in
    if multi then
      raise (ValidationError [("data", one_object_message)])
    else
      try_except
        (let* v := invoke yaml_load yaml_load_impl data in
         setitem "data" v)
        is_YAMLError
        (fun err =>
           raise (ValidationError
                    [("data", "Invalid YAML data: " +:+ str_of_exn err)])).

End Clean.
End ImportForm.

(** ** [class BulkRenameForm] *)

Module BulkRenameForm.
Section Clean.

Variable re_compile_impl : string -> outcome pyval.

Definition clean : M bound_form unit :=
  exec super_clean then
  let* use_regex := getitem "use_regex" in
  if truthy use_regex then
    try_except
      (let* find := getitem "find" in
       exec invoke re_compile re_compile_impl find then
       ret tt)
      is_re_error
      (fun _ => raise (ValidationError [("find", "Invalid regular expression")]))
  else ret tt.

End Clean.
End BulkRenameForm.

(** ** Strings as the code uses them

    A string is a sequence of code points below 256.  [isspace] is the
    white space [str.strip] removes in that range. *)

Module Str.

Definition isspace (c : ascii) : bool :=
  let n := nat_of_ascii c in
  ((9 <=? n) && (n <=? 13) || (28 <=? n) && (n <=? 32)
   || (n =? 133) || (n =? 160))%nat.

Fixpoint lstrip (s : string) : string :=
  match s with
  | EmptyString => EmptyString
  | String c rest => if isspace c then lstrip rest else s
  end.

Fixpoint rstrip (s : string) : string :=
  match s with
  | EmptyString => EmptyString
  | String c rest =>
      match rstrip rest with
      | EmptyString => if isspace c then EmptyString else String c EmptyString
      | kept => String c kept
      end
  end.

(** [s.strip()] *)
Definition strip (s : string) : string := lstrip (rstrip s).

(** [sep.join(items)]: every item has to be a string. *)
Fixpoint join (sep : string) (items : list pyval) : outcome string :=
  match items with
  | [] => Return EmptyString
  | [VStr s] => Return s
  | VStr s :: rest =>
      match join sep rest with
      | Return t => Return (s +:+ sep +:+ t)
      | Raise e => Raise e
      end
  | _ :: _ => Raise (TypeError "sequence item: expected str instance")
  end.

(** [s.split()]: the maximal runs of characters that are not white space. *)
Fixpoint split_ws_aux (cur : string) (s : string) : list string :=
  match s with
  | EmptyString =>
      match cur with EmptyString => [] | _ => [cur] end
  | String c rest =>
      if isspace c then
        match cur with
        | EmptyString => split_ws_aux EmptyString rest
        | _ => cur :: split_ws_aux EmptyString rest
        end
      else split_ws_aux (cur +:+ String c EmptyString) rest
  end.

Definition split_ws (s : string) : list string := split_ws_aux EmptyString s.

End Str.

(** ** The part of [django.forms] the module touches *)

Module Django.

(** A class, by name, with the names of the classes it inherits from. *)
Record pyclass : Type := Class { cname : string; ancestors : list string }.

Definition class_eqb (a b : pyclass) : bool := String.eqb (cname a) (cname b).

(** [c in classes], on class objects *)
Definition class_in (c : pyclass) (classes : list pyclass) : bool :=
  existsb (class_eqb c) classes.

(** [issubclass(c, base)] *)
Definition issubclass (c base : pyclass) : bool :=
  class_eqb c base || existsb (String.eqb (cname base)) (ancestors c).

Definition Widget : pyclass := Class "Widget" [].
Definition Input : pyclass := Class "Input" ["Widget"].
Definition TextInput : pyclass := Class "TextInput" ["Input"; "Widget"].
Definition HiddenInput : pyclass := Class "HiddenInput" ["Input"; "Widget"].
Definition CheckboxInput : pyclass := Class "CheckboxInput" ["Input"; "Widget"].
Definition FileInput : pyclass := Class "FileInput" ["Input"; "Widget"].
Definition ClearableFileInput : pyclass :=
  Class "ClearableFileInput" ["FileInput"; "Input"; "Widget"].
Definition ChoiceWidget : pyclass := Class "ChoiceWidget" ["Widget"].
Definition Select : pyclass := Class "Select" ["ChoiceWidget"; "Widget"].
Definition SelectMultiple : pyclass :=
  Class "SelectMultiple" ["Select"; "ChoiceWidget"; "Widget"].
Definition RadioSelect : pyclass := Class "RadioSelect" ["ChoiceWidget"; "Widget"].

(** A widget object: its class and its [attrs] dictionary. *)
Record widget : Type := MkWidget {
  widget_class : pyclass;
  attrs : gmap string pyval
}.

(** [isinstance(w, c)] *)
Definition isinstance (w : widget) (c : pyclass) : bool :=
  issubclass (widget_class w) c.

Definition set_attrs (a : gmap string pyval) (w : widget) : widget :=
  {| widget_class := widget_class w; attrs := a |}.

Inductive field_class : Type := CharField | ChoiceField | BooleanField | OtherField (name : string).

(** A form field: the attributes this module reads or sets. *)
Record field : Type := MkField {
  fclass : field_class;
  required : bool;
  label : pyval;
  initial : pyval;
  choices : pyval;
  widget_of : widget
}.

Definition set_widget (w : widget) (f : field) : field :=
  {| fclass := fclass f; required := required f; label := label f;
     initial := initial f; choices := choices f; widget_of := w |}.

Definition set_choices (c : pyval) (f : field) : field :=
  {| fclass := fclass f; required := required f; label := label f;
     initial := initial f; choices := c; widget_of := widget_of f |}.

(** [self.fields]: field names to fields, in declaration order. *)
Definition fields_t : Type := list (string * field).

Fixpoint fields_get (name : string) (fs : fields_t) : option field :=
  match fs with
  | [] => None
  | (n, f) :: rest => if String.eqb n name then Some f else fields_get name rest
  end.

(** [self.fields[name] = f]: replaces in place, or appends a new name. *)
Fixpoint fields_set (name : string) (f : field) (fs : fields_t) : fields_t :=
  match fs with
  | [] => [(name, f)]
  | (n, g) :: rest =>
      if String.eqb n name then (n, f) :: rest
      else (n, g) :: fields_set name f rest
  end.

End Django.
Export Django.

(** ** [class BootstrapMixin] *)

Module BootstrapMixin.

Definition exempt_widgets : list pyclass :=
  [CheckboxInput; ClearableFileInput; FileInput; RadioSelect].

(** The body of the loop, for one field.  The only step that can raise is
    the [join]; it comes before the first assignment. *)
Definition loop_body (f : field) : outcome field :=
  let w := widget_of f in
  let styled :=
    if negb (class_in (widget_class w) exempt_widgets) then
      let css := default (VStr EmptyString) (attrs w !! "class") in
      match Str.join " " [css; VStr "form-control"] with
      | Return joined => Return (<["class" := VStr (Str.strip joined)]> (attrs w))
      | Raise e => Raise e
      end
    else Return (attrs w) in
  match styled with
  | Raise e => Raise e
  | Return a1 =>
      let a2 :=
        if required f && negb (isinstance w FileInput)
        then <["required" := VStr "required"]> a1 else a1 in
      let a3 :=
        match a2 !! "placeholder" with
        | None => <["placeholder" := label f]> a2
        | Some _ => a2
        end in
      Return (set_widget (set_attrs a3 w) f)
  end.

(** [for field_name, field in self.fields.items(): ...] over the state
    [self.fields]; a field that raises stops the loop, the fields before it
    stay changed. *)
Fixpoint loop (fs : fields_t) : outcome unit * fields_t :=
  match fs with
  | [] => (Return tt, [])
  | (name, f) :: rest =>
      match loop_body f with
      | Raise e => (Raise e, (name, f) :: rest)
      | Return f' =>
          let (r, rest') := loop rest in (r, (name, f') :: rest')
      end
  end.

(** [__init__], after [super().__init__] has filled [self.fields]. *)
Definition __init__ : M fields_t unit := loop.

End BootstrapMixin.

(** ** Model forms: what [AddressFieldMixin] and [PrefixFieldMixin] see *)

Module ModelForm.

(** Text, a number or a flag: a value that has neither a [copy] method nor
    the attributes of a model. *)
Inductive scalar : Type :=
| SText (s : string)
| SNumber (n : Z)
| SFlag (b : bool).

(** A keyword argument of [ModelForm.__init__]: [None], a model instance
    (its attributes by name), a dictionary, or a scalar.  A list, or a
    mapping that is not a plain dictionary, is not among these values: it
    has a [copy] method of its own, and the constructor would go on with
    the copy. *)
Inductive karg : Type :=
| ANone
| AInstance (attributes : gmap string pyval)
| ADict (d : gmap string pyval)
| AOther (v : scalar).

(** [x.copy()]: of these values only a dictionary has the method. *)
Definition copy (x : karg) : outcome (gmap string pyval) :=
  match x with
  | ADict d => Return d
  | _ => Raise (AttributeError "object has no attribute 'copy'")
  end.

(** [x.name] *)
Definition getattr (x : karg) (name : string) : outcome pyval :=
  match x with
  | AInstance a =>
      match a !! name with
      | Some v => Return v
      | None => Raise (AttributeError name)
      end
  | _ => Raise (AttributeError name)
  end.

Definition is_None (x : karg) : bool :=
  match x with ANone => true | _ => false end.

(** [d] is the dictionary [kwargs.get("initial", {})] yields: the one
    supplied, or an empty one. *)
Definition supplied_initial (kwargs : gmap string karg) (d : gmap string pyval) : Prop :=
  kwargs !! "initial" = Some (ADict d) \/ (kwargs !! "initial" = None /\ d = ∅).

(** The form while [clean] runs: [self.instance], [self.cleaned_data] and
    the flag [ModelForm.clean] sets. *)
Record modelform : Type := MkModelForm {
  instance : gmap string pyval;
  cleaned_data : gmap string pyval;
  _validate_unique : bool
}.

(** [django.forms.BaseModelForm.clean] *)
Definition super_clean : M modelform unit :=
  modify (fun f => {| instance := instance f; cleaned_data := cleaned_data f;
                      _validate_unique := true |}).

(** [self.instance.name = self.cleaned_data.get(key)] *)
Definition set_instance_from_cleaned (name key : string) : M modelform unit :=
  modify (fun f =>
    {| instance := <[name := default VNone (cleaned_data f !! key)]> (instance f);
       cleaned_data := cleaned_data f;
       _validate_unique := _validate_unique f |}).

(** The end of [BaseForm.full_clean]: [_clean_form], which calls [clean],
    and then [_post_clean], where a model form validates the instance. *)
Definition clean_then_post_clean (clean _post_clean : M modelform unit)
    : M modelform unit :=
  exec clean then _post_clean.

End ModelForm.

(** ** [class AddressFieldMixin] *)

Module AddressFieldMixin.
Import ModelForm.

(** [__init__], up to the call of [super().__init__]: the result is the
    [kwargs] that call receives. *)
Definition __init__ (kwargs : gmap string karg) : outcome (gmap string karg) :=
  let instance := default ANone (kwargs !! "instance") in
  match copy (default (ADict ∅) (kwargs !! "initial")) with
  | Raise e => Raise e
  | Return initial =>
      let patched :=
        if negb (has_key "address" initial) && negb (is_None instance) then
          match getattr instance "address" with
          | Return v => Return (<["address" := v]> initial)
          | Raise e => Raise e
          end
        else Return initial in
      match patched with
      | Raise e => Raise e
      | Return initial' => Return (<["initial" := ADict initial']> kwargs)
      end
  end.

Definition clean : M modelform unit :=
  exec super_clean then
  set_instance_from_cleaned "address" "address".

End AddressFieldMixin.

(** ** [class PrefixFieldMixin] *)

Module PrefixFieldMixin.
Import ModelForm.

Definition __init__ (kwargs : gmap string karg) : outcome (gmap string karg) :=
  let instance := default ANone (kwargs !! "instance") in
  match copy (default (ADict ∅) (kwargs !! "initial")) with
  | Raise e => Raise e
  | Return initial =>
      let patched :=
        if negb (has_key "prefix" initial) && negb (is_None instance) then
          match getattr instance "prefix" with
          | Return v => Return (<["prefix" := v]> initial)
          | Raise e => Raise e
          end
        else Return initial in
      match patched with
      | Raise e => Raise e
      | Return initial' => Return (<["initial" := ADict initial']> kwargs)
      end
  end.

Definition clean : M modelform unit :=
  exec super_clean then
  set_instance_from_cleaned "prefix" "prefix".

End PrefixFieldMixin.

(** ** [class DynamicFilterForm] *)

Module DynamicFilterForm.

(** A model class, as far as the form looks into it: [_meta.app_label] and
    [_meta.model_name]. *)
Record django_model : Type := Model { app_label : string; model_name : string }.

(** A filter of a filter-set's [base_filters]. *)
Record filter : Type := Filter { filter_label : pyval; field_name : string }.

(** Calls to the helpers of [nautobot.utilities.utils] and to
    [formset_factory], with their arguments. *)
Inductive helper_call : Type :=
| call_get_filterset_for_model (m : django_model)
| call_get_filterset_field_data (m : django_model) (name : string) (choice : list string)
| call_build_lookup_label (lookup : string)
| call_formset_factory (kwargs : gmap string pyval).

(** What outlives a form: the class attribute [DynamicFilterForm.model]
    ([None] while no one has assigned it) and the log of helper calls. *)
Record world : Type := World {
  model : option django_model;
  calls : list helper_call
}.

(** A call that takes a model takes [m]. *)
Definition about (m : django_model) (c : helper_call) : Prop :=
  match c with
  | call_get_filterset_for_model m'
  | call_get_filterset_field_data m' _ _ => m' = m
  | call_build_lookup_label _
  | call_formset_factory _ => True
  end.

(** Started with [m] in the class attribute, [c] leaves it there and
    hands only [m] to the helpers. *)
Definition uses_only {A} (m : django_model) (c : M world A) : Prop :=
  forall w, model w = Some m ->
    model (snd (c w)) = Some m /\
    exists new, calls (snd (c w)) = calls w ++ new /\ Forall (about m) new.

Definition record_call (c : helper_call) : M world unit :=
  modify (fun w => {| model := model w; calls := calls w ++ [c] |}).

(** [self.model]: the instance has no attribute of that name, so the class
    attribute is read. *)
Definition self_model : M world django_model :=
  fun w =>
    match model w with
    | Some m => (Return m, w)
    | None => (Raise (AttributeError "model"), w)
    end.

(** [s.split(sep)] for a one-character separator *)
Fixpoint split_char (sep : ascii) (s : string) : list string :=
  match s with
  | EmptyString => [EmptyString]
  | String c rest =>
      if Ascii.eqb c sep then EmptyString :: split_char sep rest
      else
        match split_char sep rest with
        | [] => [String c EmptyString]
        | w :: ws => String c w :: ws
        end
  end.

(** [v + s] for a string literal [s] *)
Definition str_add (v : pyval) (s : string) : outcome string :=
  match v with
  | VStr p => Return (p +:+ s)
  | _ => Raise (TypeError "unsupported operand type(s) for +")
  end.

(** [data.getlist(key)]: the attribute is looked up before the key is
    computed. *)
Definition getlist (data : pyval) (key : outcome string) : outcome (list string) :=
  match data with
  | VQueryDict d =>
      match key with
      | Raise e => Raise e
      | Return k =>
          Return (default [] (snd <$> List.find (fun kv => String.eqb (fst kv) k) d))
      end
  | _ => Raise (AttributeError "getlist")
  end.

(** [self.fields[name]] changed by [g] *)
Definition update_field (name : string) (g : field -> field) (fs : fields_t)
    : outcome fields_t :=
  match fields_get name fs with
  | Some f => Return (fields_set name (g f) fs)
  | None => Raise (KeyError name)
  end.

(** [self.fields[name].widget.attrs[key] = v] *)
Definition set_widget_attr (name key : string) (v : pyval) (fs : fields_t)
    : outcome fields_t :=
  update_field name
    (fun f => set_widget (set_attrs (<[key := v]> (attrs (widget_of f))) (widget_of f)) f)
    fs.

Definition quote : string := String "034" EmptyString.

(** [json.dumps(["$lookup_field"])] *)
Definition dumps_lookup_field : string :=
  "[" +:+ quote +:+ "$lookup_field" +:+ quote +:+ "]".

(** The fields the class declares.  [forms.Form.__init__] copies them into
    [self.fields], in this order unless a [field_order] says otherwise. *)
Definition base_fields : fields_t :=
  [ ("lookup_field",
     {| fclass := ChoiceField; required := false; label := VStr "Field";
        initial := VNone; choices := VList [];
        widget_of := MkWidget Select ∅ |});
    ("lookup_type",
     {| fclass := ChoiceField; required := false; label := VNone;
        initial := VNone; choices := VList [];
        widget_of := MkWidget Select ∅ |});
    ("value",
     {| fclass := CharField; required := false; label := VNone;
        initial := VNone; choices := VNone;
        widget_of := MkWidget TextInput ∅ |}) ].

Section Methods.

(** [forms.Form.__init__], where the chain of [super().__init__] calls
    ends: from the positional and the keyword arguments to the content of
    [self.fields], or to the exception the constructor raises. *)
Variable Form_init : list pyval -> gmap string pyval -> outcome fields_t.
Variable get_filterset_for_model : django_model -> outcome (list (string * filter)).
Variable build_lookup_label : string -> outcome pyval.
Variable get_filterset_field_data :
  django_model -> string -> list string -> outcome (gmap string pyval).
Variable StaticSelect2 : gmap string pyval -> outcome widget.
Variable APISelectMultiple : pyval -> gmap string pyval -> outcome widget.
Variable upper : string -> string.

(** [data[key]] on the dictionary the field-data helper returns *)
Definition data_getitem (data : gmap string pyval) (key : string) : outcome pyval :=
  match data !! key with
  | Some v => Return v
  | None => Raise (KeyError key)
  end.

Definition not_None (v : option pyval) : bool :=
  match v with
  | None | Some VNone => false
  | Some _ => true
  end.

Definition capitalize (field : string) : outcome string :=
  match split_char "_" field with
  | [] => Raise IndexError
  | EmptyString :: _ => Raise IndexError
  | String c tail :: rest =>
      let first_word := upper (String c EmptyString) +:+ tail in
      Return (String.concat " " (first_word :: rest))
  end.

(** The loop of [get_lookup_expr_choices] over [filterset.items()] *)
Fixpoint lookup_expr_loop (items : list (string * filter)) : outcome (list pyval) :=
  match items with
  | [] => Return []
  | (name, field) :: rest =>
      let entry :=
        if negb (str_contains "__" name) then
          if truthy (filter_label field) then
            Return [VTuple [VStr name; filter_label field]]
          else
            match capitalize (field_name field) with
            | Return text => Return [VTuple [VStr name; VStr text]]
            | Raise e => Raise e
            end
        else Return [] in
      match entry with
      | Raise e => Raise e
      | Return here =>
          match lookup_expr_loop rest with
          | Return more => Return (here ++ more)
          | Raise e => Raise e
          end
      end
  end.

Definition get_lookup_expr_choices : M world (list pyval) :=
  let* m := self_model in
  exec record_call (call_get_filterset_for_model m) then
  let* filterset := lift (get_filterset_for_model m) in
  lift (lookup_expr_loop filterset).

Definition select_or_input_data (field_name : string) (choice : list string)
    (fields : fields_t) : M world fields_t :=
  let* m := self_model in
  exec record_call (call_get_filterset_field_data m field_name choice) then
  let* data := lift (get_filterset_field_data m field_name choice) in
  let* type := lift (data_getitem data "type") in
  if eq_str type "static-choices" then
    let* allow_multiple := lift (data_getitem data "allow_multiple") in
    let attr : gmap string pyval :=
      if truthy allow_multiple then {[ "multiple" := VStr "true" ]} else ∅ in
    let* choices := lift (data_getitem data "choices") in
    let* w := lift (StaticSelect2 attr) in
    ret (fields_set "value"
           {| fclass := ChoiceField; required := false; label := VNone;
              initial := VList (VStr <$> choice); choices := choices;
              widget_of := w |} fields)
  else
    let* type := lift (data_getitem data "type") in
    if eq_str type "dynamic-choices" then
      let* attr1 :=
        if not_None (data !! "content_type") then
          let* v := lift (data_getitem data "content_type") in
          ret ({[ "data-query-param-content_types" := v ]} : gmap string pyval)
        else ret ∅ in
      let* api_attr :=
        if not_None (data !! "value_field") then
          let* v := lift (data_getitem data "value_field") in
          ret (<["value-field" := v]> attr1)
        else ret attr1 in
      let* choices := lift (data_getitem data "choices") in
      let* url := lift (data_getitem data "data_url") in
      let* w := lift (APISelectMultiple url api_attr) in
      ret (fields_set "value"
             {| fclass := ChoiceField; required := false; label := VNone;
                initial := VList (VStr <$> choice); choices := choices;
                widget_of := w |} fields)
    else ret fields.

(** The call of [super().__init__] with the positional and the keyword
    arguments [__init__] was given.  The next class in line is
    [BootstrapMixin], whose [__init__] hands the arguments on to
    [forms.Form.__init__] and then styles the fields that constructor has
    left in [self.fields].  An exception of either ends the call. *)
Definition super_init (args : list pyval) (kwargs : gmap string pyval)
    : outcome fields_t :=
  match Form_init args kwargs with
  | Raise e => Raise e
  | Return declared =>
      match BootstrapMixin.__init__ declared with
      | (Return _, fields) => Return fields
      | (Raise e, _) => Raise e
      end
  end.

Definition __init__ (args : list pyval) (kwargs : gmap string pyval)
    : M world fields_t :=
  let* fields := lift (super_init args kwargs) in
  let* m1 := self_model in
  let* m2 := self_model in
  let contenttype := app_label m1 +:+ "." +:+ model_name m2 in
  let* expr_choices := get_lookup_expr_choices in
  let* fields := lift (update_field "lookup_field"
                         (set_choices (VList (VTuple [VNone; VNone] :: expr_choices)))
                         fields) in
  let* fields := lift (set_widget_attr "lookup_field" "class"
                         (VStr "nautobot-select2-static lookup_field-select") fields) in
  let data := default VNone (kwargs !! "data") in
  let prefix := default VNone (kwargs !! "prefix") in
  let* fields :=
    if truthy data && truthy prefix then
      let* lookup_type := lift (getlist data (str_add prefix "-lookup_type")) in
      let* lookup_value := lift (getlist data (str_add prefix "-value")) in
      let* fields :=
        match lookup_type with
        | [] => ret fields
        | first :: _ =>
            exec record_call (call_build_lookup_label first) then
            let* label := lift (build_lookup_label first) in
            lift (update_field "lookup_type"
                    (set_choices (VList [VTuple [VStr first; label]])) fields)
        end in
      match lookup_type, lookup_value with
      | first :: _, _ :: _ => select_or_input_data first lookup_value fields
      | _, _ => ret fields
      end
    else ret fields in
  let* fields := lift (set_widget_attr "lookup_type" "data-query-param-field_name"
                         (VStr dumps_lookup_field) fields) in
  let* fields := lift (set_widget_attr "lookup_type" "data-contenttype"
                         (VStr contenttype) fields) in
  let* fields := lift (set_widget_attr "lookup_type" "data-url"
                         (VStr "/lookup-choices/") fields) in
  let* fields := lift (set_widget_attr "lookup_type" "class"
                         (VStr "nautobot-select2-api lookup_type-select") fields) in
  let* value := lift (match fields_get "value" fields with
                      | Some f => Return f
                      | None => Raise (KeyError "value")
                      end) in
  let lookup_value_css := default VNone (attrs (widget_of value) !! "class") in
  let* joined := lift (Str.join " " [lookup_value_css; VStr "value-input form-control"]) in
  lift (set_widget_attr "value" "class" (VStr joined) fields).

End Methods.
End DynamicFilterForm.

(** ** [class DynamicFilterFormBaseFormSet] and [dynamic_formset_factory] *)

Module DynamicFilterFormBaseFormSet.
Import DynamicFilterForm.

(** A formset object, as [_construct_form] reads it.  [form] is the form
    class, called with keyword arguments to build a form;
    [initial_form_count] is what the method of that name returns. *)
Record formset : Type := MkFormset {
  form : gmap string pyval -> M world fields_t;
  auto_id : pyval;
  prefix : string;
  error_class : pyval;
  is_bound : bool;
  data : pyval;
  files : pyval;
  initial : pyval;
  min_num : Z;
  initial_form_count : Z
}.

(** [BaseFormSet.add_prefix] *)
Definition add_prefix (self : formset) (index : Z) : string :=
  prefix self +:+ "-" +:+ pretty index.

(** [l[i]] on a sequence, with the indices below zero counted from the
    end *)
Definition list_index {A} (l : list A) (i : Z) : outcome A :=
  let n := Z.of_nat (length l) in
  let j := if i <? 0 then i + n else i in
  if (0 <=? j) && (j <? n) then
    match l !! Z.to_nat j with
    | Some v => Return v
    | None => Raise IndexError
    end
  else Raise IndexError.

(** [v[i]] for an integer [i]: an item of a list or a tuple, a character
    of a string; a dictionary keyed by text has no such key. *)
Definition index (v : pyval) (i : Z) : outcome pyval :=
  match v with
  | VList l | VTuple l => list_index l i
  | VStr s =>
      match list_index (list_ascii_of_string s) i with
      | Return c => Return (VStr (String c EmptyString))
      | Raise e => Raise e
      end
  | VDict _ | VQueryDict _ => Raise (KeyError (pretty i))
  | _ => Raise (TypeError "object is not subscriptable")
  end.

(** The dictionary [defaults] at the point where the form class is called *)
Definition defaults (self : formset) (i : Z) (kwargs : gmap string pyval)
    : outcome (gmap string pyval) :=
  let d0 : gmap string pyval :=
    <["use_required_attribute" := VBool false]>
      (<["error_class" := error_class self]>
         (<["prefix" := VStr (add_prefix self i)]>
            {[ "auto_id" := auto_id self ]})) in
  let d1 :=
    if is_bound self then <["files" := files self]> (<["data" := data self]> d0)
    else d0 in
  let d2 :=
    if truthy (initial self) && negb (has_key "initial" kwargs) then
      match index (initial self) i with
      | Return v => Return (<["initial" := v]> d1)
      | Raise IndexError => Return d1
      | Raise e => Raise e
      end
    else Return d1 in
  match d2 with
  | Raise e => Raise e
  | Return d2 =>
      let d3 :=
        if (i >=? initial_form_count self) && (i >=? min_num self)
        then <["empty_permitted" := VBool true]> d2 else d2 in
      Return (kwargs ∪ d3)
  end.

Section Construct.

(** [BaseFormSet.add_fields], which may add the ordering and deletion
    fields to the form *)
Variable add_fields : formset -> fields_t -> Z -> outcome fields_t.

Definition _construct_form (self : formset) (i : Z) (kwargs : gmap string pyval)
    : M world fields_t :=
  let* d := lift (defaults self i kwargs) in
  let* f := form self d in
  lift (add_fields self f i).

End Construct.
End DynamicFilterFormBaseFormSet.

Module Factory.
Import DynamicFilterForm.

(** What [dynamic_formset_factory] returns: the formset class, or an
    instance of it bound to [data]. *)
Inductive result (FS FI : Type) : Type :=
| FormsetClass (c : FS)
| FormsetInstance (i : FI).
Arguments FormsetClass {FS FI} c.
Arguments FormsetInstance {FS FI} i.

Definition params : gmap string pyval :=
  <["extra" := VInt 3]>
    (<["can_delete" := VBool true]> {[ "can_delete_extra" := VBool true ]}).

Section Factory.

Variables FS FI : Type.
(** [django.forms.formset_factory], applied to its keyword arguments *)
Variable formset_factory : gmap string pyval -> outcome FS.
(** Calling the formset class: [form(data=data)] *)
Variable new_formset : FS -> pyval -> outcome FI.

Definition dynamic_formset_factory (m : django_model) (data : pyval)
    (kwargs : gmap string pyval) : M world (result FS FI) :=
  exec modify (fun w => {| model := Some m; calls := calls w |}) then
  let kwargs := params ∪ kwargs in
  let* cls :=
    if has_key "form" kwargs || has_key "formset" kwargs then
      raise (TypeError "got multiple values for keyword argument")
    else
      let args := <["form" := VObj "DynamicFilterForm"]>
                    (<["formset" := VObj "DynamicFilterFormBaseFormSet"]> kwargs) in
      exec record_call (call_formset_factory args) then
      lift (formset_factory args) in
  if truthy data then
    let* inst := lift (new_formset cls data) in
    ret (FormsetInstance inst)
  else ret (FormsetClass cls).

End Factory.
End Factory.

(** ** Example collaborators

    The decoders, the compiler, the helpers and the base constructor on
    the inputs the examples below use, and a formset to build forms from. *)

Module Examples.
Import DynamicFilterForm DynamicFilterFormBaseFormSet.

Definition body_object : string := "{" +:+ quote +:+ "a" +:+ quote +:+ ":1}".

(** [json.loads] on three request bodies *)
Definition json_loads_impl (s : string) : outcome pyval :=
  if String.eqb s body_object then Return (VDict [("a", VInt 1)])
  else if String.eqb s "[1, 2]" then Return (VList [VInt 1; VInt 2])
  else Raise (JSONDecodeError "Expecting value: line 1 column 1 (char 0)").

(** [yaml.load(_, Loader=yaml.SafeLoader)] on two request bodies *)
Definition yaml_load_impl (s : string) : outcome pyval :=
  if String.eqb s "a: 1" then Return (VDict [("a", VInt 1)])
  else Raise (YAMLError "while parsing a flow node").

(** [re.compile] on two patterns; the pattern object is not looked at. *)
Definition re_compile_impl (s : string) : outcome pyval :=
  if String.eqb s "eth(" then
    Raise (re_error "missing ), unterminated subpattern at position 3")
  else Return (VObj "re.Pattern").

Definition import_form (format data : string) : bound_form :=
  {| cleaned_data := <["format" := VStr format]> {[ "data" := VStr data ]};
     log := [] |}.

Definition rename_form (use_regex : bool) (find : option string) : bound_form :=
  {| cleaned_data :=
       <["use_regex" := VBool use_regex]>
         (match find with
          | Some s => <["find" := VStr s]> {[ "replace" := VStr "x" ]}
          | None => {[ "replace" := VStr "x" ]}
          end);
     log := [] |}.

Definition device : django_model := Model "dcim" "device".
Definition site : django_model := Model "dcim" "site".

Definition get_filterset_for_model (m : django_model)
    : outcome (list (string * filter)) :=
  Return [ ("name", Filter VNone "name");
           ("name__ic", Filter VNone "name");
           ("has_primary_ip", Filter VNone "has_primary_ip");
           ("status", Filter (VStr ("Status of " +:+ model_name m)) "status") ].

Definition build_lookup_label (lookup : string) : outcome pyval :=
  Return (VStr ("exact (" +:+ lookup +:+ ")")).

Definition yes_no : pyval :=
  VList [VTuple [VStr "True"; VStr "Yes"]; VTuple [VStr "False"; VStr "No"]].

Definition primary_ip_data : gmap string pyval :=
  <["type" := VStr "static-choices"]>
    (<["allow_multiple" := VBool false]> {[ "choices" := yes_no ]}).

Definition status_data (m : django_model) : gmap string pyval :=
  <["type" := VStr "dynamic-choices"]>
    (<["choices" := VList []]>
       (<["content_type" := VStr (app_label m +:+ "." +:+ model_name m)]>
          {[ "data_url" := VStr "/api/extras/statuses/" ]})).

Definition text_data : gmap string pyval :=
  <["type" := VStr "others"]>
    (<["allow_multiple" := VBool true]> {[ "choices" := VList [] ]}).

Definition get_filterset_field_data (m : django_model) (name : string)
    (choice : list string) : outcome (gmap string pyval) :=
  if String.eqb name "has_primary_ip" then Return primary_ip_data
  else if String.eqb name "status" then Return (status_data m)
  else Return text_data.

Definition StaticSelect2 (attrs : gmap string pyval) : outcome widget :=
  Return (MkWidget (Class "StaticSelect2" ["Select"; "ChoiceWidget"; "Widget"])
            (<["class" := VStr "nautobot-select2-static"]> attrs)).

Definition APISelectMultiple (api_url : pyval) (attrs : gmap string pyval)
    : outcome widget :=
  Return (MkWidget
            (Class "APISelectMultiple"
               ["APISelect"; "SelectMultiple"; "Select"; "ChoiceWidget"; "Widget"])
            (<["data-url" := api_url]>
               (<["class" := VStr "nautobot-select2-api"]> attrs))).

(** [str.upper] on the lower-case letters a to z *)
Definition upper (s : string) : string :=
  string_of_list_ascii
    (List.map
       (fun c =>
          let n := nat_of_ascii c in
          if ((97 <=? n) && (n <=? 122))%nat then ascii_of_nat (n - 32) else c)
       (list_ascii_of_string s)).

(** The parameters of [forms.Form.__init__], in order *)
Definition form_parameters : list string :=
  [ "data"; "files"; "auto_id"; "prefix"; "initial"; "error_class";
    "label_suffix"; "empty_permitted"; "field_order"; "use_required_attribute";
    "renderer" ].

(** Positional arguments bound to the parameters, from the first on *)
Fixpoint bind_positional (params : list string) (args : list pyval)
    (kwargs : gmap string pyval) : outcome (gmap string pyval) :=
  match args, params with
  | [], _ => Return kwargs
  | _ :: _, [] => Raise (TypeError "__init__() takes from 1 to 12 positional arguments")
  | a :: args', p :: params' =>
      if has_key p kwargs
      then Raise (TypeError "__init__() got multiple values for argument")
      else bind_positional params' args' (<[p := a]> kwargs)
  end.

(** [BaseForm.order_fields]: the named fields first, in the order given,
    then the others as declared; a name that is no field, or comes a second
    time, is passed over. *)
Fixpoint order_fields (names : list string) (fs : fields_t) : fields_t :=
  match names with
  | [] => fs
  | n :: rest =>
      match fields_get n fs with
      | Some f =>
          (n, f) :: order_fields rest
                      (List.filter (fun kv => negb (String.eqb (fst kv) n)) fs)
      | None => order_fields rest fs
      end
  end.

(** The names a [field_order] argument lists *)
Definition field_order_names (v : pyval) : outcome (list string) :=
  let text x := match x with VStr s => [s] | _ => [] end in
  match v with
  | VList items | VTuple items => Return (items ≫= text)
  | VStr s => Return ((fun c => String c EmptyString) <$> list_ascii_of_string s)
  | VDict entries => Return (fst <$> entries)
  | VQueryDict lists => Return (fst <$> lists)
  | _ => Raise (TypeError "object is not iterable")
  end.

(** [forms.Form.__init__] for the class [DynamicFilterForm], as the
    examples need it: a keyword that is no parameter is a [TypeError]; the
    declared fields are copied, in the order of their declaration unless a
    [field_order] is given; [empty_permitted] together with
    [use_required_attribute], which is on unless the caller turns it off,
    is a [ValueError]. *)
Definition Form_init (args : list pyval) (kwargs : gmap string pyval)
    : outcome fields_t :=
  match bind_positional form_parameters args kwargs with
  | Raise e => Raise e
  | Return bound =>
      if negb (forallb (fun k => existsb (String.eqb k) form_parameters)
                 (fst <$> map_to_list bound))
      then Raise (TypeError "__init__() got an unexpected keyword argument")
      else
        let ordered :=
          match default VNone (bound !! "field_order") with
          | VNone => Return base_fields
          | v =>
              match field_order_names v with
              | Return names => Return (order_fields names base_fields)
              | Raise e => Raise e
              end
          end in
        match ordered with
        | Raise e => Raise e
        | Return fields =>
            let empty_permitted :=
              default (VBool false) (bound !! "empty_permitted") in
            let use_required_attribute :=
              match default VNone (bound !! "use_required_attribute") with
              | VNone => VBool true
              | v => v
              end in
            if truthy empty_permitted && truthy use_required_attribute
            then Raise (OtherError "ValueError"
                          "The empty_permitted and use_required_attribute arguments may not both be True.")
            else Return fields
        end
  end.

(** [DynamicFilterForm] called with keyword arguments only, and with these
    collaborators *)
Definition new_form : gmap string pyval -> M world fields_t :=
  __init__ Form_init get_filterset_for_model build_lookup_label
    get_filterset_field_data StaticSelect2 APISelectMultiple upper [].

(** An unbound formset of filter forms with one initial form. *)
Definition filter_formset : formset :=
  {| form := new_form;
     auto_id := VStr "id_%s";
     prefix := "form";
     error_class := VObj "ErrorList";
     is_bound := false;
     data := VDict [];
     files := VDict [];
     initial := VNone;
     min_num := 0;
     initial_form_count := 1 |}.

Definition add_fields (self : formset) (f : fields_t) (i : Z) : outcome fields_t :=
  Return (fields_set "DELETE"
            (MkField BooleanField false (VStr "Delete") VNone VNone
               (MkWidget CheckboxInput ∅)) f).

Definition formset_factory (kwargs : gmap string pyval)
    : outcome (gmap string pyval) := Return kwargs.

Definition new_formset (cls : gmap string pyval) (data : pyval)
    : outcome (gmap string pyval * pyval) := Return (cls, data).

Definition device_world : world := {| model := Some device; calls := [] |}.

(** A form with a styled text field, a required upload and a checkbox. *)
Definition upload_fields : fields_t :=
  [ ("name", MkField CharField true (VStr "Name") VNone VNone
               (MkWidget TextInput {[ "class" := VStr "wide" ]}));
    ("attachment", MkField (OtherField "FileField") true VNone VNone VNone
               (MkWidget ClearableFileInput ∅));
    ("enabled", MkField BooleanField false (VStr "Enabled") VNone VNone
               (MkWidget CheckboxInput {[ "placeholder" := VStr "on" ]})) ].

Definition styled_name_field : field :=
  MkField CharField true (VStr "Name") VNone VNone
    (MkWidget TextInput
       (<["placeholder" := VStr "Name"]>
          (<["required" := VStr "required"]>
             {[ "class" := VStr "wide form-control" ]}))).

Definition address_instance : gmap string pyval :=
  <["prefix" := VStr "10.0.0.0/24"]> {[ "address" := VStr "10.0.0.1/24" ]}.

Definition two_documents : string :=
  "a: 1" +:+ newline +:+ "---" +:+ newline +:+ "b: 2".


Definition static_widget : widget :=
  MkWidget (Class "StaticSelect2" ["Select"; "ChoiceWidget"; "Widget"])
    {[ "class" := VStr "nautobot-select2-static" ]}.

(** Keyword arguments that name a key [_construct_form] has a default for *)
Definition override : gmap string pyval :=
  {[ "use_required_attribute" := VBool true ]}.

(** The submitted row [form-0] that filters on [status] *)
Definition status_row : gmap string pyval :=
  <["data" := VQueryDict [("form-0-lookup_type", ["status"]);
                          ("form-0-value", ["active"])]]>
    {[ "prefix" := VStr "form-0" ]}.

(** The world after the factory was called for [device] and then for
    [site]. *)
Definition site_world : world :=
  snd (Factory.dynamic_formset_factory (gmap string pyval) (gmap string pyval * pyval)
         formset_factory new_formset site VNone ∅ device_world).

End Examples.

(** ** [class CSVModelForm] *)

Module CSVModelForm.

(** [self.fields]: field names to field objects, a field object being
    its attributes by name. *)
Abbreviation fields := (gmap string (gmap string pyval)).

(** [self.fields[field].to_field_name = to_field] *)
Definition set_to_field_name (field : string) (to_field : pyval) : M fields unit :=
  fun fs =>
    match fs !! field with
    | Some obj => (Return tt, <[field := <["to_field_name" := to_field]> obj]> fs)
    | None => (Raise (KeyError field), fs)
    end.

(** [for field, to_field in headers.items(): ...] *)
Fixpoint loop (items : list (string * pyval)) : M fields unit :=
  match items with
  | [] => ret tt
  | (field, to_field) :: rest =>
      exec (match to_field with
            | VNone => ret tt
            | _ => set_to_field_name field to_field
            end) then
      loop rest
  end.

(** [__init__], after [super().__init__] has filled [self.fields];
    [headers] is [None] or a dictionary, given by its items in order. *)
Definition __init__ (headers : option (list (string * pyval))) : M fields unit :=
  match headers with
  | None | Some [] => ret tt
  | Some items => loop items
  end.

End CSVModelForm.

(** ** Reference functions the properties are stated with *)

Module Reference.
(** Every underscore of [s] replaced by a space *)
Fixpoint spaced (s : string) : string :=
  match s with
  | EmptyString => EmptyString
  | String c rest => String (if Ascii.eqb c "_" then " "%char else c) (spaced rest)
  end.
End Reference.

(** ** More example inputs *)

Module MoreExamples.
Import Examples DynamicFilterForm DynamicFilterFormBaseFormSet.

(** [yaml.load] on a sequence document *)
Definition yaml_load_sequence (s : string) : outcome pyval :=
  if String.eqb s "- 1" then Return (VList [VInt 1])
  else Raise (YAMLError "while parsing a block node").

(** A form whose [cleaned_data] holds [data] and [format] as given *)
Definition raw_import_form (format data : pyval) : bound_form :=
  {| cleaned_data := <["format" := format]> {[ "data" := data ]}; log := [] |}.

Definition raw_rename_form (find : pyval) : bound_form :=
  {| cleaned_data := <["use_regex" := VBool true]> {[ "find" := find ]};
     log := [] |}.


Definition device_filters : list (string * filter) :=
  [ ("name", Filter VNone "name");
    ("name__ic", Filter VNone "name");
    ("has_primary_ip", Filter VNone "has_primary_ip");
    ("status", Filter (VStr "Status of device") "status") ].

Definition device_choices : list pyval :=
  [ VTuple [VStr "name"; VStr "Name"];
    VTuple [VStr "has_primary_ip"; VStr "Has primary ip"];
    VTuple [VStr "status"; VStr "Status of device"] ].


(** The submitted row [form-0]: a lookup type and a value *)
Definition row_kwargs : gmap string pyval :=
  <["data" := VQueryDict [("form-0-lookup_type", ["has_primary_ip"]);
                          ("form-0-value", ["True"])]]>
    {[ "prefix" := VStr "form-0" ]}.

(** A widget constructor that sets no class *)
Definition bare_select (attrs : gmap string pyval) : outcome widget :=
  Return (MkWidget (Class "StaticSelect2" ["Select"; "ChoiceWidget"; "Widget"]) attrs).

Definition initial_rows : list pyval :=
  [ VDict [("lookup_field", VStr "name")]; VDict [("lookup_field", VStr "status")] ].

Definition seeded_formset (rows : pyval) (bound : bool) : formset :=
  {| form := new_form;
     auto_id := VStr "id_%s";
     prefix := "form";
     error_class := VObj "ErrorList";
     is_bound := bound;
     data := VQueryDict [("form-TOTAL_FORMS", ["2"])];
     files := VDict [];
     initial := rows;
     min_num := 0;
     initial_form_count := 2 |}.

(** A bound formset whose data holds the row [form-0] *)
Definition bound_filter_formset : formset :=
  {| form := new_form;
     auto_id := VStr "id_%s";
     prefix := "form";
     error_class := VObj "ErrorList";
     is_bound := true;
     data := VQueryDict [("form-0-lookup_type", ["has_primary_ip"]);
                         ("form-0-value", ["True"])];
     files := VDict [];
     initial := VNone;
     min_num := 0;
     initial_form_count := 0 |}.

Definition csv_fields : gmap string (gmap string pyval) :=
  <["site" := {[ "to_field_name" := VNone ]}]>
    (<["tenant" := {[ "to_field_name" := VNone ]}]>
       {[ "name" := ∅ ]}).

Definition csv_headers : list (string * pyval) :=
  [ ("name", VNone); ("site", VStr "slug"); ("color", VNone) ].

End MoreExamples.

(** * Properties *)

(** ** [ImportForm.clean] *)

Section ImportFormClaims.

Variable json_loads_impl : string -> outcome pyval.
Variable yaml_load_impl : string -> outcome pyval.

Local Abbreviation clean := (ImportForm.clean json_loads_impl yaml_load_impl).

(** The JSON branch, whatever the decoder answers. *)
Lemma clean_json (f : bound_form) (d fmt : pyval) :
  cleaned_data f !! "data" = Some d ->
  cleaned_data f !! "format" = Some fmt ->
  eq_str fmt "json" = true ->
  clean f =
    let r := Lib.apply json_loads json_loads_impl d in
    let logged := log f ++ [Call json_loads d r] in
    match r with
    | Return v =>
        (if isinstance_dict v then Return tt
         else invalid "data" "Import is limited to one object at a time.",
         {| cleaned_data := <["data" := v]> (cleaned_data f); log := logged |})
    | Raise e =>
        (if is_JSONDecodeError e
         then invalid "data" ("Invalid JSON data: " +:+ str_of_exn e)
         else Raise e,
         {| cleaned_data := cleaned_data f; log := logged |})
    end.
Proof.
  intros Hd Hf Hj.
  unfold ImportForm.clean, bind, super_clean, ret, getitem.
  rewrite Hd, Hf, Hj. unfold try_except, bind, invoke.
  cbn zeta. destruct (Lib.apply json_loads json_loads_impl d) as [v|e]; cbn.
  - rewrite lookup_insert_eq. destruct (isinstance_dict v); reflexivity.
  - destruct (is_JSONDecodeError e); reflexivity.
Qed.

(** The YAML branch: the separator test comes before the decoder. *)
Lemma clean_yaml (f : bound_form) (d fmt : pyval) :
  cleaned_data f !! "data" = Some d ->
  cleaned_data f !! "format" = Some fmt ->
  eq_str fmt "json" = false ->
  clean f =
    match contains (newline +:+ "---") d with
    | Raise e => (Raise e, f)
    | Return true =>
        (invalid "data" "Import is limited to one object at a time.", f)
    | Return false =>
        let r := Lib.apply yaml_load yaml_load_impl d in
        let logged := log f ++ [Call yaml_load d r] in
        match r with
        | Return v =>
            (Return tt,
             {| cleaned_data := <["data" := v]> (cleaned_data f); log := logged |})
        | Raise e =>
            (if is_YAMLError e
             then invalid "data" ("Invalid YAML data: " +:+ str_of_exn e)
             else Raise e,
             {| cleaned_data := cleaned_data f; log := logged |})
        end
    end.
Proof.
  intros Hd Hf Hj.
  unfold ImportForm.clean, bind, super_clean, ret, getitem.
  rewrite Hd, Hf, Hj. unfold lift.
  destruct (contains (newline +:+ "---") d) as [[|]|e]; try reflexivity.
  unfold try_except, bind, invoke. cbn zeta.
  destruct (Lib.apply yaml_load yaml_load_impl d) as [v|e]; cbn.
  - reflexivity.
  - destruct (is_YAMLError e); reflexivity.
Qed.

(** A missing key stops [clean] at the lookup. *)
Lemma clean_no_data (f : bound_form) :
  cleaned_data f !! "data" = None -> clean f = (Raise (KeyError "data"), f).
Proof.
  intros Hd. unfold ImportForm.clean, bind, super_clean, ret, getitem.
  rewrite Hd. reflexivity.
Qed.

Lemma clean_no_format (f : bound_form) (d : pyval) :
  cleaned_data f !! "data" = Some d ->
  cleaned_data f !! "format" = None -> clean f = (Raise (KeyError "format"), f).
Proof.
  intros Hd Hf. unfold ImportForm.clean, bind, super_clean, ret, getitem.
  rewrite Hd, Hf. reflexivity.
Qed.

(** C1. [ImportForm.clean] enforces the single-object limit: with
    [format] "json" and a body that [json.loads] decodes to something that
    is not a mapping, and with [format] "yaml" and a body that contains a
    line break followed by three dashes, validation fails with the error
    "Import is limited to one object at a time." on the [data] field. *)
Theorem import_single_object_limit (f : bound_form) (s : string) :
  cleaned_data f !! "data" = Some (VStr s) ->
  (cleaned_data f !! "format" = Some (VStr "json") /\
   exists v, json_loads_impl s = Return v /\ isinstance_dict v = false)
  \/
  (cleaned_data f !! "format" = Some (VStr "yaml") /\
   str_contains (newline +:+ "---") s = true) ->
  fst (clean f) =
    Raise (ValidationError [("data", "Import is limited to one object at a time.")]).
Proof.
  intros Hd [[Hf (v & Hv & Hnot)] | [Hf Hsub]].
  - rewrite (clean_json f _ _ Hd Hf eq_refl). cbn. rewrite Hv, Hnot. reflexivity.
  - rewrite (clean_yaml f _ _ Hd Hf eq_refl). cbn. rewrite Hsub. reflexivity.
Qed.

(** C2. With [format] "json" and a body that is the JSON text of a single
    mapping, [clean] succeeds and [cleaned_data["data"]] is replaced by the
    decoded dictionary; nothing else in [cleaned_data] changes. *)
Theorem import_json_object_decoded (f : bound_form) (s : string)
    (entries : list (string * pyval)) :
  cleaned_data f !! "data" = Some (VStr s) ->
  cleaned_data f !! "format" = Some (VStr "json") ->
  json_loads_impl s = Return (VDict entries) ->
  fst (clean f) = Return tt /\
  cleaned_data (snd (clean f)) = <["data" := VDict entries]> (cleaned_data f).
Proof.
  intros Hd Hf Hv.
  rewrite (clean_json f _ _ Hd Hf eq_refl). cbn. rewrite Hv. cbn. auto.
Qed.


(** A YAML body with a document separator is turned down before
    [yaml.load] is called. *)
Lemma import_separator_precedes_decoder (f : bound_form) (s : string) :
  cleaned_data f !! "data" = Some (VStr s) ->
  cleaned_data f !! "format" = Some (VStr "yaml") ->
  str_contains (newline +:+ "---") s = true ->
  calls_during clean f = [].
Proof.
  intros Hd Hf Hsub. unfold calls_during.
  rewrite (clean_yaml f _ _ Hd Hf eq_refl). cbn. rewrite Hsub. cbn.
  apply drop_all.
Qed.

End ImportFormClaims.

(** ** [BulkRenameForm.clean] *)

Section BulkRenameFormClaims.

Variable re_compile_impl : string -> outcome pyval.

Local Abbreviation clean := (BulkRenameForm.clean re_compile_impl).

(** C4. With [use_regex] set and a [find] pattern that [re.compile]
    rejects with [re.error], [clean] raises the validation error "Invalid
    regular expression" on the [find] field.  With [use_regex] not set,
    [clean] returns without calling [re.compile] and leaves the form as it
    was, whatever [find] holds. *)
Theorem rename_regex_checked_when_asked (f : bound_form) (use_regex : pyval) :
  cleaned_data f !! "use_regex" = Some use_regex ->
  (truthy use_regex = true ->
   forall (pattern msg : string),
     cleaned_data f !! "find" = Some (VStr pattern) ->
     re_compile_impl pattern = Raise (re_error msg) ->
     fst (clean f) =
       Raise (ValidationError [("find", "Invalid regular expression")]))
  /\
  (truthy use_regex = false ->
   clean f = (Return tt, f) /\ calls_during clean f = []).
Proof.
  intros Hu. split.
  - intros Ht pattern msg Hfind Hre.
    unfold BulkRenameForm.clean, bind, super_clean, ret, getitem.
    rewrite Hu, Ht. unfold try_except, bind, getitem. rewrite Hfind.
    unfold invoke. cbn. rewrite Hre. reflexivity.
  - intros Ht.
    assert (Hc : clean f = (Return tt, f)).
    { unfold BulkRenameForm.clean, bind, super_clean, ret, getitem.
      rewrite Hu, Ht. reflexivity. }
    split; [exact Hc |].
    unfold calls_during. rewrite Hc. cbn. apply drop_all.
Qed.

(** C9. When [find] failed its own validation, so that [cleaned_data] has
    no "find" entry, and [use_regex] is set, [clean] ends with an uncaught
    [KeyError] for "find": the handler only takes [re.error]. *)
Theorem rename_missing_find_raises_KeyError (f : bound_form) (use_regex : pyval) :
  cleaned_data f !! "use_regex" = Some use_regex ->
  truthy use_regex = true ->
  cleaned_data f !! "find" = None ->
  clean f = (Raise (KeyError "find"), f).
Proof.
  intros Hu Ht Hfind.
  unfold BulkRenameForm.clean, bind, super_clean, ret, getitem.
  rewrite Hu, Ht. unfold try_except, bind, getitem. rewrite Hfind. reflexivity.
Qed.

End BulkRenameFormClaims.

(** ** White space and class names *)

Section Words.
Import Str.

Lemma split_ws_aux_space (cur : string) (c : ascii) (rest : string) :
  isspace c = true ->
  split_ws_aux cur (String c rest) = split_ws_aux cur EmptyString ++ split_ws rest.
Proof.
  intros Hc. cbn [split_ws_aux]. rewrite Hc. destruct cur; reflexivity.
Qed.

Lemma split_ws_lstrip (s : string) : split_ws (lstrip s) = split_ws s.
Proof.
  unfold split_ws. induction s as [|c rest IH]; [reflexivity |].
  cbn [lstrip]. destruct (isspace c) eqn:Hc; [| reflexivity].
  rewrite IH. cbn [split_ws_aux]. rewrite Hc. reflexivity.
Qed.

Lemma split_ws_aux_rstrip (s cur : string) :
  split_ws_aux cur (rstrip s) = split_ws_aux cur s.
Proof.
  revert cur. induction s as [|c rest IH]; intros cur; [reflexivity |].
  cbn [rstrip]. destruct (rstrip rest) as [|k kept] eqn:Hr.
  - destruct (isspace c) eqn:Hc.
    + rewrite (split_ws_aux_space cur c rest Hc). unfold split_ws.
      rewrite <- (IH EmptyString). cbn. rewrite app_nil_r. reflexivity.
    + cbn [split_ws_aux]. rewrite Hc. apply IH.
  - rewrite <- Hr in IH |- *. cbn [split_ws_aux].
    destruct (isspace c); [destruct cur |]; rewrite IH; reflexivity.
Qed.

Lemma split_ws_strip (s : string) : split_ws (strip s) = split_ws s.
Proof.
  unfold strip. rewrite split_ws_lstrip. apply split_ws_aux_rstrip.
Qed.

Lemma split_ws_aux_app_space (a cur : string) (sp : ascii) (b : string) :
  isspace sp = true ->
  split_ws_aux cur (a +:+ String sp b) = split_ws_aux cur a ++ split_ws b.
Proof.
  intros Hsp. revert cur. induction a as [|c rest IH]; intros cur.
  - change (EmptyString +:+ String sp b) with (String sp b).
    apply split_ws_aux_space, Hsp.
  - change (String c rest +:+ String sp b) with (String c (rest +:+ String sp b)).
    cbn [split_ws_aux].
    destruct (isspace c); [destruct cur |]; rewrite IH; reflexivity.
Qed.

(** Appending " form-control" and stripping keeps every class name that
    was there, in order, and adds the new one at the end. *)
Lemma class_names_appended (css : string) :
  split_ws (strip (css +:+ " " +:+ "form-control"))
  = split_ws css ++ ["form-control"].
Proof.
  rewrite split_ws_strip. unfold split_ws at 1.
  change (" " +:+ "form-control") with (String " " "form-control").
  rewrite split_ws_aux_app_space by reflexivity. reflexivity.
Qed.

End Words.

(** ** [BootstrapMixin.__init__] *)

Section BootstrapMixinClaims.
Import BootstrapMixin.

(** One pass of the loop body on a field whose class attribute, if it has
    one, is text: the three rules, and nothing else changes. *)
Lemma loop_body_styles (f : field) (css : string) :
  (class_in (widget_class (widget_of f)) exempt_widgets = false ->
   default (VStr EmptyString) (attrs (widget_of f) !! "class") = VStr css) ->
  exists a',
    loop_body f = Return (set_widget (set_attrs a' (widget_of f)) f) /\
    (class_in (widget_class (widget_of f)) exempt_widgets = false ->
     a' !! "class" = Some (VStr (Str.strip (css +:+ " " +:+ "form-control")))) /\
    (class_in (widget_class (widget_of f)) exempt_widgets = true ->
     a' !! "class" = attrs (widget_of f) !! "class") /\
    (a' !! "required" =
       if required f && negb (isinstance (widget_of f) FileInput)
       then Some (VStr "required") else attrs (widget_of f) !! "required") /\
    (a' !! "placeholder" =
       match attrs (widget_of f) !! "placeholder" with
       | None => Some (label f)
       | Some p => Some p
       end) /\
    (forall k, k <> "class" -> k <> "required" -> k <> "placeholder" ->
       a' !! k = attrs (widget_of f) !! k).
Proof.
  intros Hcss. unfold loop_body.
  set (w := widget_of f) in *.
  set (a1 := if class_in (widget_class w) exempt_widgets
             then attrs w
             else <["class" := VStr (Str.strip (css +:+ " " +:+ "form-control"))]> (attrs w)).
  set (a2 := if required f && negb (isinstance w FileInput)
             then <["required" := VStr "required"]> a1 else a1).
  set (a3 := match a2 !! "placeholder" with
             | None => <["placeholder" := label f]> a2
             | Some _ => a2
             end).
  assert (Hp2 : a2 !! "placeholder" = attrs w !! "placeholder").
  { subst a2 a1. destruct (required f && negb (isinstance w FileInput));
      destruct (class_in (widget_class w) exempt_widgets);
      repeat (rewrite lookup_insert_ne by discriminate); reflexivity. }
  exists a3. split; [| split; [| split; [| split; [| split]]]].
  - subst a3 a2 a1. destruct (class_in (widget_class w) exempt_widgets); cbn.
    + reflexivity.
    + rewrite (Hcss eq_refl). cbn. reflexivity.
  - intros Hex. subst a3. rewrite Hp2.
    assert (H2 : a2 !! "class" = Some (VStr (Str.strip (css +:+ " " +:+ "form-control")))).
    { subst a2 a1. rewrite Hex.
      destruct (required f && negb (isinstance w FileInput));
        repeat (rewrite lookup_insert_ne by discriminate);
        apply lookup_insert_eq. }
    destruct (attrs w !! "placeholder");
      [| rewrite lookup_insert_ne by discriminate]; exact H2.
  - intros Hex. subst a3. rewrite Hp2.
    assert (H2 : a2 !! "class" = attrs w !! "class").
    { subst a2 a1. rewrite Hex.
      destruct (required f && negb (isinstance w FileInput));
        repeat (rewrite lookup_insert_ne by discriminate); reflexivity. }
    destruct (attrs w !! "placeholder");
      [| rewrite lookup_insert_ne by discriminate]; exact H2.
  - subst a3. rewrite Hp2.
    assert (H2 : a2 !! "required" =
              if required f && negb (isinstance w FileInput)
              then Some (VStr "required") else attrs w !! "required").
    { subst a2 a1. destruct (required f && negb (isinstance w FileInput)).
      - apply lookup_insert_eq.
      - destruct (class_in (widget_class w) exempt_widgets);
          repeat (rewrite lookup_insert_ne by discriminate); reflexivity. }
    destruct (attrs w !! "placeholder");
      [| rewrite lookup_insert_ne by discriminate]; exact H2.
  - subst a3. rewrite Hp2.
    destruct (attrs w !! "placeholder") eqn:Hp.
    + rewrite Hp2. reflexivity.
    + apply lookup_insert_eq.
  - intros k Hc Hr Hp. subst a3 a2 a1.
    destruct (_ !! "placeholder");
      destruct (required f && negb (isinstance w FileInput));
      destruct (class_in (widget_class w) exempt_widgets);
      repeat (rewrite lookup_insert_ne by congruence); reflexivity.
Qed.

(** C6. [BootstrapMixin.__init__] visits every field of the form.  A
    widget whose class is not exactly [CheckboxInput], [ClearableFileInput],
    [FileInput] or [RadioSelect] gets "form-control" appended to its class
    attribute, the class names it had being kept; a required field whose
    widget is not a [FileInput] gets the attribute [required] set to
    "required"; a widget without a placeholder gets the field's label as
    placeholder.  The class attributes that are joined are text. *)
Theorem bootstrap_styles_every_field (fs : fields_t) :
  (forall n f v,
     In (n, f) fs ->
     class_in (widget_class (widget_of f)) exempt_widgets = false ->
     attrs (widget_of f) !! "class" = Some v -> exists css, v = VStr css) ->
  exists fs',
    __init__ fs = (Return tt, fs') /\
    length fs' = length fs /\
    forall (i : nat) n f,
      fs !! i = Some (n, f) ->
      exists f',
        fs' !! i = Some (n, f') /\
        widget_class (widget_of f') = widget_class (widget_of f) /\
        (class_in (widget_class (widget_of f)) exempt_widgets = false ->
         exists css,
           default (VStr EmptyString) (attrs (widget_of f) !! "class") = VStr css /\
           attrs (widget_of f') !! "class"
             = Some (VStr (Str.strip (css +:+ " " +:+ "form-control"))) /\
           Str.split_ws (Str.strip (css +:+ " " +:+ "form-control"))
             = Str.split_ws css ++ ["form-control"]) /\
        (required f = true -> isinstance (widget_of f) FileInput = false ->
         attrs (widget_of f') !! "required" = Some (VStr "required")) /\
        (attrs (widget_of f) !! "placeholder" = None ->
         attrs (widget_of f') !! "placeholder" = Some (label f)).
Proof.
  unfold __init__. induction fs as [|[n0 f0] rest IH]; intros Htext.
  - exists []. repeat split. intros i n f Hi. destruct i; discriminate.
  - destruct IH as (rest' & Hrest & Hlen & Hall).
    { intros n f v Hin. apply (Htext n f v). right. exact Hin. }
    assert (Hcss : exists css,
               class_in (widget_class (widget_of f0)) exempt_widgets = false ->
               default (VStr EmptyString) (attrs (widget_of f0) !! "class") = VStr css).
    { destruct (class_in (widget_class (widget_of f0)) exempt_widgets) eqn:Hex.
      - exists EmptyString. discriminate.
      - destruct (attrs (widget_of f0) !! "class") as [v|] eqn:Hv; cbn; eauto.
        destruct (Htext n0 f0 v (or_introl eq_refl) Hex Hv) as [css ->]. eauto. }
    destruct Hcss as [css Hcss].
    destruct (loop_body_styles f0 css Hcss)
      as (a' & Hbody & Hclass & _ & Hreq & Hph & _).
    exists ((n0, set_widget (set_attrs a' (widget_of f0)) f0) :: rest').
    split; [| split].
    + cbn [loop]. rewrite Hbody, Hrest. reflexivity.
    + cbn. rewrite Hlen. reflexivity.
    + intros [|i] n f Hi.
      * cbn in Hi. injection Hi as -> ->.
        eexists. split; [reflexivity |]. cbn.
        split; [reflexivity |]. split; [| split].
        -- intros Hex. exists css. split; [exact (Hcss Hex) |].
           split; [exact (Hclass Hex) | apply class_names_appended].
        -- intros Hr Hfile. rewrite Hreq, Hr, Hfile. reflexivity.
        -- intros Hnone. rewrite Hph, Hnone. reflexivity.
      * cbn in Hi |- *. apply Hall. exact Hi.
Qed.

End BootstrapMixinClaims.

(** ** [AddressFieldMixin] and [PrefixFieldMixin] *)

Section ComputedFieldClaims.
Import ModelForm.

Lemma has_key_true {V} (key : string) (d : gmap string V) (v : V) :
  d !! key = Some v -> has_key key d = true.
Proof. intros H. unfold has_key. rewrite H. reflexivity. Qed.

Lemma has_key_false {V} (key : string) (d : gmap string V) :
  d !! key = None -> has_key key d = false.
Proof. intros H. unfold has_key. rewrite H. reflexivity. Qed.

Lemma copy_supplied (kwargs : gmap string karg) (d : gmap string pyval) :
  supplied_initial kwargs d ->
  copy (default (ADict ∅) (kwargs !! "initial")) = Return d.
Proof. intros [H | [H ->]]; rewrite H; reflexivity. Qed.

(** C7. On construction, an [initial] dictionary that already has the key
    "address" (for [PrefixFieldMixin], "prefix") is passed on with that
    value unchanged; without the key, and with an instance supplied,
    [initial] gets the key from the instance's attribute of that name.  On
    [clean], the value of [cleaned_data] under that key ([None] without
    one) is written to the instance's attribute, so model validation,
    which follows, sees it. *)
Theorem computed_field_seeded_and_written_back
    (kwargs : gmap string karg) (d : gmap string pyval) :
  supplied_initial kwargs d ->
  (forall v, d !! "address" = Some v ->
     AddressFieldMixin.__init__ kwargs = Return (<["initial" := ADict d]> kwargs))
  /\
  (forall a v, d !! "address" = None ->
     kwargs !! "instance" = Some (AInstance a) -> a !! "address" = Some v ->
     AddressFieldMixin.__init__ kwargs
       = Return (<["initial" := ADict (<["address" := v]> d)]> kwargs))
  /\
  (forall v, d !! "prefix" = Some v ->
     PrefixFieldMixin.__init__ kwargs = Return (<["initial" := ADict d]> kwargs))
  /\
  (forall a v, d !! "prefix" = None ->
     kwargs !! "instance" = Some (AInstance a) -> a !! "prefix" = Some v ->
     PrefixFieldMixin.__init__ kwargs
       = Return (<["initial" := ADict (<["prefix" := v]> d)]> kwargs))
  /\
  (forall (f : modelform) (_post_clean : M modelform unit),
     let address_set :=
       {| instance := <["address" := default VNone (cleaned_data f !! "address")]>
                        (instance f);
          cleaned_data := cleaned_data f; _validate_unique := true |} in
     let prefix_set :=
       {| instance := <["prefix" := default VNone (cleaned_data f !! "prefix")]>
                        (instance f);
          cleaned_data := cleaned_data f; _validate_unique := true |} in
     AddressFieldMixin.clean f = (Return tt, address_set) /\
     PrefixFieldMixin.clean f = (Return tt, prefix_set) /\
     clean_then_post_clean AddressFieldMixin.clean _post_clean f
       = _post_clean address_set /\
     clean_then_post_clean PrefixFieldMixin.clean _post_clean f
       = _post_clean prefix_set).
Proof.
  intros Hd. pose proof (copy_supplied kwargs d Hd) as Hcopy.
  repeat split.
  - intros v Hv. unfold AddressFieldMixin.__init__.
    rewrite Hcopy, (has_key_true _ _ _ Hv). reflexivity.
  - intros a v Hnone Hinst Ha. unfold AddressFieldMixin.__init__.
    rewrite Hcopy, (has_key_false _ _ Hnone), Hinst. cbn. rewrite Ha. reflexivity.
  - intros v Hv. unfold PrefixFieldMixin.__init__.
    rewrite Hcopy, (has_key_true _ _ _ Hv). reflexivity.
  - intros a v Hnone Hinst Ha. unfold PrefixFieldMixin.__init__.
    rewrite Hcopy, (has_key_false _ _ Hnone), Hinst. cbn. rewrite Ha. reflexivity.
Qed.

End ComputedFieldClaims.

(** ** [DynamicFilterForm.select_or_input_data] *)

Section FieldsLemmas.

Lemma fields_get_set_eq (name : string) (f : field) (fs : fields_t) :
  fields_get name (fields_set name f fs) = Some f.
Proof.
  induction fs as [|[n g] rest IH]; cbn.
  - rewrite String.eqb_refl. reflexivity.
  - destruct (String.eqb n name) eqn:E; cbn; rewrite E; [reflexivity | exact IH].
Qed.

Lemma fields_get_set_ne (name other : string) (f : field) (fs : fields_t) :
  other <> name ->
  fields_get other (fields_set name f fs) = fields_get other fs.
Proof.
  intros Hne. induction fs as [|[n g] rest IH]; cbn.
  - destruct (String.eqb name other) eqn:E; [| reflexivity].
    apply String.eqb_eq in E. congruence.
  - destruct (String.eqb n name) eqn:E; cbn.
    + apply String.eqb_eq in E. subst n.
      destruct (String.eqb name other) eqn:E'; [| reflexivity].
      apply String.eqb_eq in E'. congruence.
    + rewrite IH. reflexivity.
Qed.

End FieldsLemmas.

Section SelectOrInputClaims.
Import DynamicFilterForm.

Variable get_filterset_field_data :
  django_model -> string -> list string -> outcome (gmap string pyval).
Variable StaticSelect2 : gmap string pyval -> outcome widget.
Variable APISelectMultiple : pyval -> gmap string pyval -> outcome widget.

Local Abbreviation select_or_input_data :=
  (DynamicFilterForm.select_or_input_data
     get_filterset_field_data StaticSelect2 APISelectMultiple).

(** C5. [select_or_input_data] replaces the [value] field by what
    [get_filterset_field_data] reports for the selected field.  Type
    "static-choices": a [ChoiceField] whose widget is a [StaticSelect2]
    built with the attribute [multiple] exactly when [allow_multiple] holds.
    Type "dynamic-choices": a [ChoiceField] whose widget is an
    [APISelectMultiple] built with the reported [data_url] as [api_url].
    Any other type: the fields stay as they are, [value] the text field. *)
Theorem value_field_follows_reported_type
    (w : world) (m : django_model) (name : string) (choice : list string)
    (fields : fields_t) (data : gmap string pyval) (type : pyval) :
  model w = Some m ->
  get_filterset_field_data m name choice = Return data ->
  data !! "type" = Some type ->
  let result := fst (select_or_input_data name choice fields w) in
  (forall allow_multiple options wgt,
     eq_str type "static-choices" = true ->
     data !! "allow_multiple" = Some allow_multiple ->
     data !! "choices" = Some options ->
     StaticSelect2 (if truthy allow_multiple
                    then {[ "multiple" := VStr "true" ]} else ∅) = Return wgt ->
     exists fields',
       result = Return fields' /\
       fields_get "value" fields'
         = Some (MkField ChoiceField false VNone (VList (VStr <$> choice))
                   options wgt) /\
       forall other, other <> "value" ->
         fields_get other fields' = fields_get other fields)
  /\
  (forall options url wgt,
     eq_str type "static-choices" = false ->
     eq_str type "dynamic-choices" = true ->
     data !! "choices" = Some options ->
     data !! "data_url" = Some url ->
     let attr1 : gmap string pyval :=
       match data !! "content_type" with
       | None | Some VNone => ∅
       | Some v => {[ "data-query-param-content_types" := v ]}
       end in
     let api_attr : gmap string pyval :=
       match data !! "value_field" with
       | None | Some VNone => attr1
       | Some v => <["value-field" := v]> attr1
       end in
     APISelectMultiple url api_attr = Return wgt ->
     exists fields',
       result = Return fields' /\
       fields_get "value" fields'
         = Some (MkField ChoiceField false VNone (VList (VStr <$> choice))
                   options wgt) /\
       forall other, other <> "value" ->
         fields_get other fields' = fields_get other fields)
  /\
  (eq_str type "static-choices" = false ->
   eq_str type "dynamic-choices" = false ->
   result = Return fields).
Proof.
  intros Hm Hdata Htype result. subst result.
  unfold DynamicFilterForm.select_or_input_data, bind, self_model, record_call,
    modify, lift, ret, data_getitem.
  rewrite Hm. cbn. rewrite Hdata, Htype.
  split; [| split].
  - intros am options wgt Hs Ham Hopt Hw. rewrite Hs, Ham, Hopt, Hw.
    eexists. split; [reflexivity |].
    split; [apply fields_get_set_eq |].
    intros other Hne. apply fields_get_set_ne, Hne.
  - intros options url wgt Hs Hd Hopt Hurl Hw.
    rewrite Hs, Hd, Hopt, Hurl.
    destruct (data !! "content_type") as [[]|];
      destruct (data !! "value_field") as [[]|];
      cbn in *; rewrite Hw;
      (eexists; split; [reflexivity |];
       split; [apply fields_get_set_eq |];
       intros other Hne; apply fields_get_set_ne, Hne).
  - intros Hs Hd. rewrite Hs, Hd. reflexivity.
Qed.

End SelectOrInputClaims.

(** ** [_construct_form] and [dynamic_formset_factory] *)

Section FormsetClaims.
Import DynamicFilterForm DynamicFilterFormBaseFormSet Factory.

Variable add_fields : formset -> fields_t -> Z -> outcome fields_t.
Variables FS FI : Type.
Variable formset_factory : gmap string pyval -> outcome FS.
Variable new_formset : FS -> pyval -> outcome FI.

Local Abbreviation dynamic_formset_factory :=
  (Factory.dynamic_formset_factory FS FI formset_factory new_formset).

(** What [defaults] holds before [kwargs] is merged in. *)
Lemma defaults_inv (self : formset) (i : Z) (kwargs d : gmap string pyval) :
  defaults self i kwargs = Return d ->
  exists d3 : gmap string pyval,
    d = kwargs ∪ d3 /\
    d3 !! "use_required_attribute" = Some (VBool false) /\
    ((i >=? initial_form_count self) && (i >=? min_num self) = true ->
     d3 !! "empty_permitted" = Some (VBool true)).
Proof.
  unfold defaults.
  set (d0 := <["use_required_attribute" := VBool false]> _).
  set (d1 := if is_bound self then _ else d0).
  assert (H1 : d1 !! "use_required_attribute" = Some (VBool false)).
  { subst d1 d0. destruct (is_bound self);
      repeat (rewrite lookup_insert_ne by discriminate);
      apply lookup_insert_eq. }
  set (d2 := if _ && _ then _ else Return d1).
  assert (H2 : forall x, d2 = Return x ->
                         x !! "use_required_attribute" = Some (VBool false)).
  { subst d2. intros x.
    destruct (truthy (initial self) && negb (has_key "initial" kwargs)).
    - destruct (index (initial self) i) as [v|[]]; intros [= <-];
        try (rewrite lookup_insert_ne by discriminate); exact H1.
    - intros [= <-]. exact H1. }
  destruct d2 as [x|e]; [| discriminate]. intros [= <-].
  specialize (H2 x eq_refl).
  destruct ((i >=? initial_form_count self) && (i >=? min_num self)).
  - eexists. split; [reflexivity |]. split.
    + rewrite lookup_insert_ne by discriminate. exact H2.
    + intros _. apply lookup_insert_eq.
  - eexists. split; [reflexivity |]. split; [exact H2 | discriminate].
Qed.

(** C8, as the code has it.  [_construct_form] calls the form class with
    [use_required_attribute=False], and for an index at or beyond both the
    initial form count and [min_num] with [empty_permitted=True], unless
    the keyword arguments it was given name that key: those are merged
    over the defaults.  [dynamic_formset_factory] passes [can_delete=True],
    [can_delete_extra=True] and [extra=3] to [formset_factory] whatever
    the caller's keyword arguments say. *)
Theorem construct_form_defaults_yield_to_kwargs
    (self : formset) (i : Z) (kwargs : gmap string pyval) :
  (forall d, defaults self i kwargs = Return d ->
     (forall k v, kwargs !! k = Some v -> d !! k = Some v) /\
     (kwargs !! "use_required_attribute" = None ->
      d !! "use_required_attribute" = Some (VBool false)) /\
     (initial_form_count self <= i -> min_num self <= i ->
      kwargs !! "empty_permitted" = None ->
      d !! "empty_permitted" = Some (VBool true)) /\
     _construct_form add_fields self i kwargs
       = (let* f := form self d in lift (add_fields self f i)))
  /\
  (forall items, initial self = VNone \/ initial self = VList items ->
     exists d, defaults self i kwargs = Return d)
  /\
  (forall m data fkw w,
     let w' := snd (dynamic_formset_factory m data fkw w) in
     exists new,
       calls w' = calls w ++ new /\
       (forall args, In (call_formset_factory args) new ->
          args !! "can_delete" = Some (VBool true) /\
          args !! "can_delete_extra" = Some (VBool true) /\
          args !! "extra" = Some (VInt 3)) /\
       (fkw !! "form" = None -> fkw !! "formset" = None ->
        exists args, new = [call_formset_factory args])).
Proof.
  split; [| split].
  - intros d Hd. destruct (defaults_inv self i kwargs d Hd) as (d3 & -> & Hreq & Hemp).
    split; [| split; [| split]].
    + intros k v Hk. apply lookup_union_Some_l, Hk.
    + intros Hnone. rewrite lookup_union_r by exact Hnone. exact Hreq.
    + intros Hi Hm Hnone. rewrite lookup_union_r by exact Hnone. apply Hemp.
      apply andb_true_intro. split; apply Z.geb_le; assumption.
    + unfold _construct_form, bind at 1, lift at 1. rewrite Hd. reflexivity.
  - intros items Hinit. unfold defaults.
    destruct Hinit as [-> | ->]; cbn [truthy andb].
    + eexists. reflexivity.
    + destruct items as [|x items']; cbn [andb]; [eexists; reflexivity |].
      destruct (negb (has_key "initial" kwargs)); [| eexists; reflexivity].
      cbn [index]. destruct (list_index (x :: items') i) as [v|e] eqn:Hidx.
      * eexists. reflexivity.
      * unfold list_index in Hidx.
        destruct (_ && _); [destruct (_ !! _) |]; inversion Hidx; subst;
          eexists; reflexivity.
  - intros m data fkw w w'. subst w'.
    unfold Factory.dynamic_formset_factory, bind, modify, raise, lift, ret,
      record_call.
    cbn.
    destruct (has_key "form" (params ∪ fkw) || has_key "formset" (params ∪ fkw)) eqn:Hdup.
    + exists []. cbn. rewrite app_nil_r. split; [reflexivity |].
      split; [intros args [] |].
      intros Hform Hformset. exfalso.
      unfold has_key in Hdup.
      rewrite !lookup_union_r in Hdup by reflexivity.
      rewrite Hform, Hformset in Hdup. discriminate.
    + eexists [_].
      split; [| split].
      * destruct (formset_factory _) as [cls|e]; cbn; [| reflexivity].
        destruct (truthy data); cbn; [| reflexivity].
        destruct (new_formset cls data); reflexivity.
      * intros args [[= <-]|[]].
        repeat (rewrite lookup_insert_ne by discriminate).
        split; [| split]; apply lookup_union_Some_l; reflexivity.
      * intros _ _. eexists. reflexivity.
Qed.

End FormsetClaims.

(** ** The class attribute [DynamicFilterForm.model] *)

Section MonadLemmas.
Import DynamicFilterForm.

Lemma bind_returns {S A B} (c : M S A) (k : A -> M S B) (s s' : S) (b : B) :
  bind c k s = (Return b, s') ->
  exists a s1, c s = (Return a, s1) /\ k a s1 = (Return b, s').
Proof.
  unfold bind. destruct (c s) as [[a|e] s1]; [eauto | discriminate].
Qed.

Lemma lift_returns {S A} (o : outcome A) (s s' : S) (a : A) :
  lift o s = (Return a, s') -> o = Return a /\ s' = s.
Proof. unfold lift. intros [= -> ->]. auto. Qed.

Lemma uses_only_ret {A} (m : django_model) (a : A) : uses_only m (ret a).
Proof. intros w Hw. cbn. split; [exact Hw |]. exists []. rewrite app_nil_r. auto. Qed.

Lemma uses_only_lift {A} (m : django_model) (o : outcome A) : uses_only m (lift o).
Proof. intros w Hw. cbn. split; [exact Hw |]. exists []. rewrite app_nil_r. auto. Qed.

Lemma uses_only_record_call (m : django_model) (c : helper_call) :
  about m c -> uses_only m (record_call c).
Proof.
  intros Hc w Hw. cbn. split; [exact Hw |]. exists [c]. auto.
Qed.

Lemma uses_only_self_model (m : django_model) : uses_only m self_model.
Proof.
  intros w Hw. unfold self_model. rewrite Hw. cbn.
  split; [exact Hw |]. exists []. rewrite app_nil_r. auto.
Qed.

Lemma self_model_returns (m a : django_model) (w : world) :
  model w = Some m -> fst (self_model w) = Return a -> a = m.
Proof. unfold self_model. intros ->. cbn. congruence. Qed.

Lemma uses_only_bind {A B} (m : django_model) (c : M world A) (k : A -> M world B) :
  uses_only m c ->
  (forall a w, model w = Some m -> fst (c w) = Return a -> uses_only m (k a)) ->
  uses_only m (bind c k).
Proof.
  intros Hc Hk w Hw. unfold bind.
  destruct (Hc w Hw) as (Hm1 & new1 & Hcalls1 & Hall1).
  destruct (c w) as [[a|e] w1] eqn:Hrun; cbn in *.
  - destruct (Hk a w Hw (f_equal fst Hrun) w1 Hm1) as (Hm2 & new2 & Hcalls2 & Hall2).
    split; [exact Hm2 |]. exists (new1 ++ new2).
    rewrite Hcalls2, Hcalls1, app_assoc. split; [reflexivity |].
    apply Forall_app. auto.
  - split; [exact Hm1 |]. eauto.
Qed.

End MonadLemmas.

Section SharedModelClaims.
Import DynamicFilterForm DynamicFilterFormBaseFormSet.

Variable Form_init : list pyval -> gmap string pyval -> outcome fields_t.
Variable get_filterset_for_model : django_model -> outcome (list (string * filter)).
Variable build_lookup_label : string -> outcome pyval.
Variable get_filterset_field_data :
  django_model -> string -> list string -> outcome (gmap string pyval).
Variable StaticSelect2 : gmap string pyval -> outcome widget.
Variable APISelectMultiple : pyval -> gmap string pyval -> outcome widget.
Variable upper : string -> string.
Variable add_fields : formset -> fields_t -> Z -> outcome fields_t.
Variables FS FI : Type.
Variable formset_factory : gmap string pyval -> outcome FS.
Variable new_formset : FS -> pyval -> outcome FI.

Local Abbreviation get_lookup_expr_choices :=
  (DynamicFilterForm.get_lookup_expr_choices get_filterset_for_model upper).
Local Abbreviation select_or_input_data :=
  (DynamicFilterForm.select_or_input_data
     get_filterset_field_data StaticSelect2 APISelectMultiple).
Local Abbreviation dynamic_formset_factory :=
  (Factory.dynamic_formset_factory FS FI formset_factory new_formset).
Local Abbreviation __init__ :=
  (DynamicFilterForm.__init__ Form_init get_filterset_for_model build_lookup_label
     get_filterset_field_data StaticSelect2 APISelectMultiple upper).

Ltac uses_only_step :=
  match goal with
  | |- uses_only _ (bind _ _) =>
      apply uses_only_bind; [| intros ? ? ? ?]
  | |- uses_only _ (lift _) => apply uses_only_lift
  | |- uses_only _ (ret _) => apply uses_only_ret
  | |- uses_only _ self_model => apply uses_only_self_model
  | |- uses_only _ (record_call _) => apply uses_only_record_call; cbn
  | |- uses_only _ (if ?b then _ else _) => destruct b
  | |- uses_only _ (match ?x with _ => _ end) => destruct x
  | H : model ?w = Some ?m, H' : fst (self_model ?w) = Return ?a |- ?a = ?m =>
      exact (self_model_returns m a w H H')
  | |- True => exact I
  end.

Lemma get_lookup_expr_choices_uses_only (m : django_model) :
  uses_only m get_lookup_expr_choices.
Proof.
  unfold DynamicFilterForm.get_lookup_expr_choices. repeat uses_only_step.
Qed.

Lemma select_or_input_data_uses_only (m : django_model) (name : string)
    (choice : list string) (fields : fields_t) :
  uses_only m (select_or_input_data name choice fields).
Proof.
  unfold DynamicFilterForm.select_or_input_data. repeat uses_only_step.
Qed.

Lemma init_uses_only (m : django_model) (args : list pyval)
    (kwargs : gmap string pyval) :
  uses_only m (__init__ args kwargs).
Proof.
  unfold DynamicFilterForm.__init__.
  repeat first
    [ apply get_lookup_expr_choices_uses_only
    | apply select_or_input_data_uses_only
    | uses_only_step ].
Qed.


Lemma update_field_returns (name : string) (g : field -> field) (fs fs' : fields_t) :
  update_field name g fs = Return fs' ->
  (exists f, fields_get name fs = Some f /\ fields_get name fs' = Some (g f)) /\
  (forall other, other <> name -> fields_get other fs' = fields_get other fs).
Proof.
  unfold update_field. destruct (fields_get name fs) as [f|] eqn:Hf; [| discriminate].
  intros [= <-]. split.
  - exists f. split; [reflexivity | apply fields_get_set_eq].
  - intros other Hne. apply fields_get_set_ne, Hne.
Qed.

Lemma set_widget_attr_returns (name key : string) (v : pyval) (fs fs' : fields_t) :
  set_widget_attr name key v fs = Return fs' ->
  (exists f f', fields_get name fs = Some f /\ fields_get name fs' = Some f' /\
     choices f' = choices f /\
     attrs (widget_of f') = <[key := v]> (attrs (widget_of f))) /\
  (forall other, other <> name -> fields_get other fs' = fields_get other fs).
Proof.
  unfold set_widget_attr. intros H.
  destruct (update_field_returns _ _ _ _ H) as ((f & Hf & Hf') & Hother).
  split; [| exact Hother]. exists f. eexists. split; [exact Hf |].
  split; [exact Hf' |]. split; reflexivity.
Qed.

Lemma select_or_input_data_keeps_others (name : string) (choice : list string)
    (fields fields' : fields_t) (w w' : world) :
  select_or_input_data name choice fields w = (Return fields', w') ->
  forall other, other <> "value" -> fields_get other fields' = fields_get other fields.
Proof.
  unfold DynamicFilterForm.select_or_input_data. intros H other Hne.
  repeat match goal with
  | H : bind _ _ _ = (Return _, _) |- _ =>
      apply bind_returns in H as (? & ? & ? & H)
  | H : (if ?b then _ else _) _ = (Return _, _) |- _ => destruct b
  | H : ret _ _ = (Return _, _) |- _ => injection H as <- <-
  end.
  all: try (apply fields_get_set_ne, Hne); reflexivity.
Qed.


Lemma self_model_run (a : django_model) (w w' : world) :
  self_model w = (Return a, w') -> model w = Some a /\ w' = w.
Proof.
  unfold self_model. destruct (model w); [| discriminate].
  intros [= -> ->]. auto.
Qed.

Lemma init_returns (m : django_model) (args : list pyval)
    (kwargs : gmap string pyval) (w w' : world) (fields : fields_t) :
  model w = Some m ->
  __init__ args kwargs w = (Return fields, w') ->
  (exists lt, fields_get "lookup_type" fields = Some lt /\
     attrs (widget_of lt) !! "data-contenttype"
       = Some (VStr (app_label m +:+ "." +:+ model_name m))) /\
  (exists lf filters expr,
     fields_get "lookup_field" fields = Some lf /\
     get_filterset_for_model m = Return filters /\
     lookup_expr_loop upper filters = Return expr /\
     choices lf = VList (VTuple [VNone; VNone] :: expr)).
Proof.
  intros Hm H. unfold DynamicFilterForm.__init__ in H.
  apply bind_returns in H as (F0 & w0 & H0 & H). apply lift_returns in H0 as [_ ->].
  apply bind_returns in H as (m1 & w1 & Hm1 & H).
  apply self_model_run in Hm1 as [Hm1 ->].
  apply bind_returns in H as (m2 & w2 & Hm2 & H).
  apply self_model_run in Hm2 as [Hm2 ->].
  assert (m1 = m) as -> by congruence. assert (m2 = m) as -> by congruence.
  apply bind_returns in H as (expr & w3 & Hexpr & H).
  apply bind_returns in H as (F1 & w4 & H1 & H). apply lift_returns in H1 as [H1 ->].
  apply bind_returns in H as (F2 & w5 & H2 & H). apply lift_returns in H2 as [H2 ->].
  apply bind_returns in H as (F3 & w6 & H3 & H).
  apply bind_returns in H as (F4 & w7 & H4 & H). apply lift_returns in H4 as [H4 ->].
  apply bind_returns in H as (F5 & w8 & H5 & H). apply lift_returns in H5 as [H5 ->].
  apply bind_returns in H as (F6 & w9 & H6 & H). apply lift_returns in H6 as [H6 ->].
  apply bind_returns in H as (F7 & w10 & H7 & H). apply lift_returns in H7 as [H7 ->].
  apply bind_returns in H as (value & w11 & _ & H).
  apply bind_returns in H as (joined & w12 & _ & H).
  apply lift_returns in H as [H8 _].
  apply set_widget_attr_returns in H8 as [_ O8].
  apply set_widget_attr_returns in H7 as [(f6 & f7 & G6 & G7 & _ & A7) O7].
  apply set_widget_attr_returns in H6 as [(f5 & f6' & G5 & G6' & _ & A6) O6].
  apply set_widget_attr_returns in H5 as [(f4 & f5' & _ & G5' & _ & A5) O5].
  apply set_widget_attr_returns in H4 as [_ O4].
  apply set_widget_attr_returns in H2 as [(f1 & f2 & G1 & G2 & C2 & _) _].
  apply update_field_returns in H1 as [(f0 & _ & G1') _].
  split.
  - exists f7. split.
    + rewrite O8 by discriminate. exact G7.
    + rewrite G6 in G6'. injection G6' as <-.
      rewrite G5 in G5'. injection G5' as <-.
      rewrite A7, A6, A5.
      rewrite !lookup_insert_ne by discriminate. apply lookup_insert_eq.
  - assert (Hkept : fields_get "lookup_field" F3 = fields_get "lookup_field" F2).
    { clear - H3.
      destruct (truthy _ && truthy _);
        [| injection H3 as <- _; reflexivity].
      apply bind_returns in H3 as (lt & u1 & _ & H3).
      apply bind_returns in H3 as (lv & u2 & _ & H3).
      apply bind_returns in H3 as (Fa & u3 & Ha & H3).
      assert (Hmid : fields_get "lookup_field" Fa = fields_get "lookup_field" F2).
      { destruct lt as [|first rest]; [injection Ha as <- _; reflexivity |].
        apply bind_returns in Ha as (? & ? & _ & Ha).
        apply bind_returns in Ha as (? & ? & _ & Ha).
        apply lift_returns in Ha as [Ha _].
        apply update_field_returns in Ha as [_ Ha]. apply Ha. discriminate. }
      rewrite <- Hmid.
      destruct lt as [|first rest]; [injection H3 as <- _; reflexivity |].
      destruct lv as [|v vs]; [injection H3 as <- _; reflexivity |].
      apply (select_or_input_data_keeps_others _ _ _ _ _ _ H3). discriminate. }
    unfold DynamicFilterForm.get_lookup_expr_choices in Hexpr.
    apply bind_returns in Hexpr as (m3 & u1 & Hm3 & Hexpr).
    apply self_model_run in Hm3 as [Hm3 ->].
    assert (m3 = m) as -> by congruence.
    apply bind_returns in Hexpr as (? & u2 & _ & Hexpr).
    apply bind_returns in Hexpr as (filters & u3 & Hf & Hexpr).
    apply lift_returns in Hf as [Hf _]. apply lift_returns in Hexpr as [Hexpr _].
    exists f2, filters, expr.
    split; [| split; [exact Hf | split; [exact Hexpr |]]].
    + rewrite O8, O7, O6, O5, O4, Hkept by discriminate. exact G2.
    + rewrite G1 in G1'. injection G1' as ->. rewrite C2. reflexivity.
Qed.

Lemma set_widget_attr_field (name key : string) (v : pyval) (fs fs' : fields_t) :
  set_widget_attr name key v fs = Return fs' ->
  exists f,
    fields_get name fs = Some f /\
    fields_get name fs'
      = Some (set_widget (set_attrs (<[key := v]> (attrs (widget_of f))) (widget_of f)) f).
Proof.
  unfold set_widget_attr. intros H.
  destruct (update_field_returns _ _ _ _ H) as ((f & Hf & Hf') & _).
  exists f. split; [exact Hf | exact Hf'].
Qed.

Lemma get_lookup_expr_choices_returns (m : django_model) (w w' : world)
    (expr : list pyval) :
  model w = Some m ->
  get_lookup_expr_choices w = (Return expr, w') ->
  w' = {| model := model w;
          calls := calls w ++ [call_get_filterset_for_model m] |}.
Proof.
  intros Hm. unfold DynamicFilterForm.get_lookup_expr_choices, bind, self_model,
    record_call, modify, lift.
  rewrite Hm. cbn.
  destruct (get_filterset_for_model m) as [filters|e]; [| discriminate].
  intros [= _ <-]. rewrite Hm. reflexivity.
Qed.

(** What a returning [select_or_input_data] has done: one call of
    [get_filterset_field_data] with the class's model, and for the two
    choice types a new [value] field that offers the reported choices. *)
Lemma select_or_input_data_returns (m : django_model) (name : string)
    (choice : list string) (fields fields' : fields_t) (w w' : world) :
  model w = Some m ->
  select_or_input_data name choice fields w = (Return fields', w') ->
  w' = {| model := model w;
          calls := calls w ++ [call_get_filterset_field_data m name choice] |} /\
  exists reported type,
    get_filterset_field_data m name choice = Return reported /\
    reported !! "type" = Some type /\
    (eq_str type "static-choices" || eq_str type "dynamic-choices" = true ->
     exists options wgt,
       reported !! "choices" = Some options /\
       fields' = fields_set "value"
                   (MkField ChoiceField false VNone (VList (VStr <$> choice))
                      options wgt) fields).
Proof.
  intros Hm.
  unfold DynamicFilterForm.select_or_input_data, bind, self_model, record_call,
    modify, lift, ret, data_getitem.
  rewrite Hm. cbn.
  destruct (get_filterset_field_data m name choice) as [reported|e];
    [| discriminate].
  destruct (reported !! "type") as [type|] eqn:Hty; [| discriminate].
  destruct (eq_str type "static-choices") eqn:Hs.
  - destruct (reported !! "allow_multiple") as [am|]; [| discriminate].
    destruct (reported !! "choices") as [options|] eqn:Hopt; [| discriminate].
    destruct (StaticSelect2 _) as [wgt|e]; [| discriminate].
    intros [= <- <-]. split; [rewrite Hm; reflexivity |].
    exists reported, type. split; [reflexivity |]. split; [exact Hty |].
    intros _. exists options, wgt. split; [exact Hopt | reflexivity].
  - destruct (eq_str type "dynamic-choices") eqn:Hd.
    + destruct (not_None (reported !! "content_type"));
        destruct (not_None (reported !! "value_field")); cbn;
        repeat match goal with
        | |- context [match reported !! ?k with _ => _ end] =>
            let E := fresh "E" in
            destruct (reported !! k) eqn:E; cbn; [| discriminate]
        end;
        (destruct (APISelectMultiple _ _) as [wgt|e]; [| discriminate]);
        intros [= <- <-]; (split; [rewrite Hm; reflexivity |]);
        exists reported, type; (split; [reflexivity |]); (split; [exact Hty |]);
        intros _; eexists _, wgt; (split; [eassumption | reflexivity]).
    + intros [= <- <-]. split; [rewrite Hm; reflexivity |].
      exists reported, type. split; [reflexivity |]. split; [exact Hty |].
      rewrite Hs, Hd. discriminate.
Qed.

(** A form that [__init__] returns for a submitted row: the three helper
    calls it made, and where its [value] field comes from. *)
Lemma init_returns_row (m : django_model) (args : list pyval)
    (kwargs : gmap string pyval) (w w' : world) (fields : fields_t)
    (first : string) (rest values : list string) :
  let row := default VNone (kwargs !! "data") in
  let prefix := default VNone (kwargs !! "prefix") in
  model w = Some m ->
  __init__ args kwargs w = (Return fields, w') ->
  truthy row && truthy prefix = true ->
  getlist row (str_add prefix "-lookup_type") = Return (first :: rest) ->
  getlist row (str_add prefix "-value") = Return values ->
  values <> [] ->
  calls w' =
    calls w ++ [ call_get_filterset_for_model m;
                 call_build_lookup_label first;
                 call_get_filterset_field_data m first values ] /\
  exists reported type,
    get_filterset_field_data m first values = Return reported /\
    reported !! "type" = Some type /\
    (eq_str type "static-choices" || eq_str type "dynamic-choices" = true ->
     exists value options,
       reported !! "choices" = Some options /\
       fields_get "value" fields = Some value /\
       fclass value = ChoiceField /\
       choices value = options /\
       Django.initial value = VList (VStr <$> values)).
Proof.
  intros row prefix Hm H Hrow Htype Hvalue Hne. subst row prefix.
  unfold DynamicFilterForm.__init__ in H.
  apply bind_returns in H as (F0 & w0 & H0 & H). apply lift_returns in H0 as [_ ->].
  apply bind_returns in H as (m1 & w1 & Hm1 & H).
  apply self_model_run in Hm1 as [Hm1 ->].
  apply bind_returns in H as (m2 & w2 & Hm2 & H).
  apply self_model_run in Hm2 as [Hm2 ->].
  apply bind_returns in H as (expr & w3 & Hexpr & H).
  apply (get_lookup_expr_choices_returns m _ _ _ Hm) in Hexpr. subst w3.
  apply bind_returns in H as (F1 & w4 & H1 & H). apply lift_returns in H1 as [H1 ->].
  apply bind_returns in H as (F2 & w5 & H2 & H). apply lift_returns in H2 as [H2 ->].
  apply bind_returns in H as (F3 & w6 & H3 & H).
  rewrite Hrow in H3.
  apply bind_returns in H3 as (lt & u1 & Hlt & H3).
  apply lift_returns in Hlt as [Hlt ->]. rewrite Htype in Hlt. injection Hlt as <-.
  apply bind_returns in H3 as (lv & u2 & Hlv & H3).
  apply lift_returns in Hlv as [Hlv ->]. rewrite Hvalue in Hlv. injection Hlv as <-.
  apply bind_returns in H3 as (Fa & u3 & Ha & H3).
  apply bind_returns in Ha as (? & u4 & Hrec & Ha).
  unfold record_call, modify in Hrec. injection Hrec as _ <-.
  apply bind_returns in Ha as (label & u5 & Hlabel & Ha).
  apply lift_returns in Hlabel as [_ ->]. apply lift_returns in Ha as [_ ->].
  destruct values as [|v vs]; [contradiction |].
  apply (select_or_input_data_returns m) in H3
    as (-> & reported & type & Hrep & Hty & Hsel); [| exact Hm].
  apply bind_returns in H as (F4 & w7 & H4 & H). apply lift_returns in H4 as [H4 ->].
  apply bind_returns in H as (F5 & w8 & H5 & H). apply lift_returns in H5 as [H5 ->].
  apply bind_returns in H as (F6 & w9 & H6 & H). apply lift_returns in H6 as [H6 ->].
  apply bind_returns in H as (F7 & w10 & H7 & H). apply lift_returns in H7 as [H7 ->].
  apply bind_returns in H as (value & w11 & Hval & H).
  apply lift_returns in Hval as [_ ->].
  apply bind_returns in H as (joined & w12 & Hj & H).
  apply lift_returns in Hj as [_ ->].
  apply lift_returns in H as [H8 ->].
  split.
  - cbn. rewrite <- !app_assoc. reflexivity.
  - exists reported, type. split; [exact Hrep |]. split; [exact Hty |].
    intros Hchoice. destruct (Hsel Hchoice) as (options & wgt & Hopt & ->).
    apply set_widget_attr_field in H8 as (f & Hf & Hf').
    apply set_widget_attr_returns in H7 as [_ O7].
    apply set_widget_attr_returns in H6 as [_ O6].
    apply set_widget_attr_returns in H5 as [_ O5].
    apply set_widget_attr_returns in H4 as [_ O4].
    rewrite O7, O6, O5, O4, fields_get_set_eq in Hf by discriminate.
    injection Hf as <-.
    eexists _, options. split; [exact Hopt |]. split; [exact Hf' |].
    repeat split.
Qed.

(** C10. [dynamic_formset_factory] assigns its model to the class
    attribute [DynamicFilterForm.model], not to an instance.  After a call
    with model [m], and until the attribute is assigned again, every
    [DynamicFilterForm] that is constructed reads [m]: the helpers are
    called with [m] only, the content type on the [lookup_type] widget is
    [m]'s, the choices of [lookup_field] are built from [m]'s filter-set,
    and for a submitted row [get_filterset_field_data] is asked about [m]
    and the [value] field offers the choices it reports for [m].  A form
    that a formset builds is the form this constructor builds in the same
    state from the formset's keyword arguments, whichever call of the
    factory produced the formset. *)
Theorem factory_model_shared_by_all_forms
    (m : django_model) (data : pyval) (fkw : gmap string pyval) (w0 : world) :
  let w := snd (dynamic_formset_factory m data fkw w0) in
  model w = Some m /\
  forall w1 : world, model w1 = model w ->
    (forall (args : list pyval) (kwargs : gmap string pyval),
       let run := __init__ args kwargs w1 in
       model (snd run) = Some m /\
       (exists new, calls (snd run) = calls w1 ++ new /\ Forall (about m) new) /\
       (forall fields, fst run = Return fields ->
          (exists lt, fields_get "lookup_type" fields = Some lt /\
             attrs (widget_of lt) !! "data-contenttype"
               = Some (VStr (app_label m +:+ "." +:+ model_name m))) /\
          (exists lf filters expr,
             fields_get "lookup_field" fields = Some lf /\
             get_filterset_for_model m = Return filters /\
             lookup_expr_loop upper filters = Return expr /\
             choices lf = VList (VTuple [VNone; VNone] :: expr)) /\
          (forall (first : string) (rest values : list string),
             let row := default VNone (kwargs !! "data") in
             let prefix := default VNone (kwargs !! "prefix") in
             truthy row && truthy prefix = true ->
             getlist row (str_add prefix "-lookup_type") = Return (first :: rest) ->
             getlist row (str_add prefix "-value") = Return values ->
             values <> [] ->
             calls (snd run) =
               calls w1 ++ [ call_get_filterset_for_model m;
                             call_build_lookup_label first;
                             call_get_filterset_field_data m first values ] /\
             exists reported type,
               get_filterset_field_data m first values = Return reported /\
               reported !! "type" = Some type /\
               (eq_str type "static-choices" || eq_str type "dynamic-choices" = true ->
                exists value options,
                  reported !! "choices" = Some options /\
                  fields_get "value" fields = Some value /\
                  fclass value = ChoiceField /\
                  choices value = options /\
                  Django.initial value = VList (VStr <$> values)))))
    /\
    (forall (self : formset) (i : Z) (kwargs : gmap string pyval),
       form self = __init__ [] ->
       let run := _construct_form add_fields self i kwargs w1 in
       model (snd run) = Some m /\
       (exists new, calls (snd run) = calls w1 ++ new /\ Forall (about m) new) /\
       (forall d, defaults self i kwargs = Return d ->
          run = (match fst (__init__ [] d w1) with
                 | Return f => add_fields self f i
                 | Raise e => Raise e
                 end,
                 snd (__init__ [] d w1)))).
Proof.
  intros w.
  assert (Hw : model w = Some m).
  { subst w. unfold Factory.dynamic_formset_factory, bind, modify. cbn.
    destruct (has_key "form" _ || has_key "formset" _); cbn; [reflexivity |].
    destruct (formset_factory _) as [cls|e]; cbn; [| reflexivity].
    destruct (truthy data); cbn; [| reflexivity].
    destruct (new_formset cls data); reflexivity. }
  split; [exact Hw |]. intros w1 Hw1. rewrite Hw in Hw1. split.
  - intros args kwargs run. subst run.
    destruct (init_uses_only m args kwargs w1 Hw1) as [Hkeep Hcalls].
    split; [exact Hkeep |]. split; [exact Hcalls |].
    intros fields Hret.
    destruct (__init__ args kwargs w1) as [r w'] eqn:Hrun. cbn in Hret. subst r.
    destruct (init_returns m args kwargs w1 w' fields Hw1 Hrun) as [Hct Hlf].
    split; [exact Hct |]. split; [exact Hlf |].
    intros first rest values row prefix Hrow Htype Hvalue Hne.
    exact (init_returns_row m args kwargs w1 w' fields first rest values
             Hw1 Hrun Hrow Htype Hvalue Hne).
  - intros self i kwargs Hform run. subst run.
    assert (H : uses_only m (_construct_form add_fields self i kwargs)).
    { unfold _construct_form. rewrite Hform.
      repeat first [ apply init_uses_only | uses_only_step ]. }
    destruct (H w1 Hw1) as [Hkeep Hcalls].
    split; [exact Hkeep |]. split; [exact Hcalls |].
    intros d Hd. unfold _construct_form, bind, lift. rewrite Hd, Hform.
    destruct (__init__ [] d w1) as [[f|e] w']; reflexivity.
Qed.

End SharedModelClaims.

(** ** The properties on the example inputs *)

Section OnExamples.
Import Examples DynamicFilterForm DynamicFilterFormBaseFormSet.

Lemma import_single_object_limit_witness :
  fst (ImportForm.clean json_loads_impl yaml_load_impl (import_form "json" "[1, 2]"))
    = Raise (ValidationError [("data", "Import is limited to one object at a time.")])
  /\
  fst (ImportForm.clean json_loads_impl yaml_load_impl (import_form "yaml" two_documents))
    = Raise (ValidationError [("data", "Import is limited to one object at a time.")]).
Proof.
  split.
  - apply (import_single_object_limit json_loads_impl yaml_load_impl
             (import_form "json" "[1, 2]") "[1, 2]").
    + reflexivity.
    + left. split; [reflexivity |]. exists (VList [VInt 1; VInt 2]).
      split; reflexivity.
  - apply (import_single_object_limit json_loads_impl yaml_load_impl
             (import_form "yaml" two_documents) two_documents).
    + reflexivity.
    + right. split; reflexivity.
Defined.

Lemma import_json_object_decoded_witness :
  fst (ImportForm.clean json_loads_impl yaml_load_impl (import_form "json" body_object))
    = Return tt /\
  cleaned_data (snd (ImportForm.clean json_loads_impl yaml_load_impl
                       (import_form "json" body_object)))
    = <["data" := VDict [("a", VInt 1)] ]>
        (cleaned_data (import_form "json" body_object)).
Proof.
  apply (import_json_object_decoded json_loads_impl yaml_load_impl
           (import_form "json" body_object) body_object [("a", VInt 1)]);
    reflexivity.
Defined.



Lemma rename_regex_checked_when_asked_witness :
  fst (BulkRenameForm.clean re_compile_impl (rename_form true (Some "eth(")))
    = Raise (ValidationError [("find", "Invalid regular expression")])
  /\
  BulkRenameForm.clean re_compile_impl (rename_form false (Some "eth("))
    = (Return tt, rename_form false (Some "eth(")).
Proof.
  split.
  - apply (proj1 (rename_regex_checked_when_asked re_compile_impl
                    (rename_form true (Some "eth(")) (VBool true) eq_refl)
             eq_refl "eth(" "missing ), unterminated subpattern at position 3");
      reflexivity.
  - apply (proj2 (rename_regex_checked_when_asked re_compile_impl
                    (rename_form false (Some "eth(")) (VBool false) eq_refl)
             eq_refl).
Defined.

Lemma rename_missing_find_raises_KeyError_witness :
  BulkRenameForm.clean re_compile_impl (rename_form true None)
    = (Raise (KeyError "find"), rename_form true None).
Proof.
  apply (rename_missing_find_raises_KeyError re_compile_impl
           (rename_form true None) (VBool true)); reflexivity.
Defined.

Lemma value_field_follows_reported_type_witness :
  exists fields',
    fst (select_or_input_data get_filterset_field_data StaticSelect2 APISelectMultiple
           "has_primary_ip" ["True"] base_fields device_world) = Return fields' /\
    fields_get "value" fields'
      = Some (MkField ChoiceField false VNone (VList [VStr "True"]) yes_no static_widget).
Proof.
  destruct (proj1 (value_field_follows_reported_type
                     get_filterset_field_data StaticSelect2 APISelectMultiple
                     device_world device "has_primary_ip" ["True"] base_fields
                     primary_ip_data (VStr "static-choices")
                     eq_refl eq_refl eq_refl)
              (VBool false) yes_no static_widget eq_refl eq_refl eq_refl)
    as (fields' & Hrun & Hvalue & _).
  - vm_compute. reflexivity.
  - exists fields'. split; [exact Hrun | exact Hvalue].
Defined.

Lemma bootstrap_styles_every_field_witness :
  exists fs',
    BootstrapMixin.__init__ upload_fields = (Return tt, fs') /\
    fs' !! 0%nat = Some ("name", styled_name_field).
Proof.
  destruct (bootstrap_styles_every_field upload_fields) as (fs' & Hrun & _ & _).
  - intros n f v [[= <- <-]|[[= <- <-]|[[= <- <-]|[]]]]; cbn; try discriminate.
    intros _ Hv. vm_compute in Hv. injection Hv as <-. eauto.
  - exists fs'. split; [exact Hrun |].
    vm_compute in Hrun. injection Hrun as <-. vm_compute. reflexivity.
Defined.

Lemma computed_field_seeded_and_written_back_witness :
  AddressFieldMixin.__init__ {[ "instance" := ModelForm.AInstance address_instance ]}
    = Return (<["initial" := ModelForm.ADict {[ "address" := VStr "10.0.0.1/24" ]}]>
                {[ "instance" := ModelForm.AInstance address_instance ]})
  /\
  PrefixFieldMixin.__init__ {[ "instance" := ModelForm.AInstance address_instance ]}
    = Return (<["initial" := ModelForm.ADict {[ "prefix" := VStr "10.0.0.0/24" ]}]>
                {[ "instance" := ModelForm.AInstance address_instance ]}).
Proof.
  pose proof (computed_field_seeded_and_written_back
                {[ "instance" := ModelForm.AInstance address_instance ]} ∅
                (or_intror (conj eq_refl eq_refl))) as (_ & Haddr & _ & Hprefix & _).
  split.
  - exact (Haddr address_instance (VStr "10.0.0.1/24") eq_refl eq_refl eq_refl).
  - exact (Hprefix address_instance (VStr "10.0.0.0/24") eq_refl eq_refl eq_refl).
Defined.

(** C8 as the claim states it fails here.  The formset is unbound and has
    two initial rows; the caller names [use_required_attribute] for its
    first form.  The form class is called with [True], with the first row
    as [initial] and without [empty_permitted], and the form is built. *)
Lemma construct_form_required_attribute_overridden :
  let self := MoreExamples.seeded_formset (VList MoreExamples.initial_rows) false in
  exists d fields,
    defaults self 0 override = Return d /\
    d !! "use_required_attribute" = Some (VBool true) /\
    d !! "use_required_attribute" <> Some (VBool false) /\
    d !! "empty_permitted" = None /\
    d !! "initial" = Some (VDict [("lookup_field", VStr "name")]) /\
    _construct_form add_fields self 0 override device_world
      = (let* f := form self d in lift (add_fields self f 0)) device_world /\
    Form_init [] d = Return base_fields /\
    fst (_construct_form add_fields self 0 override device_world) = Return fields.
Proof.
  eexists. eexists. split; [reflexivity |].
  split; [reflexivity |]. split; [discriminate |]. split; [reflexivity |].
  split; [reflexivity |]. split; [reflexivity |]. split; [reflexivity |].
  vm_compute. reflexivity.
Qed.

Lemma construct_form_defaults_yield_to_kwargs_witness :
  exists d,
    defaults filter_formset 1 ∅ = Return d /\
    d !! "use_required_attribute" = Some (VBool false) /\
    d !! "empty_permitted" = Some (VBool true).
Proof.
  destruct (proj1 (proj2 (construct_form_defaults_yield_to_kwargs
                            add_fields (gmap string pyval) (gmap string pyval * pyval)
                            formset_factory new_formset filter_formset 1 ∅))
              [] (or_introl eq_refl)) as [d Hd].
  exists d. split; [exact Hd |].
  destruct (proj1 (construct_form_defaults_yield_to_kwargs
                     add_fields (gmap string pyval) (gmap string pyval * pyval)
                     formset_factory new_formset filter_formset 1 ∅) d Hd)
    as (_ & Hreq & Hemp & _).
  split; [apply Hreq; reflexivity |].
  apply Hemp; [vm_compute; discriminate | vm_compute; discriminate | reflexivity].
Defined.

Lemma factory_model_shared_by_all_forms_witness :
  model site_world = Some site /\
  (exists fields lt value,
     fst (new_form status_row site_world) = Return fields /\
     fields_get "lookup_type" fields = Some lt /\
     attrs (widget_of lt) !! "data-contenttype" = Some (VStr "dcim.site") /\
     calls (snd (new_form status_row site_world))
       = calls site_world ++ [ call_get_filterset_for_model site;
                               call_build_lookup_label "status";
                               call_get_filterset_field_data site "status" ["active"] ] /\
     fields_get "value" fields = Some value /\
     fclass value = ChoiceField /\
     choices value = VList []) /\
  calls (snd (_construct_form add_fields MoreExamples.bound_filter_formset 0 ∅
                site_world))
    = calls site_world ++ [ call_get_filterset_for_model site;
                            call_build_lookup_label "has_primary_ip";
                            call_get_filterset_field_data site "has_primary_ip" ["True"] ].
Proof.
  pose proof (factory_model_shared_by_all_forms
                Form_init get_filterset_for_model build_lookup_label
                get_filterset_field_data StaticSelect2 APISelectMultiple upper
                add_fields (gmap string pyval) (gmap string pyval * pyval)
                formset_factory new_formset site VNone ∅ device_world)
    as [Hmodel Hforms].
  split; [exact Hmodel |].
  destruct (Hforms site_world eq_refl) as [Hinit Hformset].
  split.
  - destruct (Hinit [] status_row) as (_ & _ & Hfields).
    destruct (fst (new_form status_row site_world)) as [fields|e] eqn:Hrun;
      [| vm_compute in Hrun; discriminate].
    destruct (Hfields fields Hrun) as ((lt & Hlt & Hct) & _ & Hrow).
    destruct (Hrow "status" [] ["active"])
      as (Hcalls & reported & type & Hrep & Hty & Hval);
      [reflexivity | reflexivity | reflexivity | discriminate |].
    injection Hrep as <-. injection Hty as <-.
    destruct (Hval eq_refl) as (value & options & Hopt & Hvalue & Hclass & Hchoices & _).
    injection Hopt as <-.
    exists fields, lt, value. auto 10.
  - destruct (Hformset MoreExamples.bound_filter_formset 0 ∅ eq_refl)
      as (_ & _ & Hsame).
    erewrite Hsame by reflexivity. cbn [snd].
    match goal with
    | |- calls (snd (__init__ _ _ _ _ _ _ _ [] ?d _)) = _ =>
        destruct (Hinit [] d) as (_ & _ & Hfields)
    end.
    edestruct Hfields as (_ & _ & Hrow); [vm_compute; reflexivity |].
    destruct (Hrow "has_primary_ip" [] ["True"]) as [Hcalls _];
      [reflexivity | reflexivity | reflexivity | discriminate |].
    exact Hcalls.
Defined.

End OnExamples.

(** * Further properties of the code *)

(** ** More on [ImportForm.clean] *)

Section ImportFormMore.

Variable json_loads_impl : string -> outcome pyval.
Variable yaml_load_impl : string -> outcome pyval.

Local Abbreviation clean := (ImportForm.clean json_loads_impl yaml_load_impl).

(** X1. Any [format] other than "json" takes the YAML branch, and
    whatever [yaml.load] returns for a body without a document separator
    is stored in [cleaned_data["data"]]: a list or a scalar passes, the
    single-mapping test is made on the JSON branch only. *)
Theorem import_yaml_document_stored_unchecked
    (f : bound_form) (s : string) (fmt v : pyval) :
  cleaned_data f !! "data" = Some (VStr s) ->
  cleaned_data f !! "format" = Some fmt ->
  eq_str fmt "json" = false ->
  str_contains (newline +:+ "---") s = false ->
  yaml_load_impl s = Return v ->
  clean f =
    (Return tt,
     {| cleaned_data := <["data" := v]> (cleaned_data f);
        log := log f ++ [Call yaml_load (VStr s) (Return v)] |}).
Proof.
  intros Hd Hf Hj Hsep Hv.
  rewrite (clean_yaml _ _ f _ _ Hd Hf Hj). cbn. rewrite Hsep. cbn. rewrite Hv.
  reflexivity.
Qed.

(** X2. When the JSON body decodes to something that is not a
    mapping, [clean] fails with the decoded value already stored in
    [cleaned_data["data"]]; when [json.loads] raises, [cleaned_data] is as
    it was. *)
Theorem import_failure_and_cleaned_data (f : bound_form) (s : string) :
  cleaned_data f !! "data" = Some (VStr s) ->
  cleaned_data f !! "format" = Some (VStr "json") ->
  (forall v, json_loads_impl s = Return v -> isinstance_dict v = false ->
     cleaned_data (snd (clean f)) = <["data" := v]> (cleaned_data f)) /\
  (forall e, json_loads_impl s = Raise e ->
     cleaned_data (snd (clean f)) = cleaned_data f).
Proof.
  intros Hd Hf. rewrite (clean_json _ _ f _ _ Hd Hf eq_refl). cbn. split.
  - intros v Hv _. rewrite Hv. reflexivity.
  - intros e He. rewrite He. reflexivity.
Qed.

(** X3. Only the parser's own error class is turned into a
    validation error.  Any other exception of [json.loads] or [yaml.load],
    and the [TypeError] of the separator test on a value that is not
    iterable, leave [clean] as they are. *)
Theorem import_other_exceptions_escape (f : bound_form) (d fmt : pyval) (e : exn) :
  cleaned_data f !! "data" = Some d ->
  cleaned_data f !! "format" = Some fmt ->
  (eq_str fmt "json" = true ->
   Lib.apply json_loads json_loads_impl d = Raise e ->
   is_JSONDecodeError e = false ->
   fst (clean f) = Raise e)
  /\
  (eq_str fmt "json" = false ->
   contains (newline +:+ "---") d = Return false ->
   Lib.apply yaml_load yaml_load_impl d = Raise e ->
   is_YAMLError e = false ->
   fst (clean f) = Raise e)
  /\
  (eq_str fmt "json" = false ->
   contains (newline +:+ "---") d = Raise e ->
   clean f = (Raise e, f)).
Proof.
  intros Hd Hf. split; [| split].
  - intros Hj He Hne. rewrite (clean_json _ _ f _ _ Hd Hf Hj). cbn zeta.
    rewrite He, Hne. reflexivity.
  - intros Hj Hc He Hne. rewrite (clean_yaml _ _ f _ _ Hd Hf Hj), Hc. cbn zeta.
    rewrite He, Hne. reflexivity.
  - intros Hj Hc. rewrite (clean_yaml _ _ f _ _ Hd Hf Hj), Hc. reflexivity.
Qed.

(** X4. One run of [clean] calls at most one parser, on the
    value of [cleaned_data["data"]]: with [format] "json" it calls
    [json.loads], once; with any other [format] it calls [yaml.load], once,
    unless the separator test finds a document separator or fails, and
    then it calls no parser; with [data] or [format] missing it calls
    none. *)
Theorem import_calls_at_most_one_parser (f : bound_form) :
  calls_during clean f =
    match cleaned_data f !! "data", cleaned_data f !! "format" with
    | Some d, Some fmt =>
        if eq_str fmt "json"
        then [Call json_loads d (Lib.apply json_loads json_loads_impl d)]
        else
          match contains (newline +:+ "---") d with
          | Return false =>
              [Call yaml_load d (Lib.apply yaml_load yaml_load_impl d)]
          | _ => []
          end
    | _, _ => []
    end.
Proof.
  unfold calls_during.
  destruct (cleaned_data f !! "data") as [d|] eqn:Hd;
    [| rewrite (clean_no_data _ _ f Hd); apply drop_all].
  destruct (cleaned_data f !! "format") as [fmt|] eqn:Hf;
    [| rewrite (clean_no_format _ _ f d Hd Hf); apply drop_all].
  destruct (eq_str fmt "json") eqn:Hj.
  - rewrite (clean_json _ _ f d fmt Hd Hf Hj). cbn zeta.
    destruct (Lib.apply json_loads json_loads_impl d); cbn; apply drop_app_length.
  - rewrite (clean_yaml _ _ f d fmt Hd Hf Hj).
    destruct (contains (newline +:+ "---") d) as [[|]|e]; cbn;
      try apply drop_all.
    destruct (Lib.apply yaml_load yaml_load_impl d); cbn; apply drop_app_length.
Qed.

End ImportFormMore.

(** ** More on [BulkRenameForm.clean] *)

Section BulkRenameFormMore.

Variable re_compile_impl : string -> outcome pyval.
Local Abbreviation clean := (BulkRenameForm.clean re_compile_impl).

Lemma rename_clean_run (f : bound_form) (u : pyval) :
  cleaned_data f !! "use_regex" = Some u ->
  clean f =
    if truthy u then
      match cleaned_data f !! "find" with
      | None => (Raise (KeyError "find"), f)
      | Some p =>
          let r := Lib.apply re_compile re_compile_impl p in
          (match r with
           | Return _ => Return tt
           | Raise e =>
               if is_re_error e then invalid "find" "Invalid regular expression"
               else Raise e
           end,
           {| cleaned_data := cleaned_data f;
              log := log f ++ [Call re_compile p r] |})
      end
    else (Return tt, f).
Proof.
  intros Hu. unfold BulkRenameForm.clean, bind, super_clean, ret, getitem.
  rewrite Hu. destruct (truthy u); [| reflexivity].
  unfold try_except, bind, getitem.
  destruct (cleaned_data f !! "find") as [p|]; [| reflexivity].
  unfold invoke. cbn zeta.
  destruct (Lib.apply re_compile re_compile_impl p) as [v|e]; cbn; [reflexivity |].
  destruct (is_re_error e); reflexivity.
Qed.

(** X5. With [use_regex] set and a [find] pattern that compiles,
    [clean] returns, calls [re.compile] once, on the pattern, and leaves
    [cleaned_data] unchanged. *)
Theorem rename_compiling_pattern_accepted
    (f : bound_form) (u : pyval) (pattern : string) (compiled : pyval) :
  cleaned_data f !! "use_regex" = Some u ->
  truthy u = true ->
  cleaned_data f !! "find" = Some (VStr pattern) ->
  re_compile_impl pattern = Return compiled ->
  clean f =
    (Return tt,
     {| cleaned_data := cleaned_data f;
        log := log f ++ [Call re_compile (VStr pattern) (Return compiled)] |}).
Proof.
  intros Hu Ht Hfind Hre. rewrite (rename_clean_run f u Hu), Ht, Hfind. cbn.
  rewrite Hre. reflexivity.
Qed.

(** X6. [BulkRenameForm.clean] does not look at [replace]:
    setting, changing or removing that entry changes neither the outcome nor
    the calls of [re.compile]. *)
Theorem rename_never_reads_replace (f : bound_form) (v : option pyval) :
  let f' := {| cleaned_data := partial_alter (fun _ => v) "replace" (cleaned_data f);
               log := log f |} in
  fst (clean f') = fst (clean f) /\
  calls_during clean f' = calls_during clean f.
Proof.
  intros f'.
  assert (Hu : cleaned_data f' !! "use_regex" = cleaned_data f !! "use_regex")
    by (apply lookup_partial_alter_ne; discriminate).
  assert (Hfind : cleaned_data f' !! "find" = cleaned_data f !! "find")
    by (apply lookup_partial_alter_ne; discriminate).
  unfold calls_during.
  destruct (cleaned_data f !! "use_regex") as [u|] eqn:Hu0.
  - rewrite (rename_clean_run f u Hu0), (rename_clean_run f' u Hu), Hfind.
    destruct (truthy u); [| cbn; rewrite !drop_all; auto].
    destruct (cleaned_data f !! "find") as [p|]; [| cbn; rewrite !drop_all; auto].
    cbn. rewrite !drop_app_length. auto.
  - unfold BulkRenameForm.clean, bind, super_clean, ret, getitem.
    rewrite Hu, Hu0. cbn. rewrite !drop_all. auto.
Qed.

(** X7. An exception of [re.compile] that is not [re.error] (an
    [OverflowError] for a repetition count that is too large, a [TypeError]
    for a [find] that is not text) leaves [clean] uncaught. *)
Theorem rename_other_exceptions_escape
    (f : bound_form) (u p : pyval) (e : exn) :
  cleaned_data f !! "use_regex" = Some u ->
  truthy u = true ->
  cleaned_data f !! "find" = Some p ->
  Lib.apply re_compile re_compile_impl p = Raise e ->
  is_re_error e = false ->
  fst (clean f) = Raise e.
Proof.
  intros Hu Ht Hfind Hre Hne. rewrite (rename_clean_run f u Hu), Ht, Hfind. cbn zeta.
  rewrite Hre, Hne. reflexivity.
Qed.

End BulkRenameFormMore.

(** ** More on [BootstrapMixin.__init__] *)

Section BootstrapMixinMore.
Import BootstrapMixin.

Lemma join_two_returns (v : pyval) (t joined : string) :
  Str.join " " [v; VStr t] = Return joined -> exists css, v = VStr css.
Proof. destruct v; cbn; try discriminate. eauto. Qed.


(** A pass of the loop body that returns had a text class to join. *)
Lemma loop_body_returns (f f' : field) :
  loop_body f = Return f' ->
  exists css,
    class_in (widget_class (widget_of f)) exempt_widgets = false ->
    default (VStr EmptyString) (attrs (widget_of f) !! "class") = VStr css.
Proof.
  unfold loop_body.
  destruct (class_in (widget_class (widget_of f)) exempt_widgets); cbn [negb].
  - intros _. exists EmptyString. discriminate.
  - destruct (Str.join " " _) as [joined|e] eqn:Hj; [| discriminate].
    apply join_two_returns in Hj as [css Hcss]. intros _. exists css. auto.
Qed.


Lemma loop_returns (fs fs' : fields_t) :
  loop fs = (Return tt, fs') ->
  Forall2 (fun a b => fst a = fst b /\ loop_body (snd a) = Return (snd b)) fs fs'.
Proof.
  revert fs'. induction fs as [|[n f] rest IH]; intros fs'; cbn.
  - intros [= <-]. constructor.
  - destruct (loop_body f) as [f'|e] eqn:Hb; [| discriminate].
    destruct (loop rest) as [r rest'] eqn:Hr. intros [= -> <-].
    constructor; [auto | apply IH; reflexivity].
Qed.


(** X8. When [BootstrapMixin.__init__] returns, the fields are the
    same in number, name and order, and a field differs from what it was
    only in the widget attributes [class], [required] and [placeholder]:
    an exempt widget keeps its class, a field that is not required or has a
    [FileInput] widget keeps [required], a placeholder that was there stays. *)
Theorem bootstrap_touches_three_attributes (fs fs' : fields_t) :
  __init__ fs = (Return tt, fs') ->
  length fs' = length fs /\
  forall (i : nat) n f,
    fs !! i = Some (n, f) ->
    exists f',
      fs' !! i = Some (n, f') /\
      fclass f' = fclass f /\ required f' = required f /\ label f' = label f /\
      Django.initial f' = Django.initial f /\ choices f' = choices f /\
      widget_class (widget_of f') = widget_class (widget_of f) /\
      (forall k, k <> "class" -> k <> "required" -> k <> "placeholder" ->
         attrs (widget_of f') !! k = attrs (widget_of f) !! k) /\
      (class_in (widget_class (widget_of f)) exempt_widgets = true ->
         attrs (widget_of f') !! "class" = attrs (widget_of f) !! "class") /\
      (required f = false \/ isinstance (widget_of f) FileInput = true ->
         attrs (widget_of f') !! "required" = attrs (widget_of f) !! "required") /\
      (forall p, attrs (widget_of f) !! "placeholder" = Some p ->
         attrs (widget_of f') !! "placeholder" = Some p).
Proof.
  unfold __init__. intros Hrun. apply loop_returns in Hrun.
  split; [symmetry; exact (Forall2_length _ _ _ Hrun) |].
  intros i n f Hi.
  destruct (Forall2_lookup_l _ _ _ _ _ Hrun Hi) as ([n' f'] & Hi' & Hn & Hbody).
  cbn in Hn, Hbody. subst n'.
  exists f'. split; [exact Hi' |].
  destruct (loop_body_returns f f' Hbody) as [css Hcss].
  destruct (loop_body_styles f css Hcss) as (a' & Hbody' & _ & Hex & Hreq & Hph & Hother).
  rewrite Hbody' in Hbody. injection Hbody as <-. cbn.
  repeat split; try assumption.
  - intros [Hr | Hfile]; rewrite Hreq.
    + rewrite Hr. reflexivity.
    + rewrite Hfile, andb_false_r. reflexivity.
  - intros p Hp. rewrite Hph, Hp. reflexivity.
Qed.


Lemma loop_body_twice (f f1 : field) :
  loop_body f = Return f1 ->
  exists f2,
    loop_body f1 = Return f2 /\
    (forall k, k <> "class" ->
       attrs (widget_of f2) !! k = attrs (widget_of f1) !! k) /\
    (class_in (widget_class (widget_of f)) exempt_widgets = true ->
       attrs (widget_of f2) !! "class" = attrs (widget_of f1) !! "class") /\
    (class_in (widget_class (widget_of f)) exempt_widgets = false ->
       exists css,
         attrs (widget_of f1) !! "class" = Some (VStr css) /\
         attrs (widget_of f2) !! "class"
           = Some (VStr (Str.strip (css +:+ " " +:+ "form-control")))).
Proof.
  intros H1.
  destruct (loop_body_returns f f1 H1) as [css Hcss].
  destruct (loop_body_styles f css Hcss) as (a1 & Hb1 & Hc1 & _ & Hr1 & Hp1 & _).
  rewrite Hb1 in H1. injection H1 as <-.
  set (f1 := set_widget (set_attrs a1 (widget_of f)) f).
  set (css1 := Str.strip (css +:+ " " +:+ "form-control")).
  assert (Hcss1 : class_in (widget_class (widget_of f1)) exempt_widgets = false ->
                  default (VStr EmptyString) (attrs (widget_of f1) !! "class") = VStr css1).
  { cbn. intros Hex. rewrite (Hc1 Hex). reflexivity. }
  destruct (loop_body_styles f1 css1 Hcss1)
    as (a2 & Hb2 & Hc2 & He2 & Hr2 & Hp2 & Ho2).
  eexists. split; [exact Hb2 |]. cbn in *. split; [| split].
  - intros k Hk.
    destruct (decide (k = "required")) as [-> | Hkr].
    { rewrite Hr2, Hr1. destruct (required f && _); reflexivity. }
    destruct (decide (k = "placeholder")) as [-> | Hkp].
    { rewrite Hp2, Hp1. destruct (attrs (widget_of f) !! "placeholder"); reflexivity. }
    apply Ho2; assumption.
  - exact He2.
  - intros Hex. exists css1. split; [exact (Hc1 Hex) | exact (Hc2 Hex)].
Qed.

(** X10. The styling is not idempotent: a second pass over styled
    fields succeeds, appends "form-control" once more to every class that is
    not exempt, and changes no other attribute. *)
Theorem bootstrap_second_pass_appends_again (fs fs1 : fields_t) :
  __init__ fs = (Return tt, fs1) ->
  exists fs2,
    __init__ fs1 = (Return tt, fs2) /\
    forall (i : nat) n f f1,
      fs !! i = Some (n, f) -> fs1 !! i = Some (n, f1) ->
      exists f2,
        fs2 !! i = Some (n, f2) /\
        (forall k, k <> "class" ->
           attrs (widget_of f2) !! k = attrs (widget_of f1) !! k) /\
        (class_in (widget_class (widget_of f)) exempt_widgets = true ->
           attrs (widget_of f2) !! "class" = attrs (widget_of f1) !! "class") /\
        (class_in (widget_class (widget_of f)) exempt_widgets = false ->
           exists css,
             attrs (widget_of f1) !! "class" = Some (VStr css) /\
             attrs (widget_of f2) !! "class"
               = Some (VStr (Str.strip (css +:+ " " +:+ "form-control"))) /\
             Str.split_ws (Str.strip (css +:+ " " +:+ "form-control"))
               = Str.split_ws css ++ ["form-control"]).
Proof.
  unfold __init__. intros Hrun. apply loop_returns in Hrun.
  induction Hrun as [|[n f] [n1 f1] rest rest1 [Hn Hb] _ IH].
  - exists []. split; [reflexivity |]. intros i n f f1 Hi. destruct i; discriminate.
  - cbn in Hn, Hb. subst n1.
    destruct IH as (rest2 & Hrest & Hall).
    destruct (loop_body_twice f f1 Hb) as (f2 & Hb2 & Hk & Hex & Hne).
    exists ((n, f2) :: rest2). split.
    + cbn [loop]. rewrite Hb2, Hrest. reflexivity.
    + intros [|i] m g g1 Hi Hi1.
      * cbn in Hi, Hi1. injection Hi as -> ->. injection Hi1 as ->.
        exists f2. split; [reflexivity |]. split; [exact Hk |].
        split; [exact Hex |]. intros Hx.
        destruct (Hne Hx) as (css & H1 & H2).
        exists css. split; [exact H1 |]. split; [exact H2 |].
        apply class_names_appended.
      * cbn in Hi, Hi1 |- *. exact (Hall i m g g1 Hi Hi1).
Qed.

End BootstrapMixinMore.

(** ** [DynamicFilterForm.capitalize] *)

Section CapitalizeMore.
Import DynamicFilterForm Reference.

Variable upper : string -> string.

Lemma string_app_cons (c : ascii) (s t : string) :
  String c s +:+ t = String c (s +:+ t).
Proof. reflexivity. Qed.

Lemma string_app_assoc (a b c : string) : (a +:+ b) +:+ c = a +:+ (b +:+ c).
Proof.
  induction a as [|x a IH]; [reflexivity |].
  rewrite !string_app_cons, IH. reflexivity.
Qed.

Lemma split_char_nonempty (sep : ascii) (s : string) : split_char sep s <> [].
Proof.
  destruct s as [|c rest]; cbn; [discriminate |].
  destruct (Ascii.eqb c sep); [discriminate |].
  destruct (split_char sep rest); discriminate.
Qed.

Lemma concat_split_char (s : string) :
  String.concat " " (split_char "_" s) = spaced s.
Proof.
  induction s as [|c rest IH]; [reflexivity |].
  cbn [split_char spaced].
  pose proof (split_char_nonempty "_" rest) as Hne.
  destruct (Ascii.eqb c "_").
  - destruct (split_char "_" rest) as [|w ws] eqn:Hs; [contradiction |].
    change (String.concat " " (EmptyString :: w :: ws))
      with (EmptyString +:+ " " +:+ String.concat " " (w :: ws)).
    rewrite IH. reflexivity.
  - destruct (split_char "_" rest) as [|w ws] eqn:Hs; [contradiction |].
    rewrite <- IH. destruct ws as [|w' ws']; [reflexivity |].
    change (String.concat " " (String c w :: w' :: ws'))
      with (String c w +:+ " " +:+ String.concat " " (w' :: ws')).
    reflexivity.
Qed.

(** X11. [capitalize] raises [IndexError] for an empty name and for
    a name that starts with an underscore; otherwise it returns the name
    with its first character put through [upper] and every underscore
    replaced by a space. *)
Theorem capitalize_spaces_and_first_letter (field : string) :
  capitalize upper field =
    match field with
    | EmptyString => Raise IndexError
    | String c rest =>
        if Ascii.eqb c "_" then Raise IndexError
        else Return (upper (String c EmptyString) +:+ spaced rest)
    end.
Proof.
  unfold capitalize. destruct field as [|c rest]; [reflexivity |].
  cbn [split_char]. destruct (Ascii.eqb c "_"); [reflexivity |].
  pose proof (split_char_nonempty "_" rest) as Hne.
  pose proof (concat_split_char rest) as Hc.
  destruct (split_char "_" rest) as [|w ws]; [contradiction |].
  f_equal. rewrite <- Hc. destruct ws as [|w' ws']; [reflexivity |].
  change (String.concat " " ((upper (String c EmptyString) +:+ w) :: w' :: ws'))
    with ((upper (String c EmptyString) +:+ w) +:+ " " +:+ String.concat " " (w' :: ws')).
  rewrite string_app_assoc. reflexivity.
Qed.

End CapitalizeMore.

(** ** [DynamicFilterForm.get_lookup_expr_choices] *)

Section LookupChoicesMore.
Import DynamicFilterForm.

Variable upper : string -> string.

Local Abbreviation lookup_expr_loop := (DynamicFilterForm.lookup_expr_loop upper).
Local Abbreviation capitalize := (DynamicFilterForm.capitalize upper).


(** X12. The choices [get_lookup_expr_choices] builds are, in the
    order of the filter-set, one pair per filter whose name has no double
    underscore: the name with the filter's label when that is truthy, with
    the capitalized field name otherwise. *)
Theorem lookup_choices_skip_lookup_expressions
    (items : list (string * filter)) (out : list pyval) :
  lookup_expr_loop items = Return out ->
  Forall2
    (fun (item : string * filter) (entry : pyval) =>
       exists text,
         entry = VTuple [VStr (fst item); text] /\
         if truthy (filter_label (snd item))
         then text = filter_label (snd item)
         else exists s, capitalize (field_name (snd item)) = Return s /\ text = VStr s)
    (List.filter (fun item => negb (str_contains "__" (fst item))) items)
    out.
Proof.
  revert out. induction items as [|[name flt] rest IH]; intros out; cbn.
  - intros [= <-]. constructor.
  - destruct (str_contains "__" name); cbn.
    + destruct (lookup_expr_loop rest) as [more|e]; [| discriminate].
      intros [= <-]. apply IH. reflexivity.
    + destruct (truthy (filter_label flt)) eqn:Ht.
      * destruct (lookup_expr_loop rest) as [more|e]; [| discriminate].
        intros [= <-]. constructor; [| apply IH; reflexivity].
        cbn. eexists. split; [reflexivity |]. rewrite Ht. reflexivity.
      * destruct (capitalize (field_name flt)) as [s|e] eqn:Hc; [| discriminate].
        destruct (lookup_expr_loop rest) as [more|e]; [| discriminate].
        intros [= <-]. constructor; [| apply IH; reflexivity].
        cbn. eexists. split; [reflexivity |]. rewrite Ht. eauto.
Qed.


End LookupChoicesMore.

(** ** More on [DynamicFilterForm.__init__] *)

Section InitMore.
Import DynamicFilterForm.

Variable Form_init : list pyval -> gmap string pyval -> outcome fields_t.
Variable get_filterset_for_model : django_model -> outcome (list (string * filter)).
Variable build_lookup_label : string -> outcome pyval.
Variable get_filterset_field_data :
  django_model -> string -> list string -> outcome (gmap string pyval).
Variable StaticSelect2 : gmap string pyval -> outcome widget.
Variable APISelectMultiple : pyval -> gmap string pyval -> outcome widget.
Variable upper : string -> string.

Local Abbreviation __init__ :=
  (DynamicFilterForm.__init__ Form_init get_filterset_for_model build_lookup_label
     get_filterset_field_data StaticSelect2 APISelectMultiple upper).

(** The declared fields as [BootstrapMixin.__init__] leaves them, when
    the base constructor takes the arguments and copies the fields in the
    order of their declaration *)
Lemma super_init_fields (args : list pyval) (kwargs : gmap string pyval) :
  Form_init args kwargs = Return base_fields ->
  super_init Form_init args kwargs = Return
    [ ("lookup_field",
       MkField ChoiceField false (VStr "Field") VNone (VList [])
         (MkWidget Select
            (<["class" := VStr "form-control"]> {[ "placeholder" := VStr "Field" ]})));
      ("lookup_type",
       MkField ChoiceField false VNone VNone (VList [])
         (MkWidget Select
            (<["class" := VStr "form-control"]> {[ "placeholder" := VNone ]})));
      ("value",
       MkField CharField false VNone VNone VNone
         (MkWidget TextInput
            (<["class" := VStr "form-control"]> {[ "placeholder" := VNone ]}))) ].
Proof. intros H. unfold super_init. rewrite H. vm_compute. reflexivity. Qed.

(** X14. A [DynamicFilterForm] constructed while the class attribute
    [model] has not been assigned is never built, and no helper is
    called: an exception of [super().__init__] ends the constructor, and
    when the base constructor has taken the arguments and copied the
    declared fields, reading [self.model] raises [AttributeError]. *)
Theorem init_before_factory_raises
    (args : list pyval) (kwargs : gmap string pyval) (w : world) :
  model w = None ->
  (exists e, __init__ args kwargs w = (Raise e, w)) /\
  (forall e, Form_init args kwargs = Raise e ->
     fst (__init__ args kwargs w) = Raise e) /\
  (Form_init args kwargs = Return base_fields ->
   fst (__init__ args kwargs w) = Raise (AttributeError "model")).
Proof.
  intros Hm. split; [| split].
  - unfold DynamicFilterForm.__init__, bind, lift.
    destruct (super_init Form_init args kwargs) as [fs|e]; [| eauto].
    unfold self_model. rewrite Hm. eauto.
  - intros e He. unfold DynamicFilterForm.__init__, bind, lift, super_init.
    rewrite He. reflexivity.
  - intros Hb. unfold DynamicFilterForm.__init__, bind, lift.
    rewrite (super_init_fields _ _ Hb). unfold self_model. rewrite Hm. reflexivity.
Qed.

(** X15. When the base constructor takes the arguments and copies the
    declared fields in the order of their declaration, and the keyword
    arguments bring no [data] or no [prefix], the form is built with one
    helper call, [get_filterset_for_model]: [lookup_field] offers the
    empty choice followed by the filter choices, [lookup_type] is the API
    select carrying the content type, and [value] stays a text input whose
    class is "form-control value-input form-control". *)
Theorem init_without_submitted_row
    (args : list pyval) (kwargs : gmap string pyval) (w : world)
    (m : django_model) (filters : list (string * filter)) (expr : list pyval) :
  Form_init args kwargs = Return base_fields ->
  model w = Some m ->
  truthy (default VNone (kwargs !! "data"))
    && truthy (default VNone (kwargs !! "prefix")) = false ->
  get_filterset_for_model m = Return filters ->
  lookup_expr_loop upper filters = Return expr ->
  __init__ args kwargs w =
    (Return
       [ ("lookup_field",
          MkField ChoiceField false (VStr "Field") VNone
            (VList (VTuple [VNone; VNone] :: expr))
            (MkWidget Select
               (<["class" := VStr "nautobot-select2-static lookup_field-select"]>
                  {[ "placeholder" := VStr "Field" ]})));
         ("lookup_type",
          MkField ChoiceField false VNone VNone (VList [])
            (MkWidget Select
               (<["class" := VStr "nautobot-select2-api lookup_type-select"]>
                  (<["data-url" := VStr "/lookup-choices/"]>
                     (<["data-contenttype" :=
                          VStr (app_label m +:+ "." +:+ model_name m)]>
                        (<["data-query-param-field_name" := VStr dumps_lookup_field]>
                           {[ "placeholder" := VNone ]}))))));
         ("value",
          MkField CharField false VNone VNone VNone
            (MkWidget TextInput
               (<["class" := VStr "form-control value-input form-control"]>
                  {[ "placeholder" := VNone ]}))) ],
     {| model := Some m;
        calls := calls w ++ [call_get_filterset_for_model m] |}).
Proof.
  intros Hb Hm Hrow Hfilters Hexpr.
  unfold DynamicFilterForm.__init__, DynamicFilterForm.get_lookup_expr_choices,
    bind, lift, self_model, record_call, modify.
  destruct w as [mw cw]. cbn in Hm. subst mw.
  rewrite (super_init_fields _ _ Hb). cbn -[lookup_expr_loop "+:+"].
  rewrite Hfilters, Hexpr, Hrow. reflexivity.
Qed.

(** X17. When the base constructor takes the arguments and copies the
    declared fields in the order of their declaration, then for a
    submitted row with a lookup type the helpers are called in this order:
    [get_filterset_for_model] with the class's model, [build_lookup_label]
    with the first lookup type, and, only when a value was submitted,
    [get_filterset_field_data] with the model, the first lookup type and
    all the values. *)
Theorem init_calls_helpers_in_order
    (args : list pyval) (kwargs : gmap string pyval) (w : world)
    (m : django_model) (filters : list (string * filter)) (expr : list pyval)
    (first : string) (rest values : list string) (label : pyval) :
  let data := default VNone (kwargs !! "data") in
  let prefix := default VNone (kwargs !! "prefix") in
  Form_init args kwargs = Return base_fields ->
  model w = Some m ->
  get_filterset_for_model m = Return filters ->
  lookup_expr_loop upper filters = Return expr ->
  truthy data && truthy prefix = true ->
  getlist data (str_add prefix "-lookup_type") = Return (first :: rest) ->
  getlist data (str_add prefix "-value") = Return values ->
  build_lookup_label first = Return label ->
  calls (snd (__init__ args kwargs w)) =
    calls w ++
    [call_get_filterset_for_model m; call_build_lookup_label first] ++
    match values with
    | [] => []
    | _ :: _ => [call_get_filterset_field_data m first values]
    end.
Proof.
  intros data prefix Hb Hm Hfilters Hexpr Hrow Htype Hvalue Hlabel.
  subst data prefix.
  unfold DynamicFilterForm.__init__, DynamicFilterForm.get_lookup_expr_choices,
    bind, lift, self_model, record_call, modify.
  destruct w as [mw cw]. cbn in Hm. subst mw.
  rewrite (super_init_fields _ _ Hb). cbn -[lookup_expr_loop "+:+"].
  rewrite Hfilters, Hexpr, Hrow, Htype, Hvalue. cbn -["+:+"].
  rewrite Hlabel. cbn -["+:+"].
  destruct values as [|v vs].
  - cbn -["+:+"]. rewrite <- app_assoc. reflexivity.
  - unfold DynamicFilterForm.select_or_input_data, bind, lift, self_model,
      record_call, modify, ret, data_getitem. cbn -["+:+"].
    rewrite <- !app_assoc. cbn [app].
    repeat match goal with
    | |- context [match ?x with _ => _ end] =>
        match x with
        | context [match _ with _ => _ end] => fail 1
        | _ => destruct x
        end
    | |- context [if ?x then _ else _] => destruct x
    end; cbn -["+:+"]; try reflexivity.
Qed.

(** X16. When the base constructor takes the arguments and copies the
    declared fields in the order of their declaration, and the [value]
    field is replaced by a choice field, the constructor's last step joins
    the new widget's class attribute: a widget that comes without one, or
    with one that is not text, makes [__init__] raise [TypeError]. *)
Theorem init_needs_class_on_new_widget
    (args : list pyval) (kwargs : gmap string pyval) (w : world)
    (m : django_model) (filters : list (string * filter)) (expr : list pyval)
    (first : string) (rest : list string) (v : string) (vs : list string)
    (label : pyval) (reported : gmap string pyval)
    (allow_multiple options : pyval) (wgt : widget) :
  let data := default VNone (kwargs !! "data") in
  let prefix := default VNone (kwargs !! "prefix") in
  Form_init args kwargs = Return base_fields ->
  model w = Some m ->
  get_filterset_for_model m = Return filters ->
  lookup_expr_loop upper filters = Return expr ->
  truthy data && truthy prefix = true ->
  getlist data (str_add prefix "-lookup_type") = Return (first :: rest) ->
  getlist data (str_add prefix "-value") = Return (v :: vs) ->
  build_lookup_label first = Return label ->
  get_filterset_field_data m first (v :: vs) = Return reported ->
  reported !! "type" = Some (VStr "static-choices") ->
  reported !! "allow_multiple" = Some allow_multiple ->
  reported !! "choices" = Some options ->
  StaticSelect2 (if truthy allow_multiple
                 then {[ "multiple" := VStr "true" ]} else ∅) = Return wgt ->
  (forall css, attrs wgt !! "class" <> Some (VStr css)) ->
  fst (__init__ args kwargs w)
    = Raise (TypeError "sequence item: expected str instance").
Proof.
  intros data prefix Hb Hm Hfilters Hexpr Hrow Htype Hvalue Hlabel Hrep Ht Ham Hopt
    Hwgt Hclass.
  subst data prefix.
  unfold DynamicFilterForm.__init__, DynamicFilterForm.get_lookup_expr_choices,
    bind, lift, self_model, record_call, modify.
  destruct w as [mw cw]. cbn in Hm. subst mw.
  rewrite (super_init_fields _ _ Hb). cbn -[lookup_expr_loop "+:+"].
  rewrite Hfilters, Hexpr, Hrow, Htype, Hvalue. cbn -["+:+"].
  rewrite Hlabel. cbn -["+:+"].
  unfold DynamicFilterForm.select_or_input_data, bind, lift, self_model,
    record_call, modify, ret, data_getitem. cbn -["+:+"].
  rewrite Hrep, Ht. cbn -["+:+"]. rewrite Ham, Hopt, Hwgt. cbn -["+:+"].
  destruct (attrs wgt !! "class") as [[]|] eqn:Hc; cbn; try reflexivity.
  exfalso. exact (Hclass _ eq_refl).
Qed.

End InitMore.

(** ** More on [_construct_form] and [dynamic_formset_factory] *)

Section FormsetMore.
Import DynamicFilterForm DynamicFilterFormBaseFormSet Factory.

Variable add_fields : formset -> fields_t -> Z -> outcome fields_t.
Variables FS FI : Type.
Variable formset_factory : gmap string pyval -> outcome FS.
Variable new_formset : FS -> pyval -> outcome FI.

Local Abbreviation dynamic_formset_factory :=
  (Factory.dynamic_formset_factory FS FI formset_factory new_formset).

(** The entries of [defaults] before [kwargs] is merged in, key by key. *)
Lemma defaults_entries (self : formset) (i : Z) (kwargs d : gmap string pyval) :
  defaults self i kwargs = Return d ->
  exists d3 : gmap string pyval,
    d = kwargs ∪ d3 /\
    d3 !! "auto_id" = Some (auto_id self) /\
    d3 !! "prefix" = Some (VStr (add_prefix self i)) /\
    d3 !! "error_class" = Some (error_class self) /\
    d3 !! "data" = (if is_bound self then Some (data self) else None) /\
    d3 !! "files" = (if is_bound self then Some (files self) else None) /\
    d3 !! "initial" =
      (if truthy (initial self) && negb (has_key "initial" kwargs)
       then match index (initial self) i with
            | Return v => Some v
            | Raise _ => None
            end
       else None) /\
    d3 !! "empty_permitted" =
      (if (i >=? initial_form_count self) && (i >=? min_num self)
       then Some (VBool true) else None) /\
    (forall k, k <> "auto_id" -> k <> "prefix" -> k <> "error_class" ->
       k <> "use_required_attribute" -> k <> "data" -> k <> "files" ->
       k <> "initial" -> k <> "empty_permitted" -> d3 !! k = None).
Proof.
  unfold defaults.
  destruct (truthy (initial self) && negb (has_key "initial" kwargs));
    [destruct (index (initial self) i) as [v|[]] |];
    try discriminate;
    intros [= <-]; eexists; (split; [reflexivity |]);
    destruct (is_bound self);
    destruct ((i >=? initial_form_count self) && (i >=? min_num self));
    repeat split;
    try (intros k; intros);
    repeat (rewrite lookup_insert_ne by congruence);
    try (rewrite lookup_insert_eq; reflexivity);
    try (rewrite lookup_singleton_eq; reflexivity);
    try (apply lookup_singleton_ne; congruence);
    try reflexivity.
Qed.

Lemma list_index_nonneg {A} (l : list A) (i : Z) :
  0 <= i ->
  match list_index l i with Return v => Some v | Raise _ => None end
  = l !! Z.to_nat i.
Proof.
  intros Hi. unfold list_index.
  destruct (i <? 0) eqn:Hneg; [apply Z.ltb_lt in Hneg; lia |].
  destruct (0 <=? i) eqn:H0; [| apply Z.leb_gt in H0; lia]. cbn [andb].
  destruct (i <? Z.of_nat (length l)) eqn:Hlt.
  - destruct (l !! Z.to_nat i); reflexivity.
  - apply Z.ltb_ge in Hlt. symmetry. apply lookup_ge_None. lia.
Qed.

(** X18. With a list as the formset's [initial] and no [initial]
    among the keyword arguments, form [i] gets the [i]-th entry as its
    [initial]; past the end of the list (and for an empty list) it gets
    none, the [IndexError] being swallowed. *)
Theorem defaults_initial_by_index
    (self : formset) (i : Z) (kwargs : gmap string pyval) (l : list pyval) :
  initial self = VList l ->
  kwargs !! "initial" = None ->
  0 <= i ->
  exists d,
    defaults self i kwargs = Return d /\
    d !! "initial" = l !! Z.to_nat i.
Proof.
  intros Hinit Hkw Hi.
  assert (Hret : exists d, defaults self i kwargs = Return d).
  { unfold defaults. rewrite Hinit.
    destruct (truthy (VList l) && negb (has_key "initial" kwargs));
      [| eexists; reflexivity].
    cbn [index]. pose proof (list_index_nonneg l i Hi) as Hidx.
    unfold list_index in *.
    destruct (_ && _); [destruct (l !! Z.to_nat _) |]; eexists; reflexivity. }
  destruct Hret as [d Hd]. exists d. split; [exact Hd |].
  destruct (defaults_entries self i kwargs d Hd)
    as (d3 & -> & _ & _ & _ & _ & _ & Hini & _).
  rewrite lookup_union_r by exact Hkw. rewrite Hini, Hinit.
  unfold has_key. rewrite Hkw. cbn [negb index truthy].
  destruct l as [|x l']; [reflexivity |].
  cbn [andb]. apply list_index_nonneg, Hi.
Qed.

(** X19. Unless the keyword arguments name the key, the form gets
    the formset's [auto_id] and [error_class], the prefix
    "<prefix>-<i>", and [data] and [files] exactly when the formset is
    bound; below the initial form count or below [min_num] no
    [empty_permitted] is added; every key the formset has no default for
    comes from the keyword arguments alone. *)
Theorem defaults_carry_formset_state
    (self : formset) (i : Z) (kwargs d : gmap string pyval) :
  defaults self i kwargs = Return d ->
  (kwargs !! "prefix" = None ->
   d !! "prefix" = Some (VStr (prefix self +:+ "-" +:+ pretty i))) /\
  (kwargs !! "auto_id" = None -> d !! "auto_id" = Some (auto_id self)) /\
  (kwargs !! "error_class" = None -> d !! "error_class" = Some (error_class self)) /\
  (kwargs !! "data" = None ->
   d !! "data" = if is_bound self then Some (data self) else None) /\
  (kwargs !! "files" = None ->
   d !! "files" = if is_bound self then Some (files self) else None) /\
  (i < initial_form_count self \/ i < min_num self ->
   d !! "empty_permitted" = kwargs !! "empty_permitted") /\
  (forall k, k <> "auto_id" -> k <> "prefix" -> k <> "error_class" ->
     k <> "use_required_attribute" -> k <> "data" -> k <> "files" ->
     k <> "initial" -> k <> "empty_permitted" -> d !! k = kwargs !! k).
Proof.
  intros Hd.
  destruct (defaults_entries self i kwargs d Hd)
    as (d3 & -> & Hauto & Hprefix & Herr & Hdata & Hfiles & _ & Hemp & Hother).
  repeat split.
  - intros Hk. rewrite lookup_union_r by exact Hk. exact Hprefix.
  - intros Hk. rewrite lookup_union_r by exact Hk. exact Hauto.
  - intros Hk. rewrite lookup_union_r by exact Hk. exact Herr.
  - intros Hk. rewrite lookup_union_r by exact Hk. exact Hdata.
  - intros Hk. rewrite lookup_union_r by exact Hk. exact Hfiles.
  - intros Hlow.
    assert (Hcond : (i >=? initial_form_count self) && (i >=? min_num self) = false).
    { apply andb_false_iff.
      destruct Hlow; [left | right]; rewrite Z.geb_leb; apply Z.leb_gt; lia. }
    rewrite Hcond in Hemp.
    destruct (kwargs !! "empty_permitted") as [v|] eqn:Hk.
    + apply lookup_union_Some_l. exact Hk.
    + rewrite lookup_union_r by exact Hk. exact Hemp.
  - intros k H1 H2 H3 H4 H5 H6 H7 H8.
    destruct (kwargs !! k) as [v|] eqn:Hk.
    + apply lookup_union_Some_l. exact Hk.
    + rewrite lookup_union_r by exact Hk. apply Hother; assumption.
Qed.

(** X20. Of the exceptions of [self.initial[i]] only [IndexError]
    is swallowed: any other one (a [KeyError] for a dictionary, a
    [TypeError] for a value that cannot be subscripted) ends
    [_construct_form] before the form class is called.  An [initial] among
    the keyword arguments is used as it is and [self.initial] is not
    subscripted. *)
Theorem construct_form_swallows_only_IndexError
    (self : formset) (i : Z) (kwargs : gmap string pyval) :
  truthy (initial self) = true ->
  (forall e w,
     kwargs !! "initial" = None ->
     index (initial self) i = Raise e ->
     e <> IndexError ->
     _construct_form add_fields self i kwargs w = (Raise e, w))
  /\
  (index (initial self) i = Raise IndexError ->
   exists d, defaults self i kwargs = Return d /\ d !! "initial" = kwargs !! "initial")
  /\
  (forall v, kwargs !! "initial" = Some v ->
     exists d, defaults self i kwargs = Return d /\ d !! "initial" = Some v).
Proof.
  intros Ht. split; [| split].
  - intros e w Hkw Hidx Hne.
    unfold _construct_form, bind, lift, defaults.
    unfold has_key. rewrite Ht, Hkw, Hidx. cbn [negb andb].
    destruct e; try reflexivity. contradiction.
  - intros Hidx.
    assert (Hret : exists d, defaults self i kwargs = Return d).
    { unfold defaults. rewrite Hidx.
      destruct (truthy (initial self) && negb (has_key "initial" kwargs));
        eexists; reflexivity. }
    destruct Hret as [d Hd]. exists d. split; [exact Hd |].
    destruct (defaults_entries self i kwargs d Hd)
      as (d3 & -> & _ & _ & _ & _ & _ & Hini & _).
    rewrite Hidx in Hini.
    destruct (kwargs !! "initial") as [v|] eqn:Hk.
    + apply lookup_union_Some_l. exact Hk.
    + rewrite lookup_union_r by exact Hk. rewrite Hini.
      destruct (_ && _); reflexivity.
  - intros v Hkw.
    assert (Hret : exists d, defaults self i kwargs = Return d).
    { unfold defaults, has_key. rewrite Hkw, andb_false_r. eexists. reflexivity. }
    destruct Hret as [d Hd]. exists d. split; [exact Hd |].
    destruct (defaults_entries self i kwargs d Hd) as (d3 & -> & _).
    apply lookup_union_Some_l. exact Hkw.
Qed.

(** X21. When the caller's keyword arguments contain [form] or
    [formset], the call of [formset_factory] fails with [TypeError] for a
    keyword given twice; [formset_factory] is not entered, but
    [DynamicFilterForm.model] has already been assigned. *)
Theorem factory_assigns_model_before_it_fails
    (m : django_model) (data : pyval) (fkw : gmap string pyval) (w : world) :
  has_key "form" fkw || has_key "formset" fkw = true ->
  dynamic_formset_factory m data fkw w =
    (Raise (TypeError "got multiple values for keyword argument"),
     {| model := Some m; calls := calls w |}).
Proof.
  intros Hdup.
  assert (Hdup' : has_key "form" (params ∪ fkw) || has_key "formset" (params ∪ fkw) = true).
  { unfold has_key in *. rewrite !lookup_union_r by reflexivity. exact Hdup. }
  unfold Factory.dynamic_formset_factory, bind, modify, raise. cbn.
  rewrite Hdup'. reflexivity.
Qed.

(** X22. Every keyword argument other than [extra], [can_delete]
    and [can_delete_extra] reaches [formset_factory] unchanged, next to
    [form] and [formset].  The result is the formset class when [data] is
    falsy, and the class called with [data] otherwise; an exception of
    either call is passed on. *)
Theorem factory_passes_other_keywords_and_binds_data
    (m : django_model) (data : pyval) (fkw : gmap string pyval) (w : world) :
  fkw !! "form" = None -> fkw !! "formset" = None ->
  exists args : gmap string pyval,
    (forall k, k <> "form" -> k <> "formset" -> k <> "extra" ->
       k <> "can_delete" -> k <> "can_delete_extra" -> args !! k = fkw !! k) /\
    args !! "form" = Some (VObj "DynamicFilterForm") /\
    args !! "formset" = Some (VObj "DynamicFilterFormBaseFormSet") /\
    snd (dynamic_formset_factory m data fkw w)
      = {| model := Some m; calls := calls w ++ [call_formset_factory args] |} /\
    fst (dynamic_formset_factory m data fkw w)
      = match formset_factory args with
        | Raise e => Raise e
        | Return cls =>
            if truthy data then
              match new_formset cls data with
              | Return inst => Return (FormsetInstance inst)
              | Raise e => Raise e
              end
            else Return (FormsetClass cls)
        end.
Proof.
  intros Hform Hformset.
  assert (Hdup : has_key "form" (params ∪ fkw) || has_key "formset" (params ∪ fkw) = false).
  { unfold has_key. rewrite !lookup_union_r by reflexivity.
    rewrite Hform, Hformset. reflexivity. }
  eexists. split; [| split; [| split; [| split]]].
  4: { unfold Factory.dynamic_formset_factory, bind, modify, raise, lift, ret,
         record_call. cbn. rewrite Hdup. cbn.
       destruct (formset_factory _) as [cls|e]; cbn; [| reflexivity].
       destruct (truthy data); cbn; [| reflexivity].
       destruct (new_formset cls data); reflexivity. }
  - intros k H1 H2 H3 H4 H5.
    rewrite !lookup_insert_ne by congruence.
    apply lookup_union_r. unfold params.
    rewrite !lookup_insert_ne by congruence. apply lookup_singleton_ne. congruence.
  - apply lookup_insert_eq.
  - rewrite lookup_insert_ne by discriminate. apply lookup_insert_eq.
  - unfold Factory.dynamic_formset_factory, bind, modify, raise, lift, ret,
      record_call. cbn. rewrite Hdup. cbn.
    destruct (formset_factory _) as [cls|e]; cbn; [| reflexivity].
    destruct (truthy data); cbn; [| reflexivity].
    destruct (new_formset cls data); reflexivity.
Qed.

End FormsetMore.

(** ** More on the computed-field mixins *)

Section ComputedFieldMore.
Import ModelForm.

(** X23. When a mixin's [__init__] goes on to [super().__init__],
    the keyword arguments are the caller's with [initial] set to a
    dictionary that agrees with the supplied one (or the empty one) on every
    key but the computed one; a value under that key is kept, and without an
    instance none is added. *)
Theorem computed_field_init_keeps_other_arguments
    (kwargs kwargs' : gmap string karg) :
  (AddressFieldMixin.__init__ kwargs = Return kwargs' ->
   exists d d',
     supplied_initial kwargs d /\
     kwargs' = <["initial" := ADict d']> kwargs /\
     (forall k, k <> "address" -> d' !! k = d !! k) /\
     (forall v, d !! "address" = Some v -> d' !! "address" = Some v) /\
     (d !! "address" = None -> default ANone (kwargs !! "instance") = ANone ->
      d' !! "address" = None))
  /\
  (PrefixFieldMixin.__init__ kwargs = Return kwargs' ->
   exists d d',
     supplied_initial kwargs d /\
     kwargs' = <["initial" := ADict d']> kwargs /\
     (forall k, k <> "prefix" -> d' !! k = d !! k) /\
     (forall v, d !! "prefix" = Some v -> d' !! "prefix" = Some v) /\
     (d !! "prefix" = None -> default ANone (kwargs !! "instance") = ANone ->
      d' !! "prefix" = None)).
Proof.
  split.
  - unfold AddressFieldMixin.__init__.
    destruct (kwargs !! "initial") as [[| |d|]|] eqn:Hi; cbn;
      try discriminate.
    + unfold has_key. destruct (d !! "address") as [v|] eqn:Hv; cbn.
      * intros [= <-]. exists d, d. repeat split; auto. left. exact Hi.
      * destruct (default ANone (kwargs !! "instance")) as [|a| |] eqn:Hinst;
          cbn.
        -- intros [= <-]. exists d, d. repeat split; auto. left. exact Hi.
        -- destruct (a !! "address") as [x|]; [| discriminate].
           intros [= <-]. exists d, (<["address" := x]> d).
           repeat split; try discriminate.
           ++ left. exact Hi.
           ++ intros k Hk. apply lookup_insert_ne. congruence.
           ++ intros v Hv'. rewrite Hv in Hv'. discriminate.
        -- discriminate.
        -- discriminate.
    + unfold has_key. rewrite lookup_empty. cbn.
      destruct (default ANone (kwargs !! "instance")) as [|a| |] eqn:Hinst;
        cbn.
      * intros [= <-]. exists ∅, ∅. repeat split; auto. right. split; [exact Hi | reflexivity].
      * destruct (a !! "address") as [x|]; [| discriminate].
        intros [= <-]. exists ∅, (<["address" := x]> ∅).
        repeat split; try discriminate.
        -- right. split; [exact Hi | reflexivity].
        -- intros k Hk. apply lookup_insert_ne. congruence.
      * discriminate.
      * discriminate.
  - unfold PrefixFieldMixin.__init__.
    destruct (kwargs !! "initial") as [[| |d|]|] eqn:Hi; cbn;
      try discriminate.
    + unfold has_key. destruct (d !! "prefix") as [v|] eqn:Hv; cbn.
      * intros [= <-]. exists d, d. repeat split; auto. left. exact Hi.
      * destruct (default ANone (kwargs !! "instance")) as [|a| |] eqn:Hinst;
          cbn.
        -- intros [= <-]. exists d, d. repeat split; auto. left. exact Hi.
        -- destruct (a !! "prefix") as [x|]; [| discriminate].
           intros [= <-]. exists d, (<["prefix" := x]> d).
           repeat split; try discriminate.
           ++ left. exact Hi.
           ++ intros k Hk. apply lookup_insert_ne. congruence.
           ++ intros v Hv'. rewrite Hv in Hv'. discriminate.
        -- discriminate.
        -- discriminate.
    + unfold has_key. rewrite lookup_empty. cbn.
      destruct (default ANone (kwargs !! "instance")) as [|a| |] eqn:Hinst;
        cbn.
      * intros [= <-]. exists ∅, ∅. repeat split; auto. right. split; [exact Hi | reflexivity].
      * destruct (a !! "prefix") as [x|]; [| discriminate].
        intros [= <-]. exists ∅, (<["prefix" := x]> ∅).
        repeat split; try discriminate.
        -- right. split; [exact Hi | reflexivity].
        -- intros k Hk. apply lookup_insert_ne. congruence.
      * discriminate.
      * discriminate.
Qed.

(** X24. A mixin's [__init__] fails with [AttributeError] for
    [initial=None] given explicitly, which has no [copy], and, when
    [initial] does not bring the key, for an instance without the computed
    attribute. *)
Theorem computed_field_init_fails_with_AttributeError
    (kwargs : gmap string karg) :
  (kwargs !! "initial" = Some ANone ->
   AddressFieldMixin.__init__ kwargs
     = Raise (AttributeError "object has no attribute 'copy'") /\
   PrefixFieldMixin.__init__ kwargs
     = Raise (AttributeError "object has no attribute 'copy'"))
  /\
  (forall d a, supplied_initial kwargs d ->
     kwargs !! "instance" = Some (AInstance a) ->
     (d !! "address" = None -> a !! "address" = None ->
      AddressFieldMixin.__init__ kwargs = Raise (AttributeError "address")) /\
     (d !! "prefix" = None -> a !! "prefix" = None ->
      PrefixFieldMixin.__init__ kwargs = Raise (AttributeError "prefix"))).
Proof.
  split.
  - intros Hi. unfold AddressFieldMixin.__init__, PrefixFieldMixin.__init__.
    rewrite Hi. auto.
  - intros d a Hd Hinst. pose proof (copy_supplied kwargs d Hd) as Hcopy. split.
    + intros Hk Ha. unfold AddressFieldMixin.__init__.
      rewrite Hcopy, (has_key_false _ _ Hk), Hinst. cbn. rewrite Ha. reflexivity.
    + intros Hk Ha. unfold PrefixFieldMixin.__init__.
      rewrite Hcopy, (has_key_false _ _ Hk), Hinst. cbn. rewrite Ha. reflexivity.
Qed.

End ComputedFieldMore.

(** ** [CSVModelForm.__init__] *)

Section CSVModelFormMore.
Import CSVModelForm.

Lemma csv_loop_returns (items : list (string * pyval)) (fs fs' : fields) :
  loop items fs = (Return tt, fs') ->
  NoDup (map fst items) ->
  (forall name, fs' !! name = None <-> fs !! name = None) /\
  (forall name obj, fs !! name = Some obj ->
     (forall t, In (name, t) items -> t <> VNone ->
        fs' !! name = Some (<["to_field_name" := t]> obj)) /\
     ((forall t, In (name, t) items -> t = VNone) -> fs' !! name = Some obj)).
Proof.
  revert fs. induction items as [|[field t0] rest IH]; intros fs; cbn [loop].
  - intros [= <-] _. split; [tauto |]. intros name obj Hobj. split.
    + intros t [].
    + intros _. exact Hobj.
  - intros Hrun Hnd. cbn in Hnd. apply NoDup_cons in Hnd as [Hfresh Hnd].
    apply bind_returns in Hrun as ([] & fs1 & Hstep & Hrest).
    destruct (IH fs1 Hrest Hnd) as [Hdom Hval]. clear IH.
    assert (Hstep' :
      (t0 = VNone /\ fs1 = fs) \/
      (t0 <> VNone /\ exists obj0, fs !! field = Some obj0 /\
         fs1 = <[field := <["to_field_name" := t0]> obj0]> fs)).
    { unfold set_to_field_name in Hstep.
      destruct t0; try (injection Hstep as <-; left; split; reflexivity);
        (destruct (fs !! field) as [obj0|] eqn:Hf; [| discriminate];
         injection Hstep as <-; right; split; [discriminate | eauto]). }
    destruct Hstep' as [[-> ->] | (Hne & obj0 & Hf & ->)].
    + split; [exact Hdom |]. intros name obj Hobj.
      destruct (Hval name obj Hobj) as [Hset Hkeep]. split.
      * intros t [[= -> ->] | Hin] Ht; [contradiction | apply Hset; assumption].
      * intros Hnone. apply Hkeep. intros t Hin. apply Hnone. right. exact Hin.
    + split.
      * intros name. rewrite Hdom.
        destruct (decide (name = field)) as [-> | Hn].
        -- rewrite lookup_insert_eq, Hf. split; discriminate.
        -- rewrite lookup_insert_ne by congruence. tauto.
      * intros name obj Hobj.
        destruct (decide (name = field)) as [-> | Hn].
        -- rewrite Hf in Hobj. injection Hobj as ->.
           assert (Hnot : forall t, ~ In (field, t) rest).
           { intros t Hin. apply Hfresh. apply list_elem_of_In.
             apply in_map_iff. exists (field, t). auto. }
           destruct (Hval field _ (lookup_insert_eq _ _ _)) as [_ Hkeep].
           split.
           ++ intros t [[= ->] | Hin] Ht; [| destruct (Hnot t Hin)].
              apply Hkeep. intros t' Hin'. destruct (Hnot t' Hin').
           ++ intros Hnone. destruct Hne. apply (Hnone t0). left. reflexivity.
        -- assert (Hobj1 : <[field := <["to_field_name" := t0]> obj0]> fs !! name = Some obj)
             by (rewrite lookup_insert_ne by congruence; exact Hobj).
           destruct (Hval name obj Hobj1) as [Hset Hkeep]. split.
           ++ intros t [[= -> ->] | Hin] Ht; [contradiction | apply Hset; assumption].
           ++ intros Hnone. apply Hkeep. intros t Hin. apply Hnone. right. exact Hin.
Qed.

Lemma VNone_or_not (v : pyval) : v = VNone \/ v <> VNone.
Proof. destruct v; [left; reflexivity | right; discriminate ..]. Qed.

Lemma csv_init_is_loop (headers : list (string * pyval)) (fs : fields) :
  __init__ (Some headers) fs = loop headers fs.
Proof. destruct headers; reflexivity. Qed.

Lemma csv_loop_succeeds (items : list (string * pyval)) (fs : fields) :
  (forall field t, In (field, t) items -> t <> VNone -> is_Some (fs !! field)) ->
  exists fs', loop items fs = (Return tt, fs') /\
              forall name, is_Some (fs !! name) -> is_Some (fs' !! name).
Proof.
  revert fs. induction items as [|[field t0] rest IH]; intros fs Hknown; cbn [loop].
  - exists fs. split; [reflexivity | auto].
  - assert (Hstep : exists fs1,
              (match t0 with VNone => ret tt | _ => set_to_field_name field t0 end) fs
                = (Return tt, fs1) /\
              forall name, is_Some (fs !! name) -> is_Some (fs1 !! name)).
    { destruct (VNone_or_not t0) as [-> | Hne]; [exists fs; split; [reflexivity | auto] |].
      destruct (Hknown field t0 (or_introl eq_refl) Hne) as [obj Hobj].
      exists (<[field := <["to_field_name" := t0]> obj]> fs). split.
      - destruct t0; try (exfalso; apply Hne; reflexivity);
          unfold set_to_field_name; rewrite Hobj; reflexivity.
      - intros name Hn. destruct (decide (name = field)) as [-> | Hnf].
        + rewrite lookup_insert_eq. eauto.
        + rewrite lookup_insert_ne by congruence. exact Hn. }
    destruct Hstep as (fs1 & Hrun1 & Hdom1).
    destruct (IH fs1) as (fs' & Hrun & Hdom).
    { intros f t Hin Ht. apply Hdom1. apply (Hknown f t); [right; exact Hin | exact Ht]. }
    exists fs'. split; [| auto].
    unfold bind. rewrite Hrun1. exact Hrun.
Qed.

(** X25. When every header with a target names a field of the
    form, [CSVModelForm.__init__] returns; a field named by a header with a
    target gets that target as [to_field_name], every other field, and every
    other attribute, is left as it was, and no field is added or removed. *)
Theorem csv_headers_set_target_fields
    (headers : list (string * pyval)) (fs : fields) :
  NoDup (map fst headers) ->
  (forall field t, In (field, t) headers -> t <> VNone -> is_Some (fs !! field)) ->
  exists fs',
    __init__ (Some headers) fs = (Return tt, fs') /\
    (forall name, fs' !! name = None <-> fs !! name = None) /\
    (forall name obj, fs !! name = Some obj ->
       (forall t, In (name, t) headers -> t <> VNone ->
          fs' !! name = Some (<["to_field_name" := t]> obj)) /\
       ((forall t, In (name, t) headers -> t = VNone) -> fs' !! name = Some obj)).
Proof.
  intros Hnd Hknown. rewrite csv_init_is_loop.
  destruct (csv_loop_succeeds headers fs Hknown) as (fs' & Hrun & _).
  exists fs'. split; [exact Hrun |]. exact (csv_loop_returns headers fs fs' Hrun Hnd).
Qed.

(** X26. The first header with a target whose name is not a field
    of the form ends [CSVModelForm.__init__] with [KeyError]; the headers
    before it have been applied.  The field is only looked up for a header
    with a target, so a header without one never raises. *)
Theorem csv_unknown_field_raises_KeyError
    (before after : list (string * pyval)) (field : string) (t : pyval)
    (fs : fields) :
  (forall f u, In (f, u) before -> u <> VNone -> is_Some (fs !! f)) ->
  t <> VNone ->
  fs !! field = None ->
  exists fs1,
    loop before fs = (Return tt, fs1) /\
    __init__ (Some (before ++ (field, t) :: after)) fs = (Raise (KeyError field), fs1).
Proof.
  intros Hknown Ht Hmissing. rewrite csv_init_is_loop.
  revert fs Hknown Hmissing.
  induction before as [|[f0 u0] rest IH]; intros fs Hknown Hmissing.
  - exists fs. split; [reflexivity |]. cbn [app loop].
    destruct t; try (exfalso; apply Ht; reflexivity);
      unfold bind, set_to_field_name; rewrite Hmissing; reflexivity.
  - cbn [app loop].
    destruct (VNone_or_not u0) as [-> | Hne].
    + destruct (IH fs) as (fs1 & Hrun & Hfail); [| exact Hmissing |].
      { intros f u Hin. apply Hknown. right. exact Hin. }
      exists fs1. unfold bind, ret. split; [exact Hrun | exact Hfail].
    + destruct (Hknown f0 u0 (or_introl eq_refl) Hne) as [obj Hobj].
      assert (Hf : f0 <> field) by (intros ->; rewrite Hmissing in Hobj; discriminate).
      destruct (IH (<[f0 := <["to_field_name" := u0]> obj]> fs)) as (fs1 & Hrun & Hfail).
      { intros f u Hin Hu. destruct (decide (f = f0)) as [-> | Hff].
        - rewrite lookup_insert_eq. eauto.
        - rewrite lookup_insert_ne by congruence. apply (Hknown f u); [right |]; assumption. }
      { rewrite lookup_insert_ne by congruence. exact Hmissing. }
      exists fs1.
      assert (Hstep : (match u0 with VNone => ret tt | _ => set_to_field_name f0 u0 end) fs
                      = (Return tt, <[f0 := <["to_field_name" := u0]> obj]> fs)).
      { destruct u0; try (exfalso; apply Hne; reflexivity);
          unfold set_to_field_name; rewrite Hobj; reflexivity. }
      unfold bind. rewrite Hstep. split; [exact Hrun | exact Hfail].
Qed.

End CSVModelFormMore.

(** ** A formset row, from [_construct_form] to [DynamicFilterForm.__init__] *)

Section FormsetRowMore.
Import DynamicFilterForm DynamicFilterFormBaseFormSet.

Variable Form_init : list pyval -> gmap string pyval -> outcome fields_t.
Variable get_filterset_for_model : django_model -> outcome (list (string * filter)).
Variable build_lookup_label : string -> outcome pyval.
Variable get_filterset_field_data :
  django_model -> string -> list string -> outcome (gmap string pyval).
Variable StaticSelect2 : gmap string pyval -> outcome widget.
Variable APISelectMultiple : pyval -> gmap string pyval -> outcome widget.
Variable upper : string -> string.
Variable add_fields : formset -> fields_t -> Z -> outcome fields_t.

Local Abbreviation __init__ :=
  (DynamicFilterForm.__init__ Form_init get_filterset_for_model build_lookup_label
     get_filterset_field_data StaticSelect2 APISelectMultiple upper).

Lemma add_prefix_truthy (self : formset) (i : Z) :
  truthy (VStr (add_prefix self i)) = true.
Proof.
  unfold add_prefix. destruct (prefix self); reflexivity.
Qed.

Lemma getlist_truthy (q : list (string * list string)) (key first : string)
    (rest : list string) :
  getlist (VQueryDict q) (Return key) = Return (first :: rest) ->
  truthy (VQueryDict q) = true.
Proof. destruct q; [discriminate | reflexivity]. Qed.

(** X27. Form [i] of a bound formset reads its row from the formset's
    data under the keys "<prefix>-<i>-lookup_type" and
    "<prefix>-<i>-value": the prefix [_construct_form] computes is the one
    [DynamicFilterForm.__init__] builds its keys from, and the helpers are
    called for the lookup type and the values found there.  The keyword
    arguments are the formset's own defaults, which the base constructor
    takes. *)
Theorem construct_form_reads_prefixed_row
    (self : formset) (i : Z) (w : world) (m : django_model)
    (filters : list (string * filter)) (expr : list pyval)
    (q : list (string * list string))
    (first : string) (rest values : list string) (label : pyval) :
  form self = __init__ [] ->
  (forall d, defaults self i ∅ = Return d -> Form_init [] d = Return base_fields) ->
  is_bound self = true ->
  data self = VQueryDict q ->
  truthy (initial self) = false ->
  model w = Some m ->
  get_filterset_for_model m = Return filters ->
  lookup_expr_loop upper filters = Return expr ->
  getlist (VQueryDict q) (Return (add_prefix self i +:+ "-lookup_type"))
    = Return (first :: rest) ->
  getlist (VQueryDict q) (Return (add_prefix self i +:+ "-value")) = Return values ->
  build_lookup_label first = Return label ->
  calls (snd (_construct_form add_fields self i ∅ w)) =
    calls w ++
    [call_get_filterset_for_model m; call_build_lookup_label first] ++
    match values with
    | [] => []
    | _ :: _ => [call_get_filterset_field_data m first values]
    end.
Proof.
  intros Hform Hbase Hbound Hdata Hinit Hm Hfilters Hexpr Htype Hvalue Hlabel.
  assert (Hd : exists d : gmap string pyval,
             defaults self i ∅ = Return d /\
             d !! "data" = Some (VQueryDict q) /\
             d !! "prefix" = Some (VStr (add_prefix self i))).
  { unfold defaults. rewrite Hbound, Hinit, Hdata. cbn [andb].
    eexists. split; [reflexivity |].
    rewrite !lookup_union_r by apply lookup_empty.
    destruct (_ && _); repeat (rewrite lookup_insert_ne by discriminate);
      (split; [apply lookup_insert_eq |]);
      repeat (rewrite lookup_insert_ne by discriminate); apply lookup_insert_eq. }
  destruct Hd as (d & Hd & Hddata & Hdprefix).
  pose proof (Hbase d Hd) as Hb.
  pose proof (getlist_truthy _ _ _ _ Htype) as Hq.
  pose proof (add_prefix_truthy self i) as Hp.
  unfold _construct_form, bind at 1, lift at 1. rewrite Hd, Hform.
  assert (Hcalls :
    calls (snd (__init__ [] d w)) =
      calls w ++
      [call_get_filterset_for_model m; call_build_lookup_label first] ++
      match values with
      | [] => []
      | _ :: _ => [call_get_filterset_field_data m first values]
      end).
  { unfold DynamicFilterForm.__init__, DynamicFilterForm.get_lookup_expr_choices,
      bind, lift, self_model, record_call, modify.
    destruct w as [mw cw]. cbn in Hm. subst mw.
    rewrite (super_init_fields _ _ _ Hb). cbn -[lookup_expr_loop "+:+" add_prefix].
    rewrite Hfilters, Hexpr, Hddata, Hdprefix. cbn -["+:+" add_prefix getlist truthy].
    rewrite Hq, Hp. cbn -["+:+" add_prefix getlist].
    rewrite Htype, Hvalue. cbn -["+:+"].
    rewrite Hlabel. cbn -["+:+"].
    destruct values as [|v vs].
    - cbn -["+:+"]. rewrite <- app_assoc. reflexivity.
    - unfold DynamicFilterForm.select_or_input_data, bind, lift, self_model,
        record_call, modify, ret, data_getitem. cbn -["+:+"].
      rewrite <- !app_assoc. cbn [app].
      repeat match goal with
      | |- context [match ?x with _ => _ end] =>
          match x with
          | context [match _ with _ => _ end] => fail 1
          | _ => destruct x
          end
      | |- context [if ?x then _ else _] => destruct x
      end; cbn -["+:+"]; try reflexivity. }
  unfold bind, lift.
  destruct (__init__ [] d w) as [[f|e] w'] eqn:Hrun; cbn in Hcalls |- *.
  - destruct (add_fields self f i); exact Hcalls.
  - exact Hcalls.
Qed.

End FormsetRowMore.

(** ** The further properties on example inputs *)

Section OnMoreExamples.
Import Examples MoreExamples DynamicFilterForm DynamicFilterFormBaseFormSet.

Lemma import_yaml_document_stored_unchecked_witness :
  fst (ImportForm.clean json_loads_impl yaml_load_sequence
         (import_form "yaml" "- 1")) = Return tt.
Proof.
  rewrite (import_yaml_document_stored_unchecked json_loads_impl yaml_load_sequence
             (import_form "yaml" "- 1") "- 1" (VStr "yaml") (VList [VInt 1])
             eq_refl eq_refl eq_refl eq_refl eq_refl).
  reflexivity.
Defined.

Lemma import_failure_and_cleaned_data_witness :
  cleaned_data (snd (ImportForm.clean json_loads_impl yaml_load_impl
                       (import_form "json" "[1, 2]"))) !! "data"
    = Some (VList [VInt 1; VInt 2])
  /\
  cleaned_data (snd (ImportForm.clean json_loads_impl yaml_load_impl
                       (import_form "json" "nope"))) !! "data"
    = Some (VStr "nope").
Proof.
  split.
  - rewrite (proj1 (import_failure_and_cleaned_data json_loads_impl yaml_load_impl
                      (import_form "json" "[1, 2]") "[1, 2]" eq_refl eq_refl)
               (VList [VInt 1; VInt 2]) eq_refl eq_refl).
    reflexivity.
  - rewrite (proj2 (import_failure_and_cleaned_data json_loads_impl yaml_load_impl
                      (import_form "json" "nope") "nope" eq_refl eq_refl)
               (JSONDecodeError "Expecting value: line 1 column 1 (char 0)") eq_refl).
    reflexivity.
Defined.

Lemma import_other_exceptions_escape_witness :
  fst (ImportForm.clean json_loads_impl yaml_load_impl
         (raw_import_form (VStr "json") (VInt 3)))
    = Raise (TypeError "expected a string")
  /\
  fst (ImportForm.clean json_loads_impl yaml_load_impl
         (raw_import_form (VStr "yaml") (VList [])))
    = Raise (AttributeError "object has no attribute 'read'")
  /\
  fst (ImportForm.clean json_loads_impl yaml_load_impl
         (raw_import_form (VStr "yaml") (VInt 3)))
    = Raise (TypeError "argument is not iterable").
Proof.
  split; [| split].
  - apply (proj1 (import_other_exceptions_escape json_loads_impl yaml_load_impl
                    (raw_import_form (VStr "json") (VInt 3)) (VInt 3) (VStr "json")
                    (TypeError "expected a string") eq_refl eq_refl));
      reflexivity.
  - apply (proj1 (proj2 (import_other_exceptions_escape json_loads_impl yaml_load_impl
                    (raw_import_form (VStr "yaml") (VList [])) (VList []) (VStr "yaml")
                    (AttributeError "object has no attribute 'read'") eq_refl eq_refl)));
      reflexivity.
  - rewrite (proj2 (proj2 (import_other_exceptions_escape json_loads_impl yaml_load_impl
                    (raw_import_form (VStr "yaml") (VInt 3)) (VInt 3) (VStr "yaml")
                    (TypeError "argument is not iterable") eq_refl eq_refl))
               eq_refl eq_refl).
    reflexivity.
Defined.

Lemma rename_compiling_pattern_accepted_witness :
  fst (BulkRenameForm.clean re_compile_impl (rename_form true (Some "eth0")))
    = Return tt.
Proof.
  rewrite (rename_compiling_pattern_accepted re_compile_impl
             (rename_form true (Some "eth0")) (VBool true) "eth0" (VObj "re.Pattern")
             eq_refl eq_refl eq_refl eq_refl).
  reflexivity.
Defined.

Lemma rename_other_exceptions_escape_witness :
  fst (BulkRenameForm.clean re_compile_impl (raw_rename_form (VInt 5)))
    = Raise (TypeError "expected a string").
Proof.
  apply (rename_other_exceptions_escape re_compile_impl
           (raw_rename_form (VInt 5)) (VBool true) (VInt 5)); reflexivity.
Defined.

Lemma bootstrap_touches_three_attributes_witness :
  length (snd (BootstrapMixin.__init__ upload_fields)) = length upload_fields.
Proof.
  apply (bootstrap_touches_three_attributes upload_fields
           (snd (BootstrapMixin.__init__ upload_fields))).
  vm_compute. reflexivity.
Defined.


Lemma bootstrap_second_pass_appends_again_witness :
  exists fs2,
    BootstrapMixin.__init__ (snd (BootstrapMixin.__init__ upload_fields))
      = (Return tt, fs2).
Proof.
  destruct (bootstrap_second_pass_appends_again upload_fields
              (snd (BootstrapMixin.__init__ upload_fields)))
    as (fs2 & Hrun & _).
  - vm_compute. reflexivity.
  - exists fs2. exact Hrun.
Defined.

Lemma lookup_choices_skip_lookup_expressions_witness :
  length device_choices = 3%nat.
Proof.
  pose proof (lookup_choices_skip_lookup_expressions upper device_filters
                device_choices eq_refl) as H.
  apply Forall2_length in H. rewrite <- H. reflexivity.
Defined.


Lemma init_before_factory_raises_witness :
  fst (new_form ∅ (World None [])) = Raise (AttributeError "model") /\
  fst (new_form {[ "colour" := VStr "red" ]} (World None []))
    = Raise (TypeError "__init__() got an unexpected keyword argument").
Proof.
  unfold new_form. split.
  - apply (init_before_factory_raises Form_init get_filterset_for_model
             build_lookup_label get_filterset_field_data StaticSelect2
             APISelectMultiple upper [] ∅ (World None []) eq_refl).
    reflexivity.
  - apply (init_before_factory_raises Form_init get_filterset_for_model
             build_lookup_label get_filterset_field_data StaticSelect2
             APISelectMultiple upper [] {[ "colour" := VStr "red" ]}
             (World None []) eq_refl).
    reflexivity.
Defined.

Lemma init_without_submitted_row_witness :
  calls (snd (new_form ∅ device_world)) = [call_get_filterset_for_model device].
Proof.
  unfold new_form.
  rewrite (init_without_submitted_row Form_init get_filterset_for_model
             build_lookup_label get_filterset_field_data StaticSelect2
             APISelectMultiple upper
             [] ∅ device_world device device_filters device_choices);
    reflexivity.
Defined.

Lemma init_needs_class_on_new_widget_witness :
  fst (__init__ Form_init get_filterset_for_model build_lookup_label
         get_filterset_field_data bare_select APISelectMultiple upper
         [] row_kwargs device_world)
    = Raise (TypeError "sequence item: expected str instance").
Proof.
  apply (init_needs_class_on_new_widget Form_init get_filterset_for_model
           build_lookup_label get_filterset_field_data bare_select
           APISelectMultiple upper
           [] row_kwargs device_world device device_filters device_choices
           "has_primary_ip" [] "True" [] (VStr "exact (has_primary_ip)")
           primary_ip_data (VBool false) yes_no
           (MkWidget (Class "StaticSelect2" ["Select"; "ChoiceWidget"; "Widget"]) ∅));
    try reflexivity.
  intros css. discriminate.
Defined.

Lemma init_calls_helpers_in_order_witness :
  calls (snd (new_form row_kwargs device_world))
    = [ call_get_filterset_for_model device;
        call_build_lookup_label "has_primary_ip";
        call_get_filterset_field_data device "has_primary_ip" ["True"] ].
Proof.
  unfold new_form.
  rewrite (init_calls_helpers_in_order Form_init get_filterset_for_model
             build_lookup_label get_filterset_field_data StaticSelect2
             APISelectMultiple upper
             [] row_kwargs device_world device device_filters device_choices
             "has_primary_ip" [] ["True"] (VStr "exact (has_primary_ip)"));
    reflexivity.
Defined.

Lemma defaults_initial_by_index_witness :
  exists d,
    defaults (seeded_formset (VList initial_rows) false) 1 ∅ = Return d /\
    d !! "initial" = Some (VDict [("lookup_field", VStr "status")]).
Proof.
  apply (defaults_initial_by_index (seeded_formset (VList initial_rows) false)
           1 ∅ initial_rows); [reflexivity | reflexivity | lia].
Defined.

Lemma defaults_carry_formset_state_witness :
  exists d,
    defaults (seeded_formset VNone true) 0 ∅ = Return d /\
    d !! "prefix" = Some (VStr "form-0") /\
    d !! "data" = Some (VQueryDict [("form-TOTAL_FORMS", ["2"])]) /\
    d !! "empty_permitted" = None.
Proof.
  eexists. split; [reflexivity |].
  destruct (defaults_carry_formset_state (seeded_formset VNone true) 0 ∅ _ eq_refl)
    as (Hprefix & _ & _ & Hdata & _ & Hempty & _).
  split; [exact (Hprefix eq_refl) |].
  split; [exact (Hdata eq_refl) |].
  apply Hempty. left. reflexivity.
Defined.

Lemma construct_form_swallows_only_IndexError_witness :
  fst (_construct_form add_fields
         (seeded_formset (VDict [("lookup_field", VStr "name")]) false) 0 ∅
         device_world)
    = Raise (KeyError "0")
  /\
  exists d,
    defaults (seeded_formset (VList initial_rows) false) 5 ∅ = Return d /\
    d !! "initial" = None.
Proof.
  pose proof (construct_form_swallows_only_IndexError add_fields
                (seeded_formset (VDict [("lookup_field", VStr "name")]) false) 0 ∅
                eq_refl) as (Hraise & _ & _).
  pose proof (construct_form_swallows_only_IndexError add_fields
                (seeded_formset (VList initial_rows) false) 5 ∅
                eq_refl) as (_ & Hswallow & _).
  split.
  - rewrite (Hraise (KeyError "0") device_world eq_refl eq_refl);
      [reflexivity | discriminate].
  - apply Hswallow. reflexivity.
Defined.

Lemma factory_assigns_model_before_it_fails_witness :
  model (snd (Factory.dynamic_formset_factory (gmap string pyval)
                (gmap string pyval * pyval) formset_factory new_formset
                site VNone {[ "form" := VObj "OtherForm" ]} device_world))
    = Some site.
Proof.
  rewrite (factory_assigns_model_before_it_fails (gmap string pyval)
             (gmap string pyval * pyval) formset_factory new_formset
             site VNone {[ "form" := VObj "OtherForm" ]} device_world);
    reflexivity.
Defined.

Lemma factory_passes_other_keywords_and_binds_data_witness :
  exists args : gmap string pyval,
    args !! "min_num" = Some (VInt 1) /\
    fst (Factory.dynamic_formset_factory (gmap string pyval)
           (gmap string pyval * pyval) formset_factory new_formset
           site VNone {[ "min_num" := VInt 1 ]} device_world)
      = Return (Factory.FormsetClass args).
Proof.
  destruct (factory_passes_other_keywords_and_binds_data (gmap string pyval)
              (gmap string pyval * pyval) formset_factory new_formset
              site VNone {[ "min_num" := VInt 1 ]} device_world)
    as (args & Hother & _ & _ & _ & Hresult); [reflexivity | reflexivity |].
  exists args. split.
  - rewrite Hother by discriminate. reflexivity.
  - rewrite Hresult. reflexivity.
Defined.

Lemma computed_field_init_keeps_other_arguments_witness :
  exists d d',
    ModelForm.supplied_initial {[ "instance" := ModelForm.AInstance address_instance ]} d /\
    <["initial" := ModelForm.ADict {[ "address" := VStr "10.0.0.1/24" ]}]>
      ({[ "instance" := ModelForm.AInstance address_instance ]} : gmap string ModelForm.karg)
      = <["initial" := ModelForm.ADict d']>
          {[ "instance" := ModelForm.AInstance address_instance ]}.
Proof.
  destruct (proj1 (computed_field_init_keeps_other_arguments
                     {[ "instance" := ModelForm.AInstance address_instance ]}
                     (<["initial" := ModelForm.ADict {[ "address" := VStr "10.0.0.1/24" ]}]>
                        {[ "instance" := ModelForm.AInstance address_instance ]})))
    as (d & d' & Hd & Heq & _); [reflexivity |].
  exists d, d'. split; [exact Hd | exact Heq].
Defined.

Lemma computed_field_init_fails_with_AttributeError_witness :
  AddressFieldMixin.__init__ {[ "initial" := ModelForm.ANone ]}
    = Raise (AttributeError "object has no attribute 'copy'")
  /\
  PrefixFieldMixin.__init__ {[ "instance" := ModelForm.AInstance ∅ ]}
    = Raise (AttributeError "prefix").
Proof.
  split.
  - apply (proj1 (computed_field_init_fails_with_AttributeError
                    {[ "initial" := ModelForm.ANone ]})).
    reflexivity.
  - apply (proj2 (computed_field_init_fails_with_AttributeError
                    {[ "instance" := ModelForm.AInstance ∅ ]}) ∅ ∅);
      try reflexivity.
    right. split; reflexivity.
Defined.

Lemma csv_headers_set_target_fields_witness :
  exists fs',
    CSVModelForm.__init__ (Some csv_headers) csv_fields = (Return tt, fs') /\
    fs' !! "site" = Some {[ "to_field_name" := VStr "slug" ]} /\
    fs' !! "tenant" = Some {[ "to_field_name" := VNone ]}.
Proof.
  destruct (csv_headers_set_target_fields csv_headers csv_fields)
    as (fs' & Hrun & _ & Hvalues).
  - apply (bool_decide_unpack _). vm_compute. exact I.
  - intros field t [[= <- <-]|[[= <- <-]|[[= <- <-]|[]]]] Ht;
      try (exfalso; apply Ht; reflexivity).
    eexists. reflexivity.
  - exists fs'. split; [exact Hrun |]. split.
    + rewrite (proj1 (Hvalues "site" {[ "to_field_name" := VNone ]} eq_refl)
                 (VStr "slug")); [reflexivity | | discriminate].
      right. left. reflexivity.
    + apply (proj2 (Hvalues "tenant" {[ "to_field_name" := VNone ]} eq_refl)).
      intros t Hin. cbn in Hin. destruct Hin as [H|[H|[H|[]]]]; discriminate H.
Defined.

Lemma csv_unknown_field_raises_KeyError_witness :
  fst (CSVModelForm.__init__
         (Some ([("site", VStr "slug")] ++ ("colour", VStr "hex") :: [("name", VNone)]))
         csv_fields)
    = Raise (KeyError "colour").
Proof.
  destruct (csv_unknown_field_raises_KeyError
              [("site", VStr "slug")] [("name", VNone)] "colour" (VStr "hex") csv_fields)
    as (fs1 & _ & Hfail).
  - intros f u [[= <- <-]|[]] _. eexists. reflexivity.
  - discriminate.
  - reflexivity.
  - rewrite Hfail. reflexivity.
Defined.

Lemma construct_form_reads_prefixed_row_witness :
  calls (snd (_construct_form add_fields bound_filter_formset 0 ∅ device_world))
    = [ call_get_filterset_for_model device;
        call_build_lookup_label "has_primary_ip";
        call_get_filterset_field_data device "has_primary_ip" ["True"] ].
Proof.
  rewrite (construct_form_reads_prefixed_row Form_init get_filterset_for_model
             build_lookup_label get_filterset_field_data StaticSelect2
             APISelectMultiple upper add_fields bound_filter_formset 0
             device_world device device_filters device_choices
             [("form-0-lookup_type", ["has_primary_ip"]); ("form-0-value", ["True"])]
             "has_primary_ip" [] ["True"] (VStr "exact (has_primary_ip)"));
    try reflexivity.
  intros d [= <-]. reflexivity.
Defined.

End OnMoreExamples.
